(** * MI equipment rental server: field mapper, inventory cache, item
      service and authorization lookup of [main.py]

    The module is embedded shallowly.  Python [str] values are byte
    strings holding UTF-8 text, [int] is [Z], a [dict] is an
    insertion-ordered association list, exceptions are an error result and
    the module globals ([cache], [last_checked_ts]) together with the
    output of [print] and the requests sent to the wiki form an explicit
    world that every handler threads through. *)

From Stdlib Require Import ZArith NArith List String Ascii Lia DecimalString
  DecimalPos DecimalN.
From stdpp Require Import base option list strings gmap.
Import ListNotations.
Local Open Scope string_scope.
Local Open Scope Z_scope.

(** ** Python built-ins used by the module *)

Module Py.

(** [s.startswith(p)] *)
Definition startswith (s p : string) : bool := String.prefix p s.

(** [s.split(sep)] for a one-character separator: never empty. *)
Fixpoint split (sep : ascii) (s : string) : list string :=
  match s with
  | EmptyString => [EmptyString]
  | String c s' =>
      if Ascii.eqb c sep then EmptyString :: split sep s'
      else match split sep s' with
           | seg :: segs => String c seg :: segs
           | [] => [String c EmptyString]
           end
  end.

(** [s.replace(old, new)] for a non-empty [old]: every occurrence, left
    to right, without overlap.  [skip] counts the characters of an
    occurrence that was just replaced and are still to be passed over. *)
Fixpoint replace_go (old new : string) (skip : nat) (s : string) : string :=
  match s with
  | EmptyString => EmptyString
  | String c s' =>
      match skip with
      | S n => replace_go old new n s'
      | O => if String.prefix old s
             then new ++ replace_go old new (Nat.pred (String.length old)) s'
             else String c (replace_go old new O s')
      end
  end.

Definition replace (old new s : string) : string := replace_go old new O s.

(** The blanks that [int()] strips: tab, line feed, vertical tab, form
    feed, carriage return and space. *)
Definition isspace (c : ascii) : bool :=
  let n := N_of_ascii c in ((9 <=? n) && (n <=? 13) || (n =? 32))%N.

Definition isdigit (c : ascii) : bool :=
  let n := N_of_ascii c in ((48 <=? n) && (n <=? 57))%N.

Definition digit_value (c : ascii) : Z := Z.of_N (N_of_ascii c) - 48.

Fixpoint lstrip (s : list ascii) : list ascii :=
  match s with
  | c :: s' => if isspace c then lstrip s' else s
  | [] => []
  end.

Definition strip (s : list ascii) : list ascii := rev (lstrip (rev (lstrip s))).

(** Decimal digits, single underscores allowed between two digits. *)
Fixpoint int_digits (acc : Z) (after_digit : bool) (s : list ascii) : option Z :=
  match s with
  | [] => if after_digit then Some acc else None
  | c :: s' =>
      if isdigit c then int_digits (10 * acc + digit_value c) true s'
      else if Ascii.eqb c "_" then
             if after_digit then int_digits acc false s' else None
           else None
  end.

(** [int(s)] in base ten; [None] stands for [ValueError].  The parser is
    exact on ASCII text of at most 4300 characters: decimal digits and
    blanks beyond ASCII are not interpreted, and no limit is put on the
    number of digits.  Statements that depend on what is not an integer
    carry that restriction as a hypothesis. *)
Definition int (s : string) : option Z :=
  match strip (list_ascii_of_string s) with
  | c :: s' =>
      if Ascii.eqb c "-" then Z.opp <$> int_digits 0 false s'
      else if Ascii.eqb c "+" then int_digits 0 false s'
      else int_digits 0 false (c :: s')
  | [] => None
  end.

Definition str_of_N (n : N) : string := NilZero.string_of_uint (N.to_uint n).

Fixpoint zeros (n : nat) : string :=
  match n with O => EmptyString | S n' => String "0" (zeros n') end.

Definition zfill (width : nat) (s : string) : string :=
  zeros (width - String.length s) ++ s.

(** [f"{z:03d}"]: zero padding to three columns, the sign included. *)
Definition format_03d (z : Z) : string :=
  if z <? 0 then "-" ++ zfill 2 (str_of_N (Z.abs_N z))
  else zfill 3 (str_of_N (Z.to_N z)).

(** [b.decode('utf-8')] on the bytes of [b]: well-formedness of the
    encoding, as the strict codec checks it. *)
Definition cont (b : N) : bool := ((128 <=? b) && (b <=? 191))%N.
Definition between (lo hi b : N) : bool := ((lo <=? b) && (b <=? hi))%N.

Fixpoint utf8_ok (bs : list N) : bool :=
  match bs with
  | [] => true
  | b0 :: t0 =>
      if (b0 <? 128)%N then utf8_ok t0
      else match t0 with
      | [] => false
      | b1 :: t1 =>
          if between 194 223 b0 then cont b1 && utf8_ok t1
          else match t1 with
          | [] => false
          | b2 :: t2 =>
              if (b0 =? 224)%N then between 160 191 b1 && cont b2 && utf8_ok t2
              else if (b0 =? 237)%N then between 128 159 b1 && cont b2 && utf8_ok t2
              else if between 225 239 b0 then cont b1 && cont b2 && utf8_ok t2
              else match t2 with
              | [] => false
              | b3 :: t3 =>
                  if (b0 =? 240)%N
                  then between 144 191 b1 && cont b2 && cont b3 && utf8_ok t3
                  else if between 241 243 b0
                  then cont b1 && cont b2 && cont b3 && utf8_ok t3
                  else if (b0 =? 244)%N
                  then between 128 143 b1 && cont b2 && cont b3 && utf8_ok t3
                  else false
              end
          end
      end
  end.

Definition decode_utf8 (b : string) : option string :=
  if utf8_ok (map N_of_ascii (list_ascii_of_string b)) then Some b else None.

End Py.

Arguments Py.startswith : simpl never.
Arguments Py.split : simpl never.
Arguments Py.int : simpl never.
Arguments Py.format_03d : simpl never.
Arguments Py.replace : simpl never.
Arguments Py.decode_utf8 : simpl never.

(** ** Insertion-ordered dictionaries *)

Section Dict.
Context {K V : Type} `{EqDecision K}.

Definition dict : Type := list (K * V).

(** [d.get(k)]; [d[k]] raises [KeyError] where this is [None]. *)
Fixpoint dict_get (k : K) (d : dict) : option V :=
  match d with
  | [] => None
  | (k', v) :: d' => if decide (k = k') then Some v else dict_get k d'
  end.

(** [d[k] = v]: an existing key keeps its place, a new one goes last. *)
Fixpoint dict_set (k : K) (v : V) (d : dict) : dict :=
  match d with
  | [] => [(k, v)]
  | (k', v') :: d' =>
      if decide (k = k') then (k', v) :: d' else (k', v') :: dict_set k v d'
  end.

Definition dict_keys (d : dict) : list K := map fst d.

Definition dict_mem (k : K) (d : dict) : bool :=
  match dict_get k d with Some _ => true | None => false end.

End Dict.

Arguments dict : clear implicits.


(** ** Exceptions *)

Inductive exn : Type :=
| KeyError | IndexError | ValidationError | AssertionError
| DokuWikiError | LdapError | UnicodeDecodeError.

Inductive result (A : Type) : Type :=
| Ok (a : A)
| Raise (e : exn).

Arguments Ok {A} a.
Arguments Raise {A} e.

#[global] Instance result_ret : MRet result := @Ok.
#[global] Instance result_bind : MBind result := fun A B f r =>
  match r with Ok a => f a | Raise e => Raise e end.

(** ** Data model *)

(** The values that records carry: [None], a string, a list of strings, or
    the descriptor that the [Item] class keeps for one of its fields. *)
Inductive pyval : Type :=
| PNone
| PStr (s : string)
| PList (l : list string)
| PField (name : string).

#[global] Instance pyval_eq_dec : EqDecision pyval.
Proof. solve_decision. Defined.

(** A wiki record ([Dict[str, str]] by its annotation). *)
Abbreviation raw := (dict string pyval).

Record date : Type := Date { year : Z; month : Z; day : Z }.

(** The coercion of a string to a [date] belongs to the validation
    library; the model takes it as given. *)
Class DateParser : Type := { parse_date : string -> option date }.

Record Item : Type := mkItem {
  uid : option Z;
  typ : option (list string);
  name : option string;
  standort : option string;
  os : option string;
  zubehoer : option string;
  seriennummern : option string;
  status : option string;
  ausleiher : option string;
  von : option date;
  bis : option date;
  anmerkungen : option string;
  url : option string
}.

(** [Item.__fields__]: field name to field descriptor, in declaration
    order. *)
Definition Item_fields : dict string pyval :=
  map (fun k => (k, PField k))
      ["uid"; "typ"; "name"; "standort"; "os"; "zubehoer"; "seriennummern";
       "status"; "ausleiher"; "von"; "bis"; "anmerkungen"; "url"].

Definition Item_empty : Item :=
  mkItem None None None None None None None None None None None None None.

Definition DW_TO_I : dict string string :=
  [("ID", "uid");
   ("Name", "name");
   ("Typ_devicetypes", "typ");
   ("Standort", "standort");
   ("OS", "os");
   ("Zubehör", "zubehoer");
   ("Seriennummern", "seriennummern");
   ("Status_devicestat", "status");
   ("Ausleiher", "ausleiher");
   ("Von_dt", "von");
   ("Bis_dt", "bis");
   ("Anmerkungen", "anmerkungen")].

(** [{value: key for key, value in DW_TO_I.items()}] *)
Definition I_TO_DW : dict string string :=
  fold_left (fun d kv => dict_set (snd kv) (fst kv) d) DW_TO_I [].

(** *** Validation by the declared field types, as the [Item] constructor
    runs it on its keyword arguments *)

Definition validate_int (v : option pyval) : result (option Z) :=
  match v with
  | None | Some PNone => Ok None
  | Some (PStr s) =>
      match Py.int s with Some z => Ok (Some z) | None => Raise ValidationError end
  | Some _ => Raise ValidationError
  end.

Definition validate_str (v : option pyval) : result (option string) :=
  match v with
  | None | Some PNone => Ok None
  | Some (PStr s) => Ok (Some s)
  | Some _ => Raise ValidationError
  end.

Definition validate_list_str (v : option pyval) : result (option (list string)) :=
  match v with
  | None | Some PNone => Ok None
  | Some (PList l) => Ok (Some l)
  | Some _ => Raise ValidationError
  end.

Definition validate_date `{DateParser} (v : option pyval) : result (option date) :=
  match v with
  | None | Some PNone => Ok None
  | Some (PStr s) =>
      match parse_date s with Some d => Ok (Some d) | None => Raise ValidationError end
  | Some _ => Raise ValidationError
  end.

Definition Item_init `{DateParser} (f : dict string pyval) : result Item :=
  f_uid ← validate_int (dict_get "uid" f);
  f_typ ← validate_list_str (dict_get "typ" f);
  f_name ← validate_str (dict_get "name" f);
  f_standort ← validate_str (dict_get "standort" f);
  f_os ← validate_str (dict_get "os" f);
  f_zubehoer ← validate_str (dict_get "zubehoer" f);
  f_seriennummern ← validate_str (dict_get "seriennummern" f);
  f_status ← validate_str (dict_get "status" f);
  f_ausleiher ← validate_str (dict_get "ausleiher" f);
  f_von ← validate_date (dict_get "von" f);
  f_bis ← validate_date (dict_get "bis" f);
  f_anmerkungen ← validate_str (dict_get "anmerkungen" f);
  f_url ← validate_str (dict_get "url" f);
  Ok (mkItem f_uid f_typ f_name f_standort f_os f_zubehoer f_seriennummern
             f_status f_ausleiher f_von f_bis f_anmerkungen f_url).

(** ** Collaborators and process state *)

Record Settings : Type := mkSettings {
  app_name : string;
  admin_email : string;
  wiki_server : string;
  wiki_path : string;
  wiki_user : string;
  wiki_pw : string;
  ldap_server : string;
  ldap_base_dn : string;
  ldap_scope : Z;
  groups_with_edit_rights : list string
}.

Definition SCOPE_SUBTREE : Z := 2.

(** The defaults of the [Settings] class; user and password have none. *)
Definition default_settings (user pw : string) : Settings :=
  {| app_name := "MI Rental";
     admin_email := "raphael.wimmer@ur.de";
     wiki_server := "https://wiki.mi.ur.de";
     wiki_path := "lab:ausstattung:";
     wiki_user := user;
     wiki_pw := pw;
     ldap_server := "ldaps://ldapauth2.uni-regensburg.de:636";
     ldap_base_dn := "o=uni-regensburg,c=de";
     ldap_scope := SCOPE_SUBTREE;
     groups_with_edit_rights :=
       ["mi-staff.mi.sprachlit.uni-regensburg.de";
        "mi-shk.mi.sprachlit.uni-regensburg.de"] |}.

(** A page descriptor as the wiki lists it: ['id'] in a namespace listing,
    ['name'] in the list of recent changes. *)
Abbreviation page := (dict string string).

(** The wiki client.  Every remote call may fail with [DokuWikiError];
    [Dataentry_get] is the client library's local parser of a page text. *)
Record DokuWiki : Type := mkDokuWiki {
  pages_list : string -> result (list page);
  pages_changes : option Z -> result (list page);
  pages_info : string -> result (dict string string);
  pages_get : string -> result string;
  Dataentry_get : string -> result raw
}.

Abbreviation ldap_attrs := (dict string (list string)).

Inductive ldap_reply : Type :=
| LdapEntries (es : list (string * ldap_attrs))
| LdapTimeout
| LdapFailure.

Record Directory : Type := mkDirectory {
  search_ext_s : string -> Z -> string -> Z -> ldap_reply
}.

Record Env : Type := mkEnv {
  settings : Settings;
  dw : DokuWiki;
  l : Directory;
  now : Z            (* [int(datetime.now().timestamp())] *)
}.

(** What [print] writes. *)
Inductive event : Type :=
| PrintItemNoType (u : pyval)
| PrintNoTypeNoId
| PrintFields (f : dict string pyval)
| PrintMissing (pg : string)
| PrintPage (p : page)
| PrintChanged (n : nat)
| PrintNotAnItem (s : string)
| PrintCacheSize (n : nat)
| PrintItemGenerated
| PrintLdapResult (a : ldap_attrs).

(** The requests that reach the wiki server. *)
Inductive request : Type :=
| ReqList (ns : string)
| ReqChanges (ts : option Z)
| ReqInfo (pg : string)
| ReqGet (pg : string).

Record World : Type := mkWorld {
  cache : dict Z raw;
  last_checked_ts : option Z;
  stdout : list event;
  requests : list request
}.

Definition World_init : World := mkWorld [] None [] [].

(** ** Handlers: state and exceptions *)

Definition M (A : Type) : Type := World -> result A * World.

Definition ret {A} (a : A) : M A := fun w => (Ok a, w).
Definition raise {A} (e : exn) : M A := fun w => (Raise e, w).
Definition bind {A B} (m : M A) (k : A -> M B) : M B := fun w =>
  match m w with
  | (Ok a, w') => k a w'
  | (Raise e, w') => (Raise e, w')
  end.

#[global] Instance M_ret : MRet M := @ret.
#[global] Instance M_bind : MBind M := fun A B k m => bind m k.

Definition lift {A} (r : result A) : M A := fun w => (r, w).

Definition print (e : event) : M unit := fun w =>
  (Ok tt, mkWorld (cache w) (last_checked_ts w) (stdout w ++ [e]) (requests w)).

Definition send (r : request) : M unit := fun w =>
  (Ok tt, mkWorld (cache w) (last_checked_ts w) (stdout w) (requests w ++ [r])).

Definition get_cache : M (dict Z raw) := fun w => (Ok (cache w), w).
Definition set_cache (c : dict Z raw) : M unit := fun w =>
  (Ok tt, mkWorld c (last_checked_ts w) (stdout w) (requests w)).

Definition get_ts : M (option Z) := fun w => (Ok (last_checked_ts w), w).
Definition set_ts (t : option Z) : M unit := fun w =>
  (Ok tt, mkWorld (cache w) t (stdout w) (requests w)).

Fixpoint for_each {A} (xs : list A) (body : A -> M unit) : M unit :=
  match xs with
  | [] => ret tt
  | x :: xs' => body x;; for_each xs' body
  end.

Fixpoint map_m {A B} (f : A -> M B) (xs : list A) : M (list B) :=
  match xs with
  | [] => ret []
  | x :: xs' => y ← f x; ys ← map_m f xs'; ret (y :: ys)
  end.

(** [d[k]] *)
Definition subscript {K V} `{EqDecision K} (d : dict K V) (k : K) : M V :=
  match dict_get k d with Some v => ret v | None => raise KeyError end.

(** ** Field mapper *)

(** The loop of [_dw_to_item]: a key of the map sets its target field, an
    empty string becomes [None], a key outside the map is passed over. *)
Definition collect_step (dataentry : raw) (item_fields : dict string pyval)
    (k : string) : dict string pyval :=
  match dict_get k DW_TO_I, dict_get k dataentry with
  | Some target_field, Some v =>
      if decide (v = PStr "")
      then dict_set target_field PNone item_fields
      else dict_set target_field v item_fields
  | _, _ => item_fields
  end.

Definition collect_fields (dataentry : raw) : dict string pyval :=
  fold_left (collect_step dataentry) (dict_keys dataentry) [].

Definition _dw_to_item `{DateParser} (dataentry : raw) : M Item :=
  let item_fields := collect_fields dataentry in
  item_fields ←
    match dict_get "typ" item_fields with
    | Some (PStr s) => ret (dict_set "typ" (PList [s]) item_fields)
    | Some _ => ret item_fields
    | None =>
        match dict_get "uid" item_fields with
        | Some u => print (PrintItemNoType u);; ret item_fields
        | None => print PrintNoTypeNoId;; print (PrintFields item_fields);;
                  ret item_fields
        end
    end;
  lift (Item_init item_fields).

(** The loop of [_item_to_dw] runs over the field table of the class and
    stores, under the wiki name of a field, the entry of that table. *)
Definition _item_to_dw (item : Item) : raw :=
  fold_left
    (fun dataentry k =>
       match dict_get k I_TO_DW, dict_get k Item_fields with
       | Some target_field, Some descr => dict_set target_field descr dataentry
       | _, _ => dataentry
       end)
    (dict_keys Item_fields) [].

(** ** Inventory cache *)

Definition wiki_list (env : Env) (ns : string) : M (list page) :=
  send (ReqList ns);; lift (pages_list (dw env) ns).
Definition wiki_changes (env : Env) (ts : option Z) : M (list page) :=
  send (ReqChanges ts);; lift (pages_changes (dw env) ts).
Definition wiki_info (env : Env) (pg : string) : M (dict string string) :=
  send (ReqInfo pg);; lift (pages_info (dw env) pg).
Definition wiki_get (env : Env) (pg : string) : M string :=
  send (ReqGet pg);; lift (pages_get (dw env) pg).

Definition page_of (env : Env) (uid : Z) : string :=
  wiki_path (settings env) ++ Py.format_03d uid.

Definition get_dataentry (env : Env) (uid : Z) : M raw :=
  let pg := page_of env uid in
  info ← wiki_info env pg;
  match info with
  | [] => print (PrintMissing pg);; ret []
  | _ :: _ =>
      content ← wiki_get env pg;
      lift (Dataentry_get (dw env) content)
  end.

(** [not since_ts] *)
Definition unset (since_ts : option Z) : bool :=
  match since_ts with
  | None => true
  | Some t => t =? 0
  end.

(** [page['id'].split(":")[-1]] *)
Definition id_suffix (id : string) : M string :=
  match last (Py.split ":" id) with
  | Some seg => ret seg
  | None => raise IndexError
  end.

(** The body of the loop over the pages to refresh. *)
Definition refresh_page (env : Env) (pg : page) : M unit :=
  id ← subscript pg "id";
  seg ← id_suffix id;
  match Py.int seg with
  | None => print (PrintNotAnItem seg)
  | Some uid =>
      data ← get_dataentry env uid;
      c ← get_cache;
      set_cache (dict_set uid data c)
  end.

(** The loop that keeps the changed pages of the namespace. *)
Fixpoint changed_items (env : Env) (changed_pages acc : list page) : M (list page) :=
  match changed_pages with
  | [] => ret acc
  | pg :: rest =>
      print (PrintPage pg);;
      nm ← subscript pg "name";
      if Py.startswith nm (wiki_path (settings env))
      then changed_items env rest (acc ++ [dict_set "id" nm pg])%list
      else changed_items env rest acc
  end.

(** The first half of [update_cache]: which pages to refresh.  Without a
    watermark the cache is emptied and the whole namespace is listed. *)
Definition pages_to_refresh (env : Env) (since_ts : option Z) : M (list page) :=
  if unset since_ts then
    set_cache [];;
    wiki_list env (wiki_path (settings env))
  else
    ts ← get_ts;
    changed_pages ← wiki_changes env ts;
    items ← changed_items env changed_pages [];
    print (PrintChanged (length items));;
    ret items.

Definition update_cache (env : Env) (since_ts : option Z) : M Z :=
  changed_item_pages ← pages_to_refresh env since_ts;
  for_each changed_item_pages (refresh_page env);;
  c ← get_cache;
  print (PrintCacheSize (length c));;
  ret (now env).

(** What the two debugging endpoints answer. *)
Record CacheReport : Type := mkReport {
  report_last_checked : option Z;
  report_cache_size : nat
}.

Definition report : M CacheReport :=
  ts ← get_ts; c ← get_cache; ret (mkReport ts (length c)).

Definition update_cache_now (env : Env) : M CacheReport :=
  ts ← get_ts;
  t ← update_cache env ts;
  set_ts (Some t);;
  report.

Definition purge_cache (env : Env) : M CacheReport :=
  t ← update_cache env None;
  set_ts (Some t);;
  report.

(** ** Item service *)

(** The program runs with assertions enabled: [assert False] raises, and
    the statements after it are never reached. *)
Definition list_items `{DateParser} (env : Env) : M (list Item) :=
  ts ← get_ts;
  t ← update_cache env ts;
  set_ts (Some t);;
  c ← get_cache;
  match c with
  | _ :: _ => map_m (fun i => d ← subscript c i; _dw_to_item d) (dict_keys c)
  | [] => raise AssertionError
  end.

Definition read_item `{DateParser} (env : Env) (item_id : Z) (purge : bool) : M Item :=
  c ← get_cache;
  dataentry ←
    (if purge || negb (dict_mem item_id c) then
       dataentry ← get_dataentry env item_id;
       c ← get_cache;
       set_cache (dict_set item_id dataentry c);;
       ret dataentry
     else subscript c item_id);
  item ← _dw_to_item dataentry;
  print PrintItemGenerated;;
  ret item.

(** ** Authorization lookup *)

Record UserData : Type := mkUserData {
  user_id : string;
  user_name : string;
  user_mail : string;
  user_groups : list string;
  user_allowed : list string
}.

Definition decode (b : string) : M string :=
  match Py.decode_utf8 b with
  | Some s => ret s
  | None => raise UnicodeDecodeError
  end.

(** The flat dotted name of a group, from its distinguished name. *)
Definition normalize_group (g : string) : string :=
  Py.replace ",c=" "."
    (Py.replace ",o=" "."
       (Py.replace ",ou=" "." (Py.replace "cn=" "" g))).

(** [set(edit).intersection(set(groups))] as a condition: non-empty. *)
Definition groups_intersect (edit groups : list string) : bool :=
  bool_decide
    ((list_to_set edit : gset string) ∩ list_to_set groups ≠ ∅).

(** [attrs[key][0].decode('utf-8')] *)
Definition first_decoded (attrs : ldap_attrs) (key : string) : M string :=
  vs ← subscript attrs key;
  match vs with
  | v :: _ => decode v
  | [] => raise IndexError
  end.

Definition user_query (uid : string) : string :=
  "(&(cn=" ++ uid ++ ")(objectClass=urrzUser))".

Definition read_user_data (env : Env) (uid : string) : M (option UserData) :=
  match search_ext_s (l env) (ldap_base_dn (settings env))
                     (ldap_scope (settings env)) (user_query uid) 5 with
  | LdapTimeout => ret None
  | LdapFailure => raise LdapError
  | LdapEntries results =>
      match results with
      | [(_, attrs)] =>
          print (PrintLdapResult attrs);;
          members ← subscript attrs "groupMembership";
          groups ← map_m (fun g => s ← decode g; ret (normalize_group s)) members;
          let allowed :=
            (["read_item"; "list_items"] ++
             (if groups_intersect (groups_with_edit_rights (settings env)) groups
              then ["update_item"] else []))%list in
          nm ← first_decoded attrs "fullName";
          mail ← first_decoded attrs "mail";
          ret (Some (mkUserData uid nm mail groups allowed))
      | _ => raise AssertionError
      end
  end.

(** A client that reads the same item again and again, each time against
    whatever the environment then is. *)
Fixpoint read_again `{DateParser} (envs : list Env) (item_id : Z) (w : World)
  : list (result Item) * World :=
  match envs with
  | [] => ([], w)
  | env :: envs' =>
      let '(r, w1) := read_item env item_id false w in
      let '(rs, w2) := read_again envs' item_id w1 in
      (r :: rs, w2)
  end.

(** ** Derived views used in the statements *)

(** The uid that the refresh loop reads off a page descriptor. *)
Definition page_uid (pg : page) : option Z :=
  id ← dict_get "id" pg;
  seg ← last (Py.split ":" id);
  Py.int seg.

(** The uid that the mapper reads off the content of a record. *)
Definition content_uid (dataentry : raw) : option Z :=
  match dict_get "ID" dataentry with
  | Some (PStr s) => Py.int s
  | _ => None
  end.

(** [None] for the empty string, the value itself otherwise. *)
Definition blank_to_none (v : pyval) : pyval :=
  if decide (v = PStr "") then PNone else v.

Definition with_cache (c : dict Z raw) (w : World) : World :=
  mkWorld c (last_checked_ts w) (stdout w) (requests w).

(** ** Sample data *)

Module Sample.

(** Dates written year-month-day, for the examples. *)
Definition ymd (s : string) : option date :=
  match Py.split "-" s with
  | [y; m; d] =>
      y ← Py.int y; m ← Py.int m; d ← Py.int d; Some (Date y m d)
  | _ => None
  end.

Definition dates : DateParser := {| parse_date := ymd |}.

Definition beamer : raw :=
  [("ID", PStr "42");
   ("Name", PStr "Beamer Epson");
   ("Typ_devicetypes", PStr "Beamer");
   ("Standort", PStr "Safe");
   ("OS", PStr "none");
   ("Zubehör", PStr "Kabel");
   ("Seriennummern", PStr "X1");
   ("Status_devicestat", PStr "entliehen");
   ("Ausleiher", PStr "abc12345");
   ("Von_dt", PStr "2021-05-01");
   ("Bis_dt", PStr "2021-06-01");
   ("Anmerkungen", PStr "ok")].

(** The same record filed under another number. *)
Definition relabelled : raw := dict_set "ID" (PStr "7") beamer.

(** A wiki whose namespace lists [listing] and whose pages are [store]:
    a page outside [store] does not exist, a page stored as an error
    cannot be reached. *)
Definition wiki (listing : list string) (store : dict string (result raw)) : DokuWiki :=
  {| pages_list := fun _ => Ok (map (fun id => [("id", id)]) listing);
     pages_changes := fun _ => Ok (map (fun id => [("name", id)]) listing);
     pages_info := fun pg =>
       match dict_get pg store with
       | None => Ok []
       | Some (Ok _) => Ok [("name", pg)]
       | Some (Raise e) => Raise e
       end;
     pages_get := fun pg => Ok pg;
     Dataentry_get := fun content =>
       match dict_get content store with
       | Some r => r
       | None => Raise DokuWikiError
       end |}.

Definition staff_dn : string :=
  "cn=mi-staff,ou=mi,ou=sprachlit,o=uni-regensburg,c=de".
Definition student_dn : string :=
  "cn=stud,ou=mi,ou=sprachlit,o=uni-regensburg,c=de".

Definition directory : Directory :=
  {| search_ext_s := fun _ _ q _ =>
       if decide (q = user_query "abc12345") then
         LdapEntries [("cn=abc12345,o=uni-regensburg,c=de",
                       [("groupMembership", [student_dn; staff_dn]);
                        ("fullName", ["A B"]); ("mail", ["a.b@ur.de"])])]
       else if decide (q = user_query "stu00001") then
         LdapEntries [("cn=stu00001,o=uni-regensburg,c=de",
                       [("groupMembership", [student_dn]);
                        ("fullName", ["S T"]); ("mail", ["s.t@ur.de"])])]
       else if decide (q = user_query "slow") then LdapTimeout
       else LdapEntries [] |}.

Definition env_of (d : DokuWiki) : Env :=
  mkEnv (default_settings "api" "secret") d directory 1620000000.

(** Page 042 and a page that is not an item. *)
Definition env_lab : Env :=
  env_of (wiki ["lab:ausstattung:042"; "lab:ausstattung:readme"]
               [("lab:ausstattung:042", Ok beamer)]).

(** Page 007 is listed but does not exist. *)
Definition env_missing : Env :=
  env_of (wiki ["lab:ausstattung:007"; "lab:ausstattung:042"]
               [("lab:ausstattung:042", Ok beamer)]).


(** Page 042 holds a record whose ID field says 7. *)
Definition env_relabelled : Env :=
  env_of (wiki ["lab:ausstattung:042"]
               [("lab:ausstattung:042", Ok relabelled)]).

(** A namespace without pages. *)
Definition env_empty : Env := env_of (wiki [] []).

End Sample.


(** ** Endpoints that are placeholders *)

(** [GET /search]; the function is a second [read_item] of the module. *)
Definition search_read_item (q : option string) : M (list (Z * string)) :=
  let q := match q with
           | None | Some EmptyString => "TEST"      (* [not q] *)
           | Some s => s
           end in
  ret [(123, q)].

(** [{"item_name": item.name, "item_id": item_id}] *)
Definition update_item (item_id : Z) (item : Item) : M (option string * Z) :=
  ret (name item, item_id).

Definition rent_item (item_id : Z) (user_name : string) (from_date : date)
    (to_date : option date) (comment : option string) : M unit :=
  ret tt.

(** [({"status": "success"}, {"item_id": item_id, "name": "TEST"})] *)
Definition return_item (item_id : Z) (user_name : string)
    (comment : option string) : M (string * (Z * string)) :=
  ret ("success", (item_id, "TEST")).

(** ** Further views used in the statements *)

(** What a text field of an item holds for a value of the record. *)
Definition text_of (v : option pyval) : option string :=
  match v with
  | Some (PStr s) => if decide (s = "") then None else Some s
  | _ => None
  end.

(** What [typ] holds for a value of the record. *)
Definition typ_of (v : option pyval) : option (list string) :=
  match v with
  | Some (PStr s) => if decide (s = "") then None else Some [s]
  | Some (PList l) => Some l
  | _ => None
  end.

(** The keyword arguments that [_dw_to_item] hands to the constructor. *)
Definition item_fields_of (dataentry : raw) : dict string pyval :=
  let item_fields := collect_fields dataentry in
  match dict_get "typ" item_fields with
  | Some (PStr s) => dict_set "typ" (PList [s]) item_fields
  | _ => item_fields
  end.

(** A record as annotated: every value a string. *)
Definition all_strings (dataentry : raw) : Prop :=
  ∀ k v, dict_get k dataentry = Some v → ∃ s, v = PStr s.

(** A string field that the constructor can coerce with [parse]. *)
Definition coercible {A} (parse : string → option A) (v : option pyval) : Prop :=
  match v with
  | Some (PStr s) => s = "" ∨ is_Some (parse s)
  | _ => True
  end.

(** The changed pages that lie in the namespace, each with its name as
    identifier. *)
Definition namespace_items (env : Env) (changed_pages : list page) : list page :=
  omap (fun pg =>
          nm ← dict_get "name" pg;
          if Py.startswith nm (wiki_path (settings env))
          then Some (dict_set "id" nm pg) else None)
       changed_pages.

(** The strings on which [Py.int] is the [int()] of every interpreter:
    ASCII text of at most 4300 characters.  Beyond ASCII, [int()] also
    reads the decimal digits and the blanks of other scripts, and from 4301
    digits on the newer interpreters refuse a numeral. *)
Definition is_ascii (s : string) : bool :=
  forallb (fun c => (N_of_ascii c <? 128)%N) (list_ascii_of_string s).

Definition int_exact (s : string) : Prop :=
  is_ascii s = true ∧ (String.length s ≤ 4300)%nat.

(** Pages whose identifiers are such strings. *)
Definition ids_exact (pgs : list page) : Prop :=
  ∀ pg id, pg ∈ pgs → dict_get "id" pg = Some id → int_exact id.

(** A record whose [ID], where it is a string, is such a string. *)
Definition id_exact (dataentry : raw) : Prop :=
  ∀ s, dict_get "ID" dataentry = Some (PStr s) → int_exact s.

(** [data] is what the wiki gives for the item [k]. *)
Definition fetched (env : Env) (k : Z) (data : raw) : Prop :=
  ∀ w, fst (get_dataentry env k w) = Ok data.

(** Two environments with the same wiki and settings: they may differ in
    the clock (and the directory). *)
Definition same_wiki (env env2 : Env) : Prop :=
  dw env2 = dw env ∧ settings env2 = settings env.

(** A character that is neither a blank nor a colon, as all characters
    of a numeral are. *)
Definition plain (c : ascii) : Prop :=
  Py.isspace c = false ∧ Ascii.eqb c ":" = false.

(** The value of a decimal numeral, most significant digit first. *)
Fixpoint uint_val (acc : Z) (d : Decimal.uint) : Z :=
  match d with
  | Decimal.Nil => acc
  | Decimal.D0 d' => uint_val (10 * acc) d'
  | Decimal.D1 d' => uint_val (10 * acc + 1) d'
  | Decimal.D2 d' => uint_val (10 * acc + 2) d'
  | Decimal.D3 d' => uint_val (10 * acc + 3) d'
  | Decimal.D4 d' => uint_val (10 * acc + 4) d'
  | Decimal.D5 d' => uint_val (10 * acc + 5) d'
  | Decimal.D6 d' => uint_val (10 * acc + 6) d'
  | Decimal.D7 d' => uint_val (10 * acc + 7) d'
  | Decimal.D8 d' => uint_val (10 * acc + 8) d'
  | Decimal.D9 d' => uint_val (10 * acc + 9) d'
  end.

(** A handler keeps the relation [R] between the world it starts in and the
    world it leaves. *)
Definition keeps {A} (R : World → World → Prop) (m : M A) : Prop :=
  ∀ w, R w (snd (m w)).

Definition same_cache (w w' : World) : Prop := cache w' = cache w.
Definition same_ts (w w' : World) : Prop := last_checked_ts w' = last_checked_ts w.
Definition same_requests (w w' : World) : Prop := requests w' = requests w.

(** No key leaves the cache. *)
Definition cache_grows (w w' : World) : Prop :=
  ∀ k, dict_mem k (cache w) = true → dict_mem k (cache w') = true.

(** A handler reads nothing of the world but the cache: on two worlds with
    the same cache it gives the same result and leaves the same cache. *)
Definition cache_only {A} (m : M A) : Prop :=
  ∀ w1 w2, cache w1 = cache w2 →
           fst (m w1) = fst (m w2) ∧ cache (snd (m w1)) = cache (snd (m w2)).

Module Sample2.

(** A record whose number is not a number. *)
Definition mislabelled : raw := dict_set "ID" (PStr "IV") Sample.beamer.

(** Page 042 is fine, page 043 holds the mislabelled record. *)
Definition env_mislabelled : Env :=
  Sample.env_of
    (Sample.wiki ["lab:ausstattung:042"; "lab:ausstattung:043"]
                 [("lab:ausstattung:042", Ok Sample.beamer);
                  ("lab:ausstattung:043", Ok mislabelled)]).

(** A wiki that does not answer listings or change queries. *)
Definition wiki_down : DokuWiki :=
  {| pages_list := fun _ => Raise DokuWikiError;
     pages_changes := fun _ => Raise DokuWikiError;
     pages_info := fun _ => Raise DokuWikiError;
     pages_get := fun _ => Raise DokuWikiError;
     Dataentry_get := fun _ => Raise DokuWikiError |}.

Definition env_down : Env := Sample.env_of wiki_down.

(** A world in which page 042 has been cached at time 5. *)
Definition warm : World := mkWorld [(42, Sample.beamer)] (Some 5) [] [].

(** A fresh process whose cache holds an entry that no page stands for. *)
Definition stale : World := mkWorld [(99, Sample.beamer)] None [] [].

(** A cache with page 042 and a page that has since been deleted. *)
Definition warm2 : World :=
  mkWorld [(42, mislabelled); (99, Sample.beamer)] (Some 5) [] [].




(** The wiki of [Sample.env_lab], read a second later. *)
Definition env_lab_later : Env :=
  mkEnv (settings Sample.env_lab) (dw Sample.env_lab) (l Sample.env_lab)
        (now Sample.env_lab + 1).

End Sample2.

(** * Properties *)

(** ** Dictionaries *)

Section DictFacts.
Context {K V : Type} `{EqDecision K}.
Implicit Types (d : dict K V) (k : K) (v : V).

Lemma dict_get_set_eq d k v : dict_get k (dict_set k v d) = Some v.
Proof.
  induction d as [|[k' v'] d IH]; simpl.
  - by rewrite decide_True.
  - destruct (decide (k = k')) as [->|Hne]; simpl.
    + by rewrite decide_True.
    + by rewrite decide_False.
Qed.

Lemma dict_get_set_ne d k k' v :
  k ≠ k' → dict_get k' (dict_set k v d) = dict_get k' d.
Proof.
  intros Hne. induction d as [|[k0 v0] d IH]; simpl.
  - by rewrite decide_False.
  - destruct (decide (k = k0)) as [->|Hk]; simpl.
    + by rewrite !decide_False.
    + destruct (decide (k' = k0)); [done | apply IH].
Qed.

Lemma dict_set_nonempty d k v : dict_set k v d ≠ [].
Proof. destruct d as [|[k' v'] d]; simpl; [done | by case_decide]. Qed.

Lemma dict_mem_false d k : dict_mem k d = false ↔ dict_get k d = None.
Proof. unfold dict_mem. destruct (dict_get k d); split; congruence. Qed.

End DictFacts.

(** ** Running handlers *)

Ltac run :=
  unfold mbind, M_bind, mret, M_ret, bind, ret, raise, lift, print, send,
    get_cache, set_cache, get_ts, set_ts, subscript in *;
  simpl in *.

Lemma bind_same_start {A B} (m m' : M A) (k : A → M B) w w' :
  m w = m' w' → (x ← m; k x) w = (x ← m'; k x) w'.
Proof. intros Hm. unfold mbind, M_bind, bind. by rewrite Hm. Qed.

Lemma get_dataentry_missing env item_id w :
  pages_info (dw env) (page_of env item_id) = Ok [] →
  get_dataentry env item_id w =
    (Ok [],
     mkWorld (cache w) (last_checked_ts w)
             (stdout w ++ [PrintMissing (page_of env item_id)])
             (requests w ++ [ReqInfo (page_of env item_id)])).
Proof.
  intros Hinfo. unfold get_dataentry, wiki_info. run. by rewrite Hinfo.
Qed.


(** Fetching a record never touches the cache or the watermark. *)
Lemma get_dataentry_frame env item_id w :
  cache (snd (get_dataentry env item_id w)) = cache w ∧
  last_checked_ts (snd (get_dataentry env item_id w)) = last_checked_ts w.
Proof.
  unfold get_dataentry, wiki_info, wiki_get. run.
  destruct (pages_info (dw env) (page_of env item_id)) as [[|? ?]|]; simpl; try done.
  destruct (pages_get (dw env) (page_of env item_id)); simpl; done.
Qed.

Lemma dw_to_item_empty `{DateParser} w :
  _dw_to_item [] w =
    (Ok Item_empty,
     mkWorld (cache w) (last_checked_ts w)
             ((stdout w ++ [PrintNoTypeNoId]) ++ [PrintFields []]) (requests w)).
Proof. reflexivity. Qed.

(** The mapper only prints. *)
Lemma dw_to_item_frame `{DateParser} d w :
  cache (snd (_dw_to_item d w)) = cache w ∧
  last_checked_ts (snd (_dw_to_item d w)) = last_checked_ts w ∧
  requests (snd (_dw_to_item d w)) = requests w.
Proof.
  unfold _dw_to_item. run.
  destruct (dict_get "typ" (collect_fields d)) as [[]|]; simpl; try done.
  destruct (dict_get "uid" (collect_fields d)); simpl; done.
Qed.

Lemma read_item_missing `{DateParser} env item_id purge w :
  purge = true ∨ dict_get item_id (cache w) = None →
  pages_info (dw env) (page_of env item_id) = Ok [] →
  read_item env item_id purge w =
    (Ok Item_empty,
     mkWorld (dict_set item_id [] (cache w)) (last_checked_ts w)
             ((((stdout w ++ [PrintMissing (page_of env item_id)])
                  ++ [PrintNoTypeNoId]) ++ [PrintFields []]) ++ [PrintItemGenerated])
             (requests w ++ [ReqInfo (page_of env item_id)])).
Proof.
  intros Hfetch Hinfo. unfold read_item.
  assert (purge || negb (dict_mem item_id (cache w)) = true) as Hcond.
  { destruct Hfetch as [->|Hnone]; [done |].
    apply dict_mem_false in Hnone. rewrite Hnone. by destruct purge. }
  unfold mbind at 1, M_bind at 1, bind at 1, get_cache at 1. simpl.
  rewrite Hcond.
  unfold mbind at 1, M_bind at 1, bind at 1.
  unfold mbind at 1, M_bind at 1, bind at 1.
  rewrite (get_dataentry_missing _ _ _ Hinfo). reflexivity.
Qed.

Lemma read_item_cached_empty `{DateParser} env item_id w :
  dict_get item_id (cache w) = Some [] →
  read_item env item_id false w =
    (Ok Item_empty,
     mkWorld (cache w) (last_checked_ts w)
             (((stdout w ++ [PrintNoTypeNoId]) ++ [PrintFields []])
                ++ [PrintItemGenerated])
             (requests w)).
Proof.
  intros Hc. unfold read_item. run. unfold dict_mem. rewrite Hc. simpl.
  reflexivity.
Qed.

Lemma map_m_cache {A B} (f : A → M B) (xs : list A) w :
  (∀ x w0, cache (snd (f x w0)) = cache w0) →
  cache (snd (map_m f xs w)) = cache w.
Proof.
  intros Hf. revert w. induction xs as [|x xs IH]; intros w; [done |].
  simpl. run. specialize (Hf x w).
  destruct (f x w) as [[y|e] w1]; simpl in *; [| done].
  specialize (IH w1).
  destruct (map_m f xs w1) as [[ys|e] w2]; simpl in *; congruence.
Qed.

Lemma read_again_cached_empty `{DateParser} envs item_id w :
  dict_get item_id (cache w) = Some [] →
  Forall (λ r, r = Ok Item_empty) (fst (read_again envs item_id w)) ∧
  length (fst (read_again envs item_id w)) = length envs ∧
  cache (snd (read_again envs item_id w)) = cache w ∧
  requests (snd (read_again envs item_id w)) = requests w.
Proof.
  revert w. induction envs as [|env envs IH]; intros w Hc; simpl.
  - by repeat split.
  - rewrite (read_item_cached_empty env item_id w Hc).
    match goal with |- context [read_again envs item_id ?w1] =>
      specialize (IH w1 Hc); destruct (read_again envs item_id w1) as [rs w2]
    end.
    simpl in *. destruct IH as (Hall & Hlen & Hcache & Hreq).
    repeat split; [by constructor | by rewrite Hlen | done | done].
Qed.

(** ** Item service *)

(** C10: for a uid that is not cached and whose page does not exist,
    [read_item] stores the empty record under the uid and returns the item
    with every field absent; every later [read_item] of that uid without
    [purge_cache] returns the same item from the cache and sends nothing to
    the wiki, whatever the wiki holds by then. *)
Theorem read_item_caches_missing_page `{DateParser} env item_id purge w :
  dict_get item_id (cache w) = None →
  pages_info (dw env) (page_of env item_id) = Ok [] →
  ∃ w1,
    read_item env item_id purge w = (Ok Item_empty, w1) ∧
    cache w1 = dict_set item_id [] (cache w) ∧
    dict_get item_id (cache w1) = Some [] ∧
    ∀ envs,
      Forall (λ r, r = Ok Item_empty) (fst (read_again envs item_id w1)) ∧
      length (fst (read_again envs item_id w1)) = length envs ∧
      cache (snd (read_again envs item_id w1)) = cache w1 ∧
      requests (snd (read_again envs item_id w1)) = requests w1.
Proof.
  intros Hnew Hinfo. eexists. split.
  { apply read_item_missing; [by right | done]. }
  simpl. split; [done |]. split; [apply dict_get_set_eq |].
  intros envs. apply read_again_cached_empty. simpl. apply dict_get_set_eq.
Qed.

Lemma read_item_caches_missing_page_witness :
  ∃ w1,
    @read_item Sample.dates Sample.env_missing 7 false World_init
      = (Ok Item_empty, w1) ∧
    cache w1 = dict_set 7 [] (cache World_init) ∧
    dict_get 7 (cache w1) = Some [] ∧
    ∀ envs,
      Forall (λ r, r = Ok Item_empty)
             (fst (@read_again Sample.dates envs 7 w1)) ∧
      length (fst (@read_again Sample.dates envs 7 w1)) = length envs ∧
      cache (snd (@read_again Sample.dates envs 7 w1)) = cache w1 ∧
      requests (snd (@read_again Sample.dates envs 7 w1)) = requests w1.
Proof.
  apply (@read_item_caches_missing_page Sample.dates Sample.env_missing
           7 false World_init); reflexivity.
Defined.

(** C2, as the code has it: for a uid whose page does not exist, a direct
    fetch by [read_item] (forced, or because the uid is not cached) raises
    nothing and returns the item with every field absent. *)
Theorem read_item_missing_page_returns_empty_item `{DateParser} env item_id purge w :
  purge = true ∨ dict_mem item_id (cache w) = false →
  pages_info (dw env) (page_of env item_id) = Ok [] →
  fst (read_item env item_id purge w) = Ok Item_empty.
Proof.
  intros Hfetch Hinfo. rewrite read_item_missing; [done | | done].
  destruct Hfetch as [?|Hm]; [by left | right; by apply dict_mem_false].
Qed.

Lemma read_item_missing_page_returns_empty_item_witness :
  fst (@read_item Sample.dates Sample.env_missing 7 true
         (mkWorld [(7, Sample.beamer)] None [] [])) = Ok Item_empty.
Proof.
  apply (@read_item_missing_page_returns_empty_item Sample.dates
           Sample.env_missing 7 true (mkWorld [(7, Sample.beamer)] None [] []));
    [left; reflexivity | reflexivity].
Defined.

(** C2 fails as stated: page 007 does not exist, yet the direct fetch ends
    normally with the default item; no exception reaches the caller. *)
Lemma read_item_missing_page_not_an_error :
  pages_info (dw Sample.env_missing) (page_of Sample.env_missing 7) = Ok [] ∧
  fst (@read_item Sample.dates Sample.env_missing 7 true World_init)
    = Ok Item_empty ∧
  ¬ ∃ e, fst (@read_item Sample.dates Sample.env_missing 7 true World_init)
           = Raise e.
Proof.
  split; [reflexivity |]. split; [reflexivity |].
  intros [e He]. vm_compute in He. discriminate He.
Qed.

Lemma list_items_unfold `{DateParser} env w t w1 :
  update_cache env (last_checked_ts w) w = (Ok t, w1) →
  list_items env w =
    match cache w1 with
    | _ :: _ =>
        map_m (fun i => d ← subscript (cache w1) i; _dw_to_item d)
              (dict_keys (cache w1))
              (mkWorld (cache w1) (Some t) (stdout w1) (requests w1))
    | [] => (Raise AssertionError,
             mkWorld (cache w1) (Some t) (stdout w1) (requests w1))
    end.
Proof.
  intros Hup. unfold list_items.
  unfold mbind at 1, M_bind at 1, bind at 1, get_ts at 1. simpl.
  unfold mbind at 1, M_bind at 1, bind at 1. rewrite Hup.
  run. by destruct (cache w1).
Qed.

(** C9: when the cache is empty after the refresh that [list_items]
    starts, [list_items] raises [AssertionError] instead of returning an
    empty list; it returns a list only when the refreshed cache is
    non-empty. *)
Theorem list_items_asserts_on_empty_cache `{DateParser} env w :
  (∀ t w1,
     update_cache env (last_checked_ts w) w = (Ok t, w1) →
     cache w1 = [] →
     list_items env w =
       (Raise AssertionError, mkWorld [] (Some t) (stdout w1) (requests w1)))
  ∧
  (∀ items w2,
     list_items env w = (Ok items, w2) →
     ∃ t w1,
       update_cache env (last_checked_ts w) w = (Ok t, w1) ∧
       cache w1 ≠ [] ∧ cache w2 = cache w1).
Proof.
  split.
  - intros t w1 Hup Hempty. rewrite (list_items_unfold _ _ _ _ Hup).
    by rewrite Hempty.
  - intros items w2 Hlist.
    destruct (update_cache env (last_checked_ts w) w) as [[t|e] w1] eqn:Hup.
    + exists t, w1. split; [done |].
      rewrite (list_items_unfold _ _ _ _ Hup) in Hlist.
      destruct (cache w1) as [|kv c] eqn:Hc; [done |].
      split; [done |].
      pose proof (map_m_cache
                    (fun i => d ← subscript (kv :: c) i; _dw_to_item d)
                    (dict_keys (kv :: c))
                    (mkWorld (kv :: c) (Some t) (stdout w1) (requests w1))) as Hm.
      rewrite Hlist in Hm. simpl in Hm. apply Hm.
      intros i w0. unfold mbind, M_bind, bind, subscript, ret, raise.
      destruct (dict_get i (kv :: c)); [| done].
      apply dw_to_item_frame.
    + unfold list_items in Hlist.
      unfold mbind at 1, M_bind at 1, bind at 1, get_ts at 1 in Hlist.
      simpl in Hlist.
      unfold mbind at 1, M_bind at 1, bind at 1 in Hlist.
      rewrite Hup in Hlist. discriminate Hlist.
Qed.

Lemma list_items_asserts_on_empty_cache_witness :
  @list_items Sample.dates Sample.env_empty World_init =
    (Raise AssertionError,
     mkWorld [] (Some 1620000000) [PrintCacheSize 0]
             [ReqList "lab:ausstattung:"])
  ∧
  ∃ t w1,
    update_cache Sample.env_lab (last_checked_ts World_init) World_init
      = (Ok t, w1) ∧
    cache w1 ≠ [] ∧
    cache (snd (@list_items Sample.dates Sample.env_lab World_init)) = cache w1.
Proof.
  split.
  - apply (proj1 (@list_items_asserts_on_empty_cache Sample.dates
                    Sample.env_empty World_init)
                 1620000000
                 (mkWorld [] None [PrintCacheSize 0] [ReqList "lab:ausstattung:"]));
      reflexivity.
  - apply (proj2 (@list_items_asserts_on_empty_cache Sample.dates
                    Sample.env_lab World_init)
                 (match fst (@list_items Sample.dates Sample.env_lab World_init)
                  with Ok items => items | Raise _ => [] end)).
    vm_compute. reflexivity.
Defined.

(** ** Field mapper *)

(** The record that [_item_to_dw] builds does not depend on the item. *)
Lemma item_to_dw_constant item item' : _item_to_dw item = _item_to_dw item'.
Proof. reflexivity. Qed.

(** Every value of that record is a field descriptor. *)
Lemma item_to_dw_values item k v :
  dict_get k (_item_to_dw item) = Some v → ∃ f, v = PField f.
Proof.
  unfold _item_to_dw. simpl. intros Hk.
  repeat (case_decide; [inversion Hk; eauto |]). discriminate Hk.
Qed.

(** C1, at a record with all twelve mapped fields populated: the forward
    mapping succeeds, and the way back stores under [Name] the field
    descriptor of the class, not the name that the record carried; no
    field comes back with its value. *)
Theorem roundtrip_returns_descriptors :
  ∃ item w,
    @_dw_to_item Sample.dates Sample.beamer World_init = (Ok item, w) ∧
    name item = Some "Beamer Epson" ∧
    dict_get "Name" Sample.beamer = Some (PStr "Beamer Epson") ∧
    dict_get "Name" (_item_to_dw item) = Some (PField "name") ∧
    ∀ k v, dict_get k Sample.beamer = Some v →
           dict_get k (_item_to_dw item) ≠ Some v.
Proof.
  eexists _, _. split; [vm_compute; reflexivity |].
  repeat split.
  intros k v Hraw Hback.
  apply item_to_dw_values in Hback as [f ->].
  unfold Sample.beamer in Hraw. simpl in Hraw.
  repeat (case_decide; [discriminate Hraw |]). discriminate Hraw.
Qed.

(** C4 fails as stated: the record built for an item has an [ID] entry. *)
Lemma item_to_dw_emits_uid :
  dict_get "uid" I_TO_DW = Some "ID" ∧
  dict_mem "ID" (_item_to_dw Item_empty) = true ∧
  dict_mem "ID"
    (_item_to_dw (mkItem (Some 42) None (Some "Beamer") None None None None
                         None None None None None None)) = true.
Proof. repeat split. Qed.

(** C4, as the code has it: the reverse map is the inverse of the whole
    forward map, its entry for uid included, and [_item_to_dw] emits
    exactly the twelve wiki names of the map, [ID] first; [url], which has
    no wiki name, is the only field that is not emitted. *)
Theorem item_to_dw_emits_every_mapped_name item :
  dict_get "uid" I_TO_DW = Some "ID" ∧
  dict_get "url" I_TO_DW = None ∧
  dict_keys (_item_to_dw item) =
    ["ID"; "Typ_devicetypes"; "Name"; "Standort"; "OS"; "Zubehör";
     "Seriennummern"; "Status_devicestat"; "Ausleiher"; "Von_dt"; "Bis_dt";
     "Anmerkungen"] ∧
  (∀ k, dict_mem k (_item_to_dw item) = dict_mem k DW_TO_I) ∧
  (∀ f, dict_mem f I_TO_DW = true ↔ f ≠ "url" ∧ dict_mem f Item_fields = true).
Proof.
  split; [reflexivity |]. split; [reflexivity |]. split; [reflexivity |].
  split.
  - intros k. unfold dict_mem, _item_to_dw, DW_TO_I. simpl.
    repeat case_decide; simplify_eq; reflexivity.
  - intros f. unfold dict_mem, I_TO_DW, Item_fields. simpl.
    repeat case_decide; simplify_eq; split; try done; intros [? ?]; done.
Qed.

(** *** Where the uid of an item comes from *)

Lemma DW_TO_I_uid k : dict_get k DW_TO_I = Some "uid" → k = "ID".
Proof.
  unfold DW_TO_I. simpl. intros Hk.
  case_decide; [done |]. repeat (case_decide; [discriminate Hk |]).
  discriminate Hk.
Qed.

Lemma collect_step_uid dataentry acc k :
  dict_get "uid" (collect_step dataentry acc k) =
    if decide (k = "ID") then
      match dict_get "ID" dataentry with
      | Some v => Some (blank_to_none v)
      | None => dict_get "uid" acc
      end
    else dict_get "uid" acc.
Proof.
  unfold collect_step, blank_to_none. case_decide as Hk.
  - subst k. change (dict_get "ID" DW_TO_I) with (Some "uid").
    destruct (dict_get "ID" dataentry) as [v|]; [| done].
    case_decide; apply dict_get_set_eq.
  - destruct (dict_get k DW_TO_I) as [t|] eqn:Ht; [| done].
    destruct (dict_get k dataentry) as [v|]; [| done].
    assert (t ≠ "uid") as Hne by (intros ->; by apply DW_TO_I_uid in Ht).
    case_decide; by apply dict_get_set_ne.
Qed.

Lemma collect_fold_uid dataentry ks acc :
  dict_get "uid" (fold_left (collect_step dataentry) ks acc) =
    match dict_get "ID" dataentry with
    | Some v => if bool_decide ("ID" ∈ ks) then Some (blank_to_none v)
                else dict_get "uid" acc
    | None => dict_get "uid" acc
    end.
Proof.
  revert acc. induction ks as [|k ks IH]; intros acc; simpl.
  - by destruct (dict_get "ID" dataentry).
  - rewrite IH, collect_step_uid.
    destruct (dict_get "ID" dataentry) as [v|]; [| by case_decide].
    destruct (decide (k = "ID")) as [->|Hk].
    + rewrite (bool_decide_true ("ID" ∈ "ID" :: ks)) by apply list_elem_of_here.
      by case_bool_decide.
    + destruct (bool_decide ("ID" ∈ ks)) eqn:Hin.
      * apply bool_decide_eq_true in Hin.
        by rewrite bool_decide_true by (by apply list_elem_of_further).
      * apply bool_decide_eq_false in Hin.
        rewrite bool_decide_false; [done |].
        intros [?|?]%elem_of_cons; congruence.
Qed.

Lemma dict_get_in_keys {K V} `{EqDecision K} (d : dict K V) k v :
  dict_get k d = Some v → k ∈ dict_keys d.
Proof.
  induction d as [|[k' v'] d IH]; simpl; [done |].
  case_decide; [subst; intros _; apply list_elem_of_here |].
  intros Hget. apply list_elem_of_further. by apply IH.
Qed.

Lemma collect_fields_uid dataentry :
  dict_get "uid" (collect_fields dataentry) =
    blank_to_none <$> dict_get "ID" dataentry.
Proof.
  unfold collect_fields. rewrite collect_fold_uid.
  destruct (dict_get "ID" dataentry) as [v|] eqn:Hid; [| done].
  by rewrite bool_decide_true by (by eapply dict_get_in_keys).
Qed.

Lemma Item_init_uid `{DateParser} f item :
  Item_init f = Ok item → validate_int (dict_get "uid" f) = Ok (uid item).
Proof.
  unfold Item_init. intros Hinit.
  destruct (validate_int (dict_get "uid" f)) as [u|]; [| discriminate Hinit].
  simpl in Hinit.
  repeat match type of Hinit with
         | context [mbind _ ?r] => destruct r; simpl in Hinit; [| discriminate Hinit]
         end.
  by inversion Hinit.
Qed.

Lemma dw_to_item_uid `{DateParser} dataentry w item w' :
  _dw_to_item dataentry w = (Ok item, w') → uid item = content_uid dataentry.
Proof.
  unfold _dw_to_item. intros Hrun.
  assert (∃ f, dict_get "uid" f = dict_get "uid" (collect_fields dataentry)
               ∧ Item_init f = Ok item) as (f & Hf & Hinit).
  { run. set (cf := collect_fields dataentry) in *.
    destruct (dict_get "typ" cf) as [[]|] eqn:Htyp; simpl in Hrun;
      try (exists cf; split; [reflexivity | congruence]).
    - eexists. split; [| by inversion Hrun].
      by apply dict_get_set_ne.
    - destruct (dict_get "uid" cf) eqn:Huid; simpl in Hrun;
        exists cf; (split; [done | congruence]). }
  apply Item_init_uid in Hinit.
  rewrite Hf, collect_fields_uid in Hinit. unfold content_uid.
  destruct (dict_get "ID" dataentry) as [[|s|?|?]|]; simpl in Hinit;
    try (by inversion Hinit).
  unfold blank_to_none in Hinit. case_decide as Hs.
  - inversion Hs. subst s. by inversion Hinit.
  - simpl in Hinit. destruct (Py.int s); by inversion Hinit.
Qed.

(** *** The refresh of one page *)

Lemma split_cons sep c s :
  Py.split sep (String c s) =
    if Ascii.eqb c sep then EmptyString :: Py.split sep s
    else match Py.split sep s with
         | seg :: segs => String c seg :: segs
         | [] => [String c EmptyString]
         end.
Proof. reflexivity. Qed.

Lemma split_nonempty sep s : Py.split sep s ≠ [].
Proof.
  destruct s as [|c s]; [done |]. rewrite split_cons.
  destruct (Ascii.eqb c sep); [done |]. by destruct (Py.split sep s).
Qed.

Lemma split_last sep s : ∃ seg, last (Py.split sep s) = Some seg.
Proof.
  pose proof (split_nonempty sep s) as Hne.
  destruct (last (Py.split sep s)) as [seg|] eqn:Hl; [by exists seg |].
  by apply last_None in Hl.
Qed.

Lemma refresh_page_item env pg item_id w :
  page_uid pg = Some item_id →
  refresh_page env pg w =
    (data ← get_dataentry env item_id;
     c ← get_cache;
     set_cache (dict_set item_id data c)) w.
Proof.
  unfold page_uid, refresh_page, id_suffix. intros Hu.
  unfold mbind at 1, M_bind at 1, bind at 1, subscript at 1.
  destruct (dict_get "id" pg) as [id|]; [| discriminate Hu].
  simpl in Hu |- *. unfold mbind at 1, M_bind at 1, bind at 1.
  destruct (last (Py.split ":" id)) as [seg|]; [| discriminate Hu].
  simpl in Hu |- *. by rewrite Hu.
Qed.

Lemma refresh_page_not_item env pg id w :
  dict_get "id" pg = Some id →
  page_uid pg = None →
  ∃ seg, last (Py.split ":" id) = Some seg ∧
         Py.int seg = None ∧
         refresh_page env pg w =
           (Ok tt, mkWorld (cache w) (last_checked_ts w)
                           (stdout w ++ [PrintNotAnItem seg]) (requests w)).
Proof.
  unfold page_uid, refresh_page, id_suffix. intros Hid Hu.
  destruct (split_last ":" id) as [seg Hseg]. exists seg.
  rewrite Hid in Hu. simpl in Hu. rewrite Hseg in Hu. simpl in Hu.
  split; [done |]. split; [done |].
  run. rewrite Hid. simpl. rewrite Hseg. simpl. by rewrite Hu.
Qed.

(** The refresh of an item page writes the cache at its uid and nowhere
    else. *)
Lemma refresh_page_cache env pg item_id w :
  page_uid pg = Some item_id →
  match refresh_page env pg w with
  | (Ok _, w') =>
      ∃ data, fst (get_dataentry env item_id w) = Ok data ∧
              cache w' = dict_set item_id data (cache w)
  | (Raise e, w') =>
      fst (get_dataentry env item_id w) = Raise e ∧ cache w' = cache w
  end.
Proof.
  intros Hu. rewrite (refresh_page_item _ _ _ _ Hu).
  pose proof (get_dataentry_frame env item_id w) as [Hc _].
  run. destruct (get_dataentry env item_id w) as [[data|e] w1]; simpl in *.
  - exists data. by rewrite Hc.
  - done.
Qed.

(** C5 fails as stated: page 042 of the namespace is fetched under the
    cache key 42, and the item made of its record has the uid 7 that the
    record's [ID] field holds; with the record whose [ID] says 42 the same
    page gives uid 42. *)
Lemma item_uid_follows_content :
  page_uid [("id", "lab:ausstattung:042")] = Some 42 ∧
  (∃ item w,
     @list_items Sample.dates Sample.env_relabelled World_init = (Ok [item], w) ∧
     dict_keys (cache w) = [42] ∧ uid item = Some 7) ∧
  (∃ item w,
     @list_items Sample.dates Sample.env_lab World_init = (Ok [item], w) ∧
     dict_keys (cache w) = [42] ∧ uid item = Some 42).
Proof.
  split; [reflexivity |].
  split; eexists _, _; (split; [vm_compute; reflexivity | split; reflexivity]).
Qed.

(** C5, as the code has it: the uid of an item is the integer that the
    [ID] field of its record holds (absent when the record has no [ID] or an
    empty one); what comes from the page identifier is the cache key: the
    refresh of a page writes the cache at the integer of the identifier's
    last segment and at no other key, and a page whose last segment is not
    an integer is passed over without a fetch and without a cache entry.
    The [ID] and the page identifier are taken to be ASCII text of at most
    4300 characters, where reading an integer is the same in the model and
    in every interpreter. *)
Theorem uid_of_item_and_cache_key `{DateParser} env :
  (∀ dataentry w item w',
     id_exact dataentry →
     _dw_to_item dataentry w = (Ok item, w') → uid item = content_uid dataentry)
  ∧
  (∀ pg item_id w,
     page_uid pg = Some item_id →
     (∀ k, k ≠ item_id →
           dict_get k (cache (snd (refresh_page env pg w))) = dict_get k (cache w))
     ∧
     (fst (refresh_page env pg w) = Ok tt →
      ∃ data, fst (get_dataentry env item_id w) = Ok data ∧
              dict_get item_id (cache (snd (refresh_page env pg w))) = Some data))
  ∧
  (∀ pg id w,
     dict_get "id" pg = Some id →
     int_exact id →
     page_uid pg = None →
     fst (refresh_page env pg w) = Ok tt ∧
     cache (snd (refresh_page env pg w)) = cache w ∧
     requests (snd (refresh_page env pg w)) = requests w).
Proof.
  split; [intros * _; apply dw_to_item_uid |]. split.
  - intros pg item_id w Hu.
    pose proof (refresh_page_cache env pg item_id w Hu) as Hc.
    destruct (refresh_page env pg w) as [[[]|e] w1]; simpl.
    + destruct Hc as (data & Hdata & ->). split.
      * intros k Hk. by apply dict_get_set_ne.
      * intros _. exists data. split; [done | apply dict_get_set_eq].
    + destruct Hc as [_ ->]. split; [done | discriminate].
  - intros pg id w Hid _ Hu.
    destruct (refresh_page_not_item env pg id w Hid Hu) as (seg & _ & _ & ->).
    done.
Qed.

(** C7: in the refresh loop the last colon-separated segment of a page
    identifier is read as the uid.  A segment that is an integer has the
    page fetched and stored under that integer; any other segment only
    prints a note, and the loop goes on.  The identifier
    [lab:ausstattung:042] gives uid 42 and [lab:ausstattung:readme] is
    passed over.  A changed page enters the loop with its name as
    identifier.  The identifier is taken to be ASCII text of at most 4300
    characters, where reading an integer is the same in the model and in
    every interpreter. *)
Theorem refresh_page_reads_trailing_segment env pg id w :
  dict_get "id" pg = Some id →
  int_exact id →
  ∃ seg,
    last (Py.split ":" id) = Some seg ∧
    refresh_page env pg w =
      match Py.int seg with
      | Some item_id =>
          (data ← get_dataentry env item_id;
           c ← get_cache;
           set_cache (dict_set item_id data c)) w
      | None =>
          (Ok tt, mkWorld (cache w) (last_checked_ts w)
                          (stdout w ++ [PrintNotAnItem seg]) (requests w))
      end ∧
    (id = "lab:ausstattung:042" → seg = "042" ∧ Py.int seg = Some 42) ∧
    (id = "lab:ausstattung:readme" → seg = "readme" ∧ Py.int seg = None) ∧
    (∀ changed nm,
       dict_get "name" changed = Some nm →
       Py.startswith nm (wiki_path (settings env)) = true →
       fst (changed_items env [changed] [] w) = Ok [dict_set "id" nm changed] ∧
       dict_get "id" (dict_set "id" nm changed) = Some nm).
Proof.
  intros Hid _. destruct (split_last ":" id) as [seg Hseg]. exists seg.
  split; [done |]. split; [| split; [| split]].
  - destruct (Py.int seg) as [item_id|] eqn:Hint.
    + apply refresh_page_item. unfold page_uid. rewrite Hid. simpl.
      rewrite Hseg. done.
    + destruct (refresh_page_not_item env pg id w Hid) as (seg' & Hs & _ & ->).
      { unfold page_uid. rewrite Hid. simpl. rewrite Hseg. done. }
      congruence.
  - intros ->. vm_compute in Hseg. by inversion Hseg.
  - intros ->. vm_compute in Hseg. by inversion Hseg.
  - intros changed nm Hnm Hpre. split; [| apply dict_get_set_eq].
    simpl. run. rewrite Hnm. unfold ret. by rewrite Hpre.
Qed.

Lemma refresh_page_reads_trailing_segment_witness :
  (∃ seg,
     last (Py.split ":" "lab:ausstattung:042") = Some seg ∧
     refresh_page Sample.env_lab [("id", "lab:ausstattung:042")] World_init =
       match Py.int seg with
       | Some item_id =>
           (data ← get_dataentry Sample.env_lab item_id;
            c ← get_cache;
            set_cache (dict_set item_id data c)) World_init
       | None =>
           (Ok tt, mkWorld (cache World_init) (last_checked_ts World_init)
                     (stdout World_init ++ [PrintNotAnItem seg])
                     (requests World_init))
       end ∧
     ("lab:ausstattung:042" = "lab:ausstattung:042" →
      seg = "042" ∧ Py.int seg = Some 42) ∧
     ("lab:ausstattung:042" = "lab:ausstattung:readme" →
      seg = "readme" ∧ Py.int seg = None) ∧
     (∀ changed nm,
        dict_get "name" changed = Some nm →
        Py.startswith nm (wiki_path (settings Sample.env_lab)) = true →
        fst (changed_items Sample.env_lab [changed] [] World_init)
          = Ok [dict_set "id" nm changed] ∧
        dict_get "id" (dict_set "id" nm changed) = Some nm))
  ∧
  (∃ seg,
     last (Py.split ":" "lab:ausstattung:readme") = Some seg ∧
     refresh_page Sample.env_lab [("id", "lab:ausstattung:readme")] World_init =
       match Py.int seg with
       | Some item_id =>
           (data ← get_dataentry Sample.env_lab item_id;
            c ← get_cache;
            set_cache (dict_set item_id data c)) World_init
       | None =>
           (Ok tt, mkWorld (cache World_init) (last_checked_ts World_init)
                     (stdout World_init ++ [PrintNotAnItem seg])
                     (requests World_init))
       end ∧
     ("lab:ausstattung:readme" = "lab:ausstattung:042" →
      seg = "042" ∧ Py.int seg = Some 42) ∧
     ("lab:ausstattung:readme" = "lab:ausstattung:readme" →
      seg = "readme" ∧ Py.int seg = None) ∧
     (∀ changed nm,
        dict_get "name" changed = Some nm →
        Py.startswith nm (wiki_path (settings Sample.env_lab)) = true →
        fst (changed_items Sample.env_lab [changed] [] World_init)
          = Ok [dict_set "id" nm changed] ∧
        dict_get "id" (dict_set "id" nm changed) = Some nm)).
Proof.
  split.
  - apply (refresh_page_reads_trailing_segment Sample.env_lab
             [("id", "lab:ausstattung:042")] "lab:ausstattung:042" World_init);
      [reflexivity | split; [reflexivity | simpl; lia]].
  - apply (refresh_page_reads_trailing_segment Sample.env_lab
             [("id", "lab:ausstattung:readme")] "lab:ausstattung:readme"
             World_init);
      [reflexivity | split; [reflexivity | simpl; lia]].
Defined.

Lemma uid_of_item_and_cache_key_witness :
  uid (mkItem (Some 7) (Some ["Beamer"]) None None None None None None None
              None None None None)
    = content_uid [("ID", PStr "7"); ("Typ_devicetypes", PStr "Beamer")]
  ∧
  (fst (refresh_page Sample.env_lab [("id", "lab:ausstattung:readme")] World_init)
     = Ok tt ∧
   cache (snd (refresh_page Sample.env_lab [("id", "lab:ausstattung:readme")]
                 World_init)) = cache World_init ∧
   requests (snd (refresh_page Sample.env_lab [("id", "lab:ausstattung:readme")]
                    World_init)) = requests World_init).
Proof.
  split.
  - apply (proj1 (@uid_of_item_and_cache_key Sample.dates Sample.env_lab)
                 [("ID", PStr "7"); ("Typ_devicetypes", PStr "Beamer")]
                 World_init _ World_init); [| reflexivity].
    intros s Hs. inversion Hs. split; [reflexivity | simpl; lia].
  - apply (proj2 (proj2 (@uid_of_item_and_cache_key Sample.dates Sample.env_lab))
                 [("id", "lab:ausstattung:readme")] "lab:ausstattung:readme"
                 World_init); [reflexivity | | reflexivity].
    split; [reflexivity | simpl; lia].
Defined.

(** ** Inventory cache *)

Lemma update_cache_unfold env since w pgs w0 :
  pages_to_refresh env since w = (Ok pgs, w0) →
  update_cache env since w =
    match for_each pgs (refresh_page env) w0 with
    | (Ok _, w1) =>
        (Ok (now env),
         mkWorld (cache w1) (last_checked_ts w1)
                 (stdout w1 ++ [PrintCacheSize (length (cache w1))])
                 (requests w1))
    | (Raise e, w1) => (Raise e, w1)
    end.
Proof.
  intros Hpages. unfold update_cache.
  unfold mbind at 1, M_bind at 1, bind at 1. rewrite Hpages.
  unfold mbind at 1, M_bind at 1, bind at 1.
  by destruct (for_each pgs (refresh_page env) w0) as [[[]|e] w1].
Qed.

Lemma update_cache_raises env since w e w0 :
  pages_to_refresh env since w = (Raise e, w0) →
  update_cache env since w = (Raise e, w0).
Proof.
  intros Hpages. unfold update_cache.
  unfold mbind at 1, M_bind at 1, bind at 1. by rewrite Hpages.
Qed.

Lemma update_cache_watermark env since w t w' :
  update_cache env since w = (Ok t, w') → t = now env.
Proof.
  destruct (pages_to_refresh env since w) as [[pgs|e] w0] eqn:Hpages.
  - rewrite (update_cache_unfold _ _ _ _ _ Hpages).
    destruct (for_each pgs (refresh_page env) w0) as [[[]|e] w1]; congruence.
  - rewrite (update_cache_raises _ _ _ _ _ Hpages). discriminate.
Qed.

Lemma pages_to_refresh_unset env since w :
  unset since = true →
  pages_to_refresh env since w =
    (lift (pages_list (dw env) (wiki_path (settings env))))
      (mkWorld [] (last_checked_ts w) (stdout w)
               (requests w ++ [ReqList (wiki_path (settings env))])).
Proof. intros Hu. unfold pages_to_refresh. by rewrite Hu. Qed.

Lemma for_each_cons {A} (x : A) xs (body : A → M unit) w :
  for_each (x :: xs) body w =
    match body x w with
    | (Ok _, w1) => for_each xs body w1
    | (Raise e, w1) => (Raise e, w1)
    end.
Proof. reflexivity. Qed.










(** ** Authorization lookup *)

Lemma decode_inv b w s w' : decode b w = (Ok s, w') → s = b ∧ w' = w.
Proof.
  unfold decode, Py.decode_utf8.
  destruct (Py.utf8_ok _); run; intros Hd; by inversion Hd.
Qed.

Lemma normalize_groups_inv members w groups w' :
  map_m (fun g => s ← decode g; ret (normalize_group s)) members w
    = (Ok groups, w') →
  groups = map normalize_group members ∧ w' = w.
Proof.
  revert w groups w'.
  induction members as [|g members IH]; intros w groups w' Hrun.
  - run. by inversion Hrun.
  - cbn [map_m] in Hrun. unfold mbind at 1, M_bind at 1, bind at 1 in Hrun.
    unfold mbind at 1, M_bind at 1, bind at 1 in Hrun.
    destruct (decode g w) as [[s|e] w1] eqn:Hdec; [| discriminate Hrun].
    apply decode_inv in Hdec as [-> ->].
    unfold ret at 1 in Hrun.
    unfold mbind at 1, M_bind at 1, bind at 1 in Hrun.
    destruct (map_m _ members w) as [[gs|e] w2] eqn:Hrest; [| discriminate Hrun].
    apply IH in Hrest as [-> ->]. run. by inversion Hrun.
Qed.

Lemma groups_intersect_spec edit groups :
  groups_intersect edit groups = true ↔ ∃ g, g ∈ groups ∧ g ∈ edit.
Proof.
  unfold groups_intersect. rewrite bool_decide_eq_true. split.
  - intros Hne. apply set_choose_L in Hne as [g Hg].
    exists g. apply elem_of_intersection in Hg as [He Hg].
    by rewrite !elem_of_list_to_set in He, Hg.
  - intros (g & Hg & He) Hempty.
    assert (g ∈ (list_to_set edit : gset string) ∩ list_to_set groups) as Hin.
    { apply elem_of_intersection. by rewrite !elem_of_list_to_set. }
    rewrite Hempty in Hin. by apply not_elem_of_empty in Hin.
Qed.

Lemma first_decoded_frame attrs key w s w' :
  first_decoded attrs key w = (Ok s, w') → w' = w.
Proof.
  unfold first_decoded. run.
  destruct (dict_get key attrs) as [[|v vs]|]; try discriminate.
  intros Hd. by apply decode_inv in Hd as [_ ->].
Qed.

(** C6: whenever the lookup of a user succeeds, the operations it allows
    contain [read_item] and [list_items], and they contain [update_item]
    exactly when one of the user's normalized groups is in the configured
    list of groups with edit rights; the groups are the normalized group
    memberships of the one entry that the directory returned. *)
Theorem read_user_data_allowed env uid w u w' :
  read_user_data env uid w = (Ok (Some u), w') →
  "read_item" ∈ user_allowed u ∧
  "list_items" ∈ user_allowed u ∧
  ("update_item" ∈ user_allowed u ↔
     ∃ g, g ∈ user_groups u ∧ g ∈ groups_with_edit_rights (settings env)) ∧
  ("update_item" ∈ user_allowed u ↔
     (list_to_set (groups_with_edit_rights (settings env)) : gset string)
       ∩ list_to_set (user_groups u) ≠ ∅) ∧
  ∃ dn attrs members,
    search_ext_s (l env) (ldap_base_dn (settings env))
                 (ldap_scope (settings env)) (user_query uid) 5
      = LdapEntries [(dn, attrs)] ∧
    dict_get "groupMembership" attrs = Some members ∧
    user_groups u = map normalize_group members.
Proof.
  unfold read_user_data. intros Hrun.
  destruct (search_ext_s _ _ _ _ _) as [results| |] eqn:Hsearch;
    [| discriminate Hrun | discriminate Hrun].
  destruct results as [|[dn attrs] [|]]; try discriminate Hrun.
  unfold mbind at 1, M_bind at 1, bind at 1, print at 1 in Hrun.
  unfold mbind at 1, M_bind at 1, bind at 1, subscript at 1 in Hrun.
  destruct (dict_get "groupMembership" attrs) as [members|] eqn:Hmem;
    [| discriminate Hrun].
  unfold ret at 1 in Hrun.
  unfold mbind at 1, M_bind at 1, bind at 1 in Hrun.
  destruct (map_m _ members _) as [[groups|e] w1] eqn:Hgroups;
    [| discriminate Hrun].
  apply normalize_groups_inv in Hgroups as [-> ->].
  unfold mbind at 1, M_bind at 1, bind at 1 in Hrun.
  destruct (first_decoded attrs "fullName" _) as [[nm|e] w2];
    [| discriminate Hrun].
  unfold mbind at 1, M_bind at 1, bind at 1 in Hrun.
  destruct (first_decoded attrs "mail" w2) as [[mail|e] w3];
    [| discriminate Hrun].
  unfold ret in Hrun. inversion Hrun as [[Hu Hw]]. clear Hrun. simpl.
  pose proof (groups_intersect_spec (groups_with_edit_rights (settings env))
                (map normalize_group members)) as Hspec.
  assert ("update_item" ∈
            (if groups_intersect (groups_with_edit_rights (settings env))
                  (map normalize_group members)
             then ["update_item"] else [])
          ↔ groups_intersect (groups_with_edit_rights (settings env))
              (map normalize_group members) = true) as Hupd.
  { destruct (groups_intersect _ _).
    - split; [done | intros _; apply list_elem_of_here].
    - split; [by intros ?%elem_of_nil | done]. }
  assert (∀ x rest,
            x ∈ (["read_item"; "list_items"] ++ rest)%list ↔
            x = "read_item" ∨ x = "list_items" ∨ x ∈ rest) as Hall.
  { intros x rest. rewrite elem_of_app, !elem_of_cons, elem_of_nil. tauto. }
  assert ("update_item" ∈
            (["read_item"; "list_items"] ++
             (if groups_intersect (groups_with_edit_rights (settings env))
                   (map normalize_group members)
              then ["update_item"] else []))%list
          ↔ groups_intersect (groups_with_edit_rights (settings env))
              (map normalize_group members) = true) as Hwrite.
  { rewrite Hall, <- Hupd. split; [| by auto].
    intros [?|[?|?]]; [discriminate | discriminate | done]. }
  split; [apply Hall; auto |]. split; [apply Hall; auto |]. split; [| split].
  - by rewrite Hwrite, Hspec.
  - rewrite Hwrite. unfold groups_intersect. by rewrite bool_decide_eq_true.
  - by exists dn, attrs, members.
Qed.

Lemma read_user_data_allowed_witness :
  let u := mkUserData "abc12345" "A B" "a.b@ur.de"
             ["stud.mi.sprachlit.uni-regensburg.de";
              "mi-staff.mi.sprachlit.uni-regensburg.de"]
             ["read_item"; "list_items"; "update_item"] in
  "read_item" ∈ user_allowed u ∧
  "list_items" ∈ user_allowed u ∧
  ("update_item" ∈ user_allowed u ↔
     ∃ g, g ∈ user_groups u ∧
          g ∈ groups_with_edit_rights (settings Sample.env_lab)) ∧
  ("update_item" ∈ user_allowed u ↔
     (list_to_set (groups_with_edit_rights (settings Sample.env_lab)) : gset string)
       ∩ list_to_set (user_groups u) ≠ ∅) ∧
  ∃ dn attrs members,
    search_ext_s (l Sample.env_lab) (ldap_base_dn (settings Sample.env_lab))
                 (ldap_scope (settings Sample.env_lab)) (user_query "abc12345") 5
      = LdapEntries [(dn, attrs)] ∧
    dict_get "groupMembership" attrs = Some members ∧
    user_groups u = map normalize_group members.
Proof.
  apply (read_user_data_allowed Sample.env_lab "abc12345" World_init _
           (mkWorld [] None
              [PrintLdapResult
                 [("groupMembership", [Sample.student_dn; Sample.staff_dn]);
                  ("fullName", ["A B"]); ("mail", ["a.b@ur.de"])]] [])).
  vm_compute. reflexivity.
Defined.

(** * Further properties of the module *)

(** ** What a handler leaves alone *)

Section Keeps.
Context (R : World → World → Prop) `{!Reflexive R, !Transitive R}.

Lemma keeps_ret {A} (a : A) : keeps R (ret a).
Proof. intros w. simpl. reflexivity. Qed.

Lemma keeps_mret {A} (a : A) : keeps R (mret a : M A).
Proof. apply keeps_ret. Qed.

Lemma keeps_raise {A} e : keeps R (raise e : M A).
Proof. intros w. simpl. reflexivity. Qed.

Lemma keeps_lift {A} (r : result A) : keeps R (lift r).
Proof. intros w. simpl. reflexivity. Qed.

Lemma keeps_bind {A B} (m : M A) (k : A → M B) :
  keeps R m → (∀ a, keeps R (k a)) → keeps R (x ← m; k x).
Proof.
  intros Hm Hk w. unfold mbind, M_bind, bind. specialize (Hm w).
  destruct (m w) as [[a|e] w1]; simpl in *; [| done].
  etransitivity; [exact Hm | apply Hk].
Qed.

Lemma keeps_for_each {A} (xs : list A) (body : A → M unit) :
  (∀ x, keeps R (body x)) → keeps R (for_each xs body).
Proof.
  intros Hbody. induction xs as [|x xs IH]; simpl.
  - apply keeps_ret.
  - apply keeps_bind; [apply Hbody | intros _; apply IH].
Qed.

Lemma keeps_map_m {A B} (f : A → M B) (xs : list A) :
  (∀ x, keeps R (f x)) → keeps R (map_m f xs).
Proof.
  intros Hf. induction xs as [|x xs IH]; simpl.
  - apply keeps_ret.
  - apply keeps_bind; [apply Hf | intros y].
    apply keeps_bind; [apply IH | intros ys; apply keeps_ret].
Qed.

Lemma keeps_subscript {K V} `{EqDecision K} (d : dict K V) k :
  keeps R (subscript d k).
Proof.
  unfold subscript. destruct (dict_get k d); [apply keeps_ret | apply keeps_raise].
Qed.

End Keeps.

#[global] Instance same_cache_refl : Reflexive same_cache.
Proof. by intros w. Qed.
#[global] Instance same_cache_trans : Transitive same_cache.
Proof. unfold same_cache. intros w1 w2 w3 H12 H23. congruence. Qed.
#[global] Instance same_ts_refl : Reflexive same_ts.
Proof. by intros w. Qed.
#[global] Instance same_ts_trans : Transitive same_ts.
Proof. unfold same_ts. intros w1 w2 w3 H12 H23. congruence. Qed.
#[global] Instance same_requests_refl : Reflexive same_requests.
Proof. by intros w. Qed.
#[global] Instance same_requests_trans : Transitive same_requests.
Proof. unfold same_requests. intros w1 w2 w3 H12 H23. congruence. Qed.
#[global] Instance cache_grows_refl : Reflexive cache_grows.
Proof. by intros w k. Qed.
#[global] Instance cache_grows_trans : Transitive cache_grows.
Proof. intros w1 w2 w3 H12 H23 k Hk. by apply H23, H12. Qed.

Lemma same_cache_grows w w' : same_cache w w' → cache_grows w w'.
Proof. unfold same_cache. intros Hc k. by rewrite Hc. Qed.

Lemma keeps_weaken {A} (R R' : World → World → Prop) (m : M A) :
  (∀ w w', R w w' → R' w w') → keeps R m → keeps R' m.
Proof. intros Hsub Hm w. apply Hsub, Hm. Qed.

Create HintDb keeps discriminated.

Lemma print_same_cache e : keeps same_cache (print e).
Proof. by intros w. Qed.
Lemma print_same_ts e : keeps same_ts (print e).
Proof. by intros w. Qed.
Lemma print_same_requests e : keeps same_requests (print e).
Proof. by intros w. Qed.
Lemma send_same_cache r : keeps same_cache (send r).
Proof. by intros w. Qed.
Lemma send_same_ts r : keeps same_ts (send r).
Proof. by intros w. Qed.
Lemma get_cache_keeps R `{!Reflexive R} : keeps R get_cache.
Proof. intros w. simpl. reflexivity. Qed.
Lemma get_ts_keeps R `{!Reflexive R} : keeps R get_ts.
Proof. intros w. simpl. reflexivity. Qed.
Lemma set_cache_same_ts c : keeps same_ts (set_cache c).
Proof. by intros w. Qed.
Lemma set_cache_same_requests c : keeps same_requests (set_cache c).
Proof. by intros w. Qed.
Lemma set_ts_same_cache t : keeps same_cache (set_ts t).
Proof. by intros w. Qed.
Lemma set_ts_same_requests t : keeps same_requests (set_ts t).
Proof. by intros w. Qed.

#[global] Hint Resolve keeps_ret keeps_mret keeps_raise keeps_lift
  keeps_subscript get_cache_keeps get_ts_keeps print_same_cache print_same_ts
  print_same_requests send_same_cache send_same_ts set_cache_same_ts
  set_cache_same_requests set_ts_same_cache set_ts_same_requests : keeps.

(** One step of a proof that a handler keeps a relation: through a bind,
    into the branches of a test, or by a fact of the database. *)
Ltac keeps_step :=
  match goal with
  | |- keeps _ (let _ := _ in _) => cbv zeta
  | |- keeps _ (mbind _ _) => refine (keeps_bind _ _ _ _ _); [| intros ?]
  | |- keeps _ (for_each _ _) => refine (keeps_for_each _ _ _ _); intros ?
  | |- keeps _ (map_m _ _) => refine (keeps_map_m _ _ _ _); intros ?
  | |- keeps _ (if ?b then _ else _) => destruct b
  | |- keeps _ (match ?x with _ => _ end) => destruct x
  | |- keeps _ _ => solve [eauto with keeps typeclass_instances]
  end.

Ltac keeps_auto := repeat keeps_step.

Lemma dw_to_item_same_cache `{DateParser} d : keeps same_cache (_dw_to_item d).
Proof. unfold _dw_to_item. keeps_auto. Qed.
Lemma dw_to_item_same_ts `{DateParser} d : keeps same_ts (_dw_to_item d).
Proof. unfold _dw_to_item. keeps_auto. Qed.
Lemma dw_to_item_same_requests `{DateParser} d : keeps same_requests (_dw_to_item d).
Proof. unfold _dw_to_item. keeps_auto. Qed.

Lemma get_dataentry_same_cache env u : keeps same_cache (get_dataentry env u).
Proof. unfold get_dataentry, wiki_info, wiki_get. keeps_auto. Qed.
Lemma get_dataentry_same_ts env u : keeps same_ts (get_dataentry env u).
Proof. unfold get_dataentry, wiki_info, wiki_get. keeps_auto. Qed.

#[global] Hint Resolve dw_to_item_same_cache dw_to_item_same_ts
  dw_to_item_same_requests get_dataentry_same_cache get_dataentry_same_ts : keeps.

Lemma refresh_page_same_ts env pg : keeps same_ts (refresh_page env pg).
Proof. unfold refresh_page, id_suffix. keeps_auto. Qed.

Lemma changed_items_same_ts env pgs acc : keeps same_ts (changed_items env pgs acc).
Proof.
  revert acc. induction pgs as [|pg pgs IH]; intros acc; simpl; keeps_auto;
    apply IH.
Qed.

Lemma changed_items_same_cache env pgs acc :
  keeps same_cache (changed_items env pgs acc).
Proof.
  revert acc. induction pgs as [|pg pgs IH]; intros acc; simpl; keeps_auto;
    apply IH.
Qed.

#[global] Hint Resolve refresh_page_same_ts changed_items_same_ts
  changed_items_same_cache : keeps.

Lemma update_cache_same_ts env since : keeps same_ts (update_cache env since).
Proof.
  unfold update_cache, pages_to_refresh, wiki_list, wiki_changes. keeps_auto.
Qed.

(** ** Field mapper: the two tables *)

Lemma DW_TO_I_to_I_TO_DW k t :
  dict_get k DW_TO_I = Some t → dict_get t I_TO_DW = Some k.
Proof.
  unfold DW_TO_I. simpl. intros Hk.
  repeat (case_decide; [simplify_eq; reflexivity |]). discriminate Hk.
Qed.

Lemma I_TO_DW_to_DW_TO_I k t :
  dict_get t I_TO_DW = Some k → dict_get k DW_TO_I = Some t.
Proof.
  unfold I_TO_DW. simpl. intros Ht.
  repeat (case_decide; [simplify_eq; reflexivity |]). discriminate Ht.
Qed.

Lemma DW_TO_I_inj k k' t :
  dict_get k DW_TO_I = Some t → dict_get k' DW_TO_I = Some t → k = k'.
Proof.
  intros Hk%DW_TO_I_to_I_TO_DW Hk'%DW_TO_I_to_I_TO_DW. congruence.
Qed.

(** X1: the reverse table is the inverse of the forward table: a wiki name
    is mapped to a field exactly when that field is mapped back to the
    name, so that no two wiki names share a field and no entry is lost in
    the inversion. *)
Theorem field_tables_are_inverse k t :
  (dict_get k DW_TO_I = Some t ↔ dict_get t I_TO_DW = Some k) ∧
  length I_TO_DW = length DW_TO_I ∧
  (∀ k', dict_get k DW_TO_I = Some t → dict_get k' DW_TO_I = Some t → k = k').
Proof.
  split; [split; [apply DW_TO_I_to_I_TO_DW | apply I_TO_DW_to_DW_TO_I] |].
  split; [reflexivity |].
  intros k' Hk Hk'. by eapply DW_TO_I_inj.
Qed.

(** ** Field mapper: what [_dw_to_item] collects *)

Lemma collect_step_get dataentry acc k k0 t0 :
  dict_get k0 DW_TO_I = Some t0 →
  dict_get t0 (collect_step dataentry acc k) =
    if decide (k = k0) then
      match dict_get k0 dataentry with
      | Some v => Some (blank_to_none v)
      | None => dict_get t0 acc
      end
    else dict_get t0 acc.
Proof.
  intros H0. unfold collect_step, blank_to_none. case_decide as Hk.
  - subst k. rewrite H0.
    destruct (dict_get k0 dataentry) as [v|]; [| done].
    case_decide; apply dict_get_set_eq.
  - destruct (dict_get k DW_TO_I) as [t|] eqn:Ht; [| done].
    destruct (dict_get k dataentry) as [v|]; [| done].
    assert (t ≠ t0) as Hne.
    { intros ->. apply Hk. by eapply DW_TO_I_inj. }
    case_decide; by apply dict_get_set_ne.
Qed.

Lemma collect_fold_get dataentry ks acc k0 t0 :
  dict_get k0 DW_TO_I = Some t0 →
  dict_get t0 (fold_left (collect_step dataentry) ks acc) =
    match dict_get k0 dataentry with
    | Some v => if bool_decide (k0 ∈ ks) then Some (blank_to_none v)
                else dict_get t0 acc
    | None => dict_get t0 acc
    end.
Proof.
  intros H0. revert acc. induction ks as [|k ks IH]; intros acc; simpl.
  - by destruct (dict_get k0 dataentry).
  - rewrite IH, (collect_step_get _ _ _ _ _ H0).
    destruct (dict_get k0 dataentry) as [v|]; [| by case_decide].
    destruct (decide (k = k0)) as [->|Hk].
    + rewrite (bool_decide_true (k0 ∈ k0 :: ks)) by apply list_elem_of_here.
      by case_bool_decide.
    + destruct (bool_decide (k0 ∈ ks)) eqn:Hin.
      * apply bool_decide_eq_true in Hin.
        by rewrite bool_decide_true by (by apply list_elem_of_further).
      * apply bool_decide_eq_false in Hin.
        rewrite bool_decide_false; [done |].
        intros [?|?]%elem_of_cons; congruence.
Qed.

Lemma collect_fields_get dataentry k0 t0 :
  dict_get k0 DW_TO_I = Some t0 →
  dict_get t0 (collect_fields dataentry) = blank_to_none <$> dict_get k0 dataentry.
Proof.
  intros H0. unfold collect_fields. rewrite (collect_fold_get _ _ _ _ _ H0).
  destruct (dict_get k0 dataentry) as [v|] eqn:Hk; [| done].
  by rewrite bool_decide_true by (by eapply dict_get_in_keys).
Qed.

Lemma collect_fold_unmapped dataentry ks acc t :
  dict_get t I_TO_DW = None →
  dict_get t (fold_left (collect_step dataentry) ks acc) = dict_get t acc.
Proof.
  intros Ht. revert acc. induction ks as [|k ks IH]; intros acc; simpl; [done |].
  rewrite IH. unfold collect_step.
  destruct (dict_get k DW_TO_I) as [t'|] eqn:Hk; [| done].
  destruct (dict_get k dataentry) as [v|]; [| done].
  assert (t' ≠ t) as Hne.
  { intros ->. apply DW_TO_I_to_I_TO_DW in Hk. congruence. }
  case_decide; by apply dict_get_set_ne.
Qed.

Lemma item_fields_of_other dataentry t :
  t ≠ "typ" →
  dict_get t (item_fields_of dataentry) = dict_get t (collect_fields dataentry).
Proof.
  intros Ht. unfold item_fields_of.
  destruct (dict_get "typ" (collect_fields dataentry)) as [[]|]; try done.
  by apply dict_get_set_ne.
Qed.

Lemma item_fields_of_typ dataentry :
  dict_get "typ" (item_fields_of dataentry) =
    match blank_to_none <$> dict_get "Typ_devicetypes" dataentry with
    | Some (PStr s) => Some (PList [s])
    | other => other
    end.
Proof.
  unfold item_fields_of.
  rewrite <- (collect_fields_get dataentry "Typ_devicetypes" "typ") by reflexivity.
  destruct (dict_get "typ" (collect_fields dataentry)) as [[]|] eqn:Htyp;
    try done.
  apply dict_get_set_eq.
Qed.

Lemma dw_to_item_result `{DateParser} dataentry w :
  fst (_dw_to_item dataentry w) = Item_init (item_fields_of dataentry).
Proof.
  unfold _dw_to_item, item_fields_of. run.
  destruct (dict_get "typ" (collect_fields dataentry)) as [[]|]; simpl; try done.
  destruct (dict_get "uid" (collect_fields dataentry)); done.
Qed.

Lemma Item_init_inv `{DateParser} f item :
  Item_init f = Ok item →
  validate_int (dict_get "uid" f) = Ok (uid item) ∧
  validate_list_str (dict_get "typ" f) = Ok (typ item) ∧
  validate_str (dict_get "name" f) = Ok (name item) ∧
  validate_str (dict_get "standort" f) = Ok (standort item) ∧
  validate_str (dict_get "os" f) = Ok (os item) ∧
  validate_str (dict_get "zubehoer" f) = Ok (zubehoer item) ∧
  validate_str (dict_get "seriennummern" f) = Ok (seriennummern item) ∧
  validate_str (dict_get "status" f) = Ok (status item) ∧
  validate_str (dict_get "ausleiher" f) = Ok (ausleiher item) ∧
  validate_date (dict_get "von" f) = Ok (von item) ∧
  validate_date (dict_get "bis" f) = Ok (bis item) ∧
  validate_str (dict_get "anmerkungen" f) = Ok (anmerkungen item) ∧
  validate_str (dict_get "url" f) = Ok (url item).
Proof.
  unfold Item_init. intros Hinit.
  repeat match type of Hinit with
         | context [mbind _ ?r] => destruct r; simpl in Hinit; [| discriminate Hinit]
         end.
  inversion Hinit. simpl. repeat split.
Qed.

Lemma Item_init_raises `{DateParser} f e :
  Item_init f = Raise e → e = ValidationError.
Proof.
  assert (∀ v e', validate_int v = Raise e' → e' = ValidationError) as Hint.
  { intros [[| s | |]|] e'; simpl; try congruence. destruct (Py.int s); congruence. }
  assert (∀ v e', validate_str v = Raise e' → e' = ValidationError) as Hstr.
  { intros [[]|] e'; simpl; congruence. }
  assert (∀ v e', validate_list_str v = Raise e' → e' = ValidationError) as Hlist.
  { intros [[]|] e'; simpl; congruence. }
  assert (∀ v e', validate_date v = Raise e' → e' = ValidationError) as Hdate.
  { intros [[| s | |]|] e'; simpl; try congruence.
    destruct (parse_date s); congruence. }
  unfold Item_init. intros Hinit.
  repeat match type of Hinit with
         | context [mbind _ ?r] =>
             let E := fresh "E" in
             destruct r eqn:E; simpl in Hinit;
             [| inversion Hinit; subst; eauto]
         end.
  discriminate Hinit.
Qed.

Lemma validate_str_text v x :
  validate_str (blank_to_none <$> v) = Ok x → x = text_of v.
Proof.
  unfold blank_to_none, text_of. destruct v as [[| s | |]|]; simpl; try congruence.
  repeat case_decide; simpl; congruence.
Qed.

(** X2: when [_dw_to_item] succeeds, each text field of the item is the
    string that the record holds under the field's wiki name, and is absent
    when the record lacks that name or holds the empty string there; [url],
    which no wiki name maps to, is always absent. *)
Theorem dw_to_item_text_fields `{DateParser} dataentry w item w' :
  _dw_to_item dataentry w = (Ok item, w') →
  name item = text_of (dict_get "Name" dataentry) ∧
  standort item = text_of (dict_get "Standort" dataentry) ∧
  os item = text_of (dict_get "OS" dataentry) ∧
  zubehoer item = text_of (dict_get "Zubehör" dataentry) ∧
  seriennummern item = text_of (dict_get "Seriennummern" dataentry) ∧
  status item = text_of (dict_get "Status_devicestat" dataentry) ∧
  ausleiher item = text_of (dict_get "Ausleiher" dataentry) ∧
  anmerkungen item = text_of (dict_get "Anmerkungen" dataentry) ∧
  url item = None.
Proof.
  intros Hrun.
  pose proof (dw_to_item_result dataentry w) as Hres.
  rewrite Hrun in Hres. simpl in Hres. symmetry in Hres.
  apply Item_init_inv in Hres
    as (_ & _ & Hname & Hort & Hos & Hzub & Hser & Hstat & Haus & _ & _ & Hanm & Hurl).
  rewrite item_fields_of_other in Hname, Hort, Hos, Hzub, Hser, Hstat, Haus,
    Hanm, Hurl by done.
  rewrite (collect_fields_get _ "Name") in Hname by reflexivity.
  rewrite (collect_fields_get _ "Standort") in Hort by reflexivity.
  rewrite (collect_fields_get _ "OS") in Hos by reflexivity.
  rewrite (collect_fields_get _ "Zubehör") in Hzub by reflexivity.
  rewrite (collect_fields_get _ "Seriennummern") in Hser by reflexivity.
  rewrite (collect_fields_get _ "Status_devicestat") in Hstat by reflexivity.
  rewrite (collect_fields_get _ "Ausleiher") in Haus by reflexivity.
  rewrite (collect_fields_get _ "Anmerkungen") in Hanm by reflexivity.
  unfold collect_fields in Hurl.
  rewrite collect_fold_unmapped in Hurl by reflexivity.
  repeat split; try by apply validate_str_text.
  simpl in Hurl. congruence.
Qed.

Lemma dw_to_item_text_fields_witness :
  let item := mkItem (Some 42) (Some ["Beamer"]) (Some "Beamer Epson")
                (Some "Safe") (Some "none") (Some "Kabel") (Some "X1")
                (Some "entliehen") (Some "abc12345") (Some (Date 2021 5 1))
                (Some (Date 2021 6 1)) (Some "ok") None in
  name item = text_of (dict_get "Name" Sample.beamer) ∧
  standort item = text_of (dict_get "Standort" Sample.beamer) ∧
  os item = text_of (dict_get "OS" Sample.beamer) ∧
  zubehoer item = text_of (dict_get "Zubehör" Sample.beamer) ∧
  seriennummern item = text_of (dict_get "Seriennummern" Sample.beamer) ∧
  status item = text_of (dict_get "Status_devicestat" Sample.beamer) ∧
  ausleiher item = text_of (dict_get "Ausleiher" Sample.beamer) ∧
  anmerkungen item = text_of (dict_get "Anmerkungen" Sample.beamer) ∧
  url item = None.
Proof.
  apply (@dw_to_item_text_fields Sample.dates Sample.beamer World_init _ World_init).
  reflexivity.
Defined.

Lemma typ_validated `{DateParser} dataentry w item w' :
  _dw_to_item dataentry w = (Ok item, w') →
  validate_list_str
    match blank_to_none <$> dict_get "Typ_devicetypes" dataentry with
    | Some (PStr s) => Some (PList [s])
    | other => other
    end = Ok (typ item).
Proof.
  intros Hrun.
  pose proof (dw_to_item_result dataentry w) as Hres.
  rewrite Hrun in Hres. simpl in Hres. symmetry in Hres.
  apply Item_init_inv in Hres as (_ & Htyp & _).
  by rewrite item_fields_of_typ in Htyp.
Qed.

(** X3: when [_dw_to_item] succeeds, a type given as one non-empty string
    comes out as the list of that one string, a type given as a list comes
    out as that list, unchanged, and a missing or empty type gives no
    [typ]. *)
Theorem dw_to_item_typ `{DateParser} dataentry w item w' :
  _dw_to_item dataentry w = (Ok item, w') →
  typ item = typ_of (dict_get "Typ_devicetypes" dataentry).
Proof.
  intros Htyp%typ_validated. unfold typ_of, blank_to_none in *.
  destruct (dict_get "Typ_devicetypes" dataentry) as [[| s | |]|];
    simpl in Htyp; try congruence.
  repeat case_decide; simplify_eq; simpl in Htyp; congruence.
Qed.

Lemma dw_to_item_typ_witness :
  typ (mkItem None (Some ["Kamera"; "Stativ"]) None None None None None None
              None None None None None)
    = typ_of (dict_get "Typ_devicetypes"
                [("Typ_devicetypes", PList ["Kamera"; "Stativ"])]).
Proof.
  apply (@dw_to_item_typ Sample.dates
           [("Typ_devicetypes", PList ["Kamera"; "Stativ"])]
           World_init _ World_init).
  reflexivity.
Defined.

Lemma validate_int_coercible v :
  (∃ x, validate_int (blank_to_none <$> v) = Ok x) ↔
  coercible Py.int v ∧ ∀ l f, v ≠ Some (PList l) ∧ v ≠ Some (PField f).
Proof.
  unfold coercible, blank_to_none. destruct v as [[| s | l | f]|]; simpl.
  - split; [intros _; split; [done | intros; split; congruence] | eauto].
  - case_decide as Hs.
    + simplify_eq. simpl.
      split; [intros _; split; [by left | intros; split; congruence] | eauto].
    + simpl. destruct (Py.int s) as [z|] eqn:Hz.
      * split; [intros _; split; [right; eauto | intros; split; congruence] | eauto].
      * split; [intros [x Hx]; discriminate Hx |].
        intros [[?|[z Hz']] _]; [congruence | discriminate Hz'].
  - split; [intros [x Hx]; discriminate Hx |].
    intros [_ Hl]. by destruct (Hl l "") as [Hl1 _].
  - split; [intros [x Hx]; discriminate Hx |].
    intros [_ Hf]. by destruct (Hf [] f) as [_ Hf2].
  - split; [intros _; split; [done | intros; split; congruence] | eauto].
Qed.

Lemma validate_date_coercible `{DateParser} v :
  (∃ x, validate_date (blank_to_none <$> v) = Ok x) ↔
  coercible parse_date v ∧ ∀ l f, v ≠ Some (PList l) ∧ v ≠ Some (PField f).
Proof.
  unfold coercible, blank_to_none. destruct v as [[| s | l | f]|]; simpl.
  - split; [intros _; split; [done | intros; split; congruence] | eauto].
  - case_decide as Hs.
    + simplify_eq. simpl.
      split; [intros _; split; [by left | intros; split; congruence] | eauto].
    + simpl. destruct (parse_date s) as [z|] eqn:Hz.
      * split; [intros _; split; [right; eauto | intros; split; congruence] | eauto].
      * split; [intros [x Hx]; discriminate Hx |].
        intros [[?|[z Hz']] _]; [congruence | discriminate Hz'].
  - split; [intros [x Hx]; discriminate Hx |].
    intros [_ Hl]. by destruct (Hl l "") as [Hl1 _].
  - split; [intros [x Hx]; discriminate Hx |].
    intros [_ Hf]. by destruct (Hf [] f) as [_ Hf2].
  - split; [intros _; split; [done | intros; split; congruence] | eauto].
Qed.

Lemma all_strings_cases dataentry k :
  all_strings dataentry →
  dict_get k dataentry = None ∨ ∃ s, dict_get k dataentry = Some (PStr s).
Proof.
  intros Hall. destruct (dict_get k dataentry) as [v|] eqn:Hk; [| by left].
  right. destruct (Hall k v Hk) as [s ->]. by exists s.
Qed.

Lemma validate_str_strings dataentry k :
  all_strings dataentry →
  ∃ x, validate_str (blank_to_none <$> dict_get k dataentry) = Ok x.
Proof.
  intros Hall. destruct (all_strings_cases dataentry k Hall) as [->|[s ->]];
    simpl; [eauto |].
  unfold blank_to_none. case_decide; simpl; eauto.
Qed.

(** X4: for a record whose values are all strings, as its annotation
    says, [_dw_to_item] succeeds exactly when the [ID] is empty, missing or
    an integer numeral and each of the two dates is empty, missing or
    accepted by the date parser; in every other case it raises
    [ValidationError].  The [ID] is taken to be ASCII text of at most 4300
    characters, where reading an integer is the same in the model and in
    every interpreter. *)
Theorem dw_to_item_succeeds_iff `{DateParser} dataentry w :
  all_strings dataentry →
  id_exact dataentry →
  ((∃ item w', _dw_to_item dataentry w = (Ok item, w')) ↔
   coercible Py.int (dict_get "ID" dataentry) ∧
   coercible parse_date (dict_get "Von_dt" dataentry) ∧
   coercible parse_date (dict_get "Bis_dt" dataentry)) ∧
  (fst (_dw_to_item dataentry w) = Raise ValidationError ∨
   ∃ item, fst (_dw_to_item dataentry w) = Ok item).
Proof.
  intros Hall _.
  assert (∀ k l f, dict_get k dataentry ≠ Some (PList l) ∧
                   dict_get k dataentry ≠ Some (PField f)) as Hshape.
  { intros k l f.
    destruct (all_strings_cases dataentry k Hall) as [->|[s ->]]; split; congruence. }
  split.
  - split.
    + intros (item & w' & Hrun).
      pose proof (dw_to_item_result dataentry w) as Hres.
      rewrite Hrun in Hres. simpl in Hres. symmetry in Hres.
      apply Item_init_inv in Hres
        as (Huid & _ & _ & _ & _ & _ & _ & _ & _ & Hvon & Hbis & _).
      rewrite item_fields_of_other in Huid, Hvon, Hbis by done.
      rewrite (collect_fields_get _ "ID") in Huid by reflexivity.
      rewrite (collect_fields_get _ "Von_dt") in Hvon by reflexivity.
      rewrite (collect_fields_get _ "Bis_dt") in Hbis by reflexivity.
      split; [apply validate_int_coercible; eauto |].
      split; apply validate_date_coercible; eauto.
    + intros (Hid & Hvon & Hbis).
      destruct (proj2 (validate_int_coercible _) (conj Hid (Hshape "ID")))
        as [xu Hu].
      destruct (proj2 (validate_date_coercible _) (conj Hvon (Hshape "Von_dt")))
        as [xv Hv].
      destruct (proj2 (validate_date_coercible _) (conj Hbis (Hshape "Bis_dt")))
        as [xb Hb].
      destruct (_dw_to_item dataentry w) as [r w'] eqn:Hrun.
      pose proof (dw_to_item_result dataentry w) as Hres.
      rewrite Hrun in Hres. simpl in Hres.
      assert (∃ item, Item_init (item_fields_of dataentry) = Ok item)
        as [item Hitem]; [| exists item, w'; congruence].
      unfold Item_init.
      rewrite (item_fields_of_other dataentry "uid") by done.
      rewrite (item_fields_of_other dataentry "name") by done.
      rewrite (item_fields_of_other dataentry "standort") by done.
      rewrite (item_fields_of_other dataentry "os") by done.
      rewrite (item_fields_of_other dataentry "zubehoer") by done.
      rewrite (item_fields_of_other dataentry "seriennummern") by done.
      rewrite (item_fields_of_other dataentry "status") by done.
      rewrite (item_fields_of_other dataentry "ausleiher") by done.
      rewrite (item_fields_of_other dataentry "von") by done.
      rewrite (item_fields_of_other dataentry "bis") by done.
      rewrite (item_fields_of_other dataentry "anmerkungen") by done.
      rewrite (item_fields_of_other dataentry "url") by done.
      rewrite item_fields_of_typ.
      rewrite (collect_fields_get dataentry "ID" "uid") by reflexivity.
      rewrite Hu. simpl.
      assert (∃ x, validate_list_str
                     match blank_to_none <$> dict_get "Typ_devicetypes" dataentry with
                     | Some (PStr s) => Some (PList [s])
                     | other => other
                     end = Ok x) as [xt ->].
      { destruct (all_strings_cases dataentry "Typ_devicetypes" Hall)
          as [->|[s ->]]; simpl; [eauto |].
        unfold blank_to_none. case_decide; simpl; eauto. }
      simpl.
      repeat match goal with
      | |- context [validate_str (dict_get ?t (collect_fields dataentry))] =>
          let k := eval vm_compute in (dict_get t I_TO_DW) in
          match k with
          | Some ?k0 =>
              rewrite (collect_fields_get dataentry k0 t) by reflexivity;
              let x := fresh "x" in
              destruct (validate_str_strings dataentry k0 Hall) as [x ->]; simpl
          | None =>
              unfold collect_fields at 1;
              rewrite (collect_fold_unmapped dataentry _ _ t) by reflexivity; simpl
          end
      | |- context [validate_date (dict_get "von" (collect_fields dataentry))] =>
          rewrite (collect_fields_get dataentry "Von_dt" "von") by reflexivity;
          rewrite Hv; simpl
      | |- context [validate_date (dict_get "bis" (collect_fields dataentry))] =>
          rewrite (collect_fields_get dataentry "Bis_dt" "bis") by reflexivity;
          rewrite Hb; simpl
      end.
      eauto.
  - rewrite dw_to_item_result.
    destruct (Item_init (item_fields_of dataentry)) as [item|e] eqn:Hinit.
    + right. eauto.
    + left. by rewrite (Item_init_raises _ _ Hinit).
Qed.

Lemma dw_to_item_succeeds_iff_witness :
  ((∃ item w', @_dw_to_item Sample.dates Sample.beamer World_init = (Ok item, w')) ↔
   coercible Py.int (dict_get "ID" Sample.beamer) ∧
   coercible (@parse_date Sample.dates) (dict_get "Von_dt" Sample.beamer) ∧
   coercible (@parse_date Sample.dates) (dict_get "Bis_dt" Sample.beamer)) ∧
  (fst (@_dw_to_item Sample.dates Sample.beamer World_init) = Raise ValidationError ∨
   ∃ item, fst (@_dw_to_item Sample.dates Sample.beamer World_init) = Ok item).
Proof.
  apply (@dw_to_item_succeeds_iff Sample.dates Sample.beamer World_init).
  - intros k v Hk. unfold Sample.beamer in Hk. simpl in Hk.
    repeat (case_decide; [inversion Hk; eauto |]). discriminate Hk.
  - intros s [= <-]. split; [reflexivity | simpl; lia].
Defined.

Lemma Item_init_ext `{DateParser} f1 f2 :
  (∀ t, dict_get t f1 = dict_get t f2) → Item_init f1 = Item_init f2.
Proof. intros Hext. unfold Item_init. by rewrite !Hext. Qed.

Lemma item_fields_of_get dataentry t :
  dict_get t (item_fields_of dataentry) =
    match dict_get t I_TO_DW with
    | Some k =>
        if decide (t = "typ") then
          match blank_to_none <$> dict_get k dataentry with
          | Some (PStr s) => Some (PList [s])
          | other => other
          end
        else blank_to_none <$> dict_get k dataentry
    | None => None
    end.
Proof.
  destruct (dict_get t I_TO_DW) as [k|] eqn:Ht.
  - case_decide as Htyp.
    + subst t. inversion Ht. apply item_fields_of_typ.
    + rewrite item_fields_of_other by done.
      apply collect_fields_get. by apply I_TO_DW_to_DW_TO_I.
  - assert (t ≠ "typ") as Htyp by (intros ->; discriminate Ht).
    rewrite item_fields_of_other by done.
    unfold collect_fields. by rewrite collect_fold_unmapped.
Qed.

(** X5: the mapper looks at nothing but the twelve mapped names: two
    records that hold the same values under these names give the same item,
    or the same error, whatever other keys they have and in whatever order
    their keys come. *)
Theorem dw_to_item_reads_mapped_names_only `{DateParser} d1 d2 w1 w2 :
  (∀ k, is_Some (dict_get k DW_TO_I) → dict_get k d1 = dict_get k d2) →
  fst (_dw_to_item d1 w1) = fst (_dw_to_item d2 w2).
Proof.
  intros Hagree. rewrite !dw_to_item_result. apply Item_init_ext. intros t.
  rewrite !item_fields_of_get.
  destruct (dict_get t I_TO_DW) as [k|] eqn:Ht; [| done].
  rewrite Hagree; [done |]. apply I_TO_DW_to_DW_TO_I in Ht. eauto.
Qed.

Lemma dw_to_item_reads_mapped_names_only_witness :
  fst (@_dw_to_item Sample.dates
         [("Foto", PStr "x.jpg"); ("Name", PStr "Stativ"); ("ID", PStr "9")]
         World_init)
  = fst (@_dw_to_item Sample.dates
           [("ID", PStr "9"); ("Name", PStr "Stativ")] World_init).
Proof.
  apply (@dw_to_item_reads_mapped_names_only Sample.dates).
  intros k Hk. simpl.
  repeat (case_decide; [simplify_eq; try reflexivity; by destruct Hk |]).
  reflexivity.
Defined.

(** X6: [_dw_to_item] can fail with [ValidationError] only; it leaves the
    cache, the watermark and the requests sent to the wiki as they were,
    and its answer is the same in every world. *)
Theorem dw_to_item_only_prints `{DateParser} dataentry w w2 :
  (∀ e, fst (_dw_to_item dataentry w) = Raise e → e = ValidationError) ∧
  fst (_dw_to_item dataentry w) = fst (_dw_to_item dataentry w2) ∧
  cache (snd (_dw_to_item dataentry w)) = cache w ∧
  last_checked_ts (snd (_dw_to_item dataentry w)) = last_checked_ts w ∧
  requests (snd (_dw_to_item dataentry w)) = requests w.
Proof.
  split; [| split; [by rewrite !dw_to_item_result | apply dw_to_item_frame]].
  intros e. rewrite dw_to_item_result. apply Item_init_raises.
Qed.

Lemma app_cons_neq {A} (xs ys : list A) y : (xs ++ y :: ys)%list ≠ xs.
Proof.
  intros Heq. apply (f_equal length) in Heq.
  rewrite length_app in Heq. simpl in Heq. lia.
Qed.

(** X7: [_dw_to_item] prints its no-type warning exactly when the record
    has no [Typ_devicetypes] key.  A record whose type is the empty string
    gets no warning, although the item it gives has no [typ]. *)
Theorem dw_to_item_warns_without_typ_key `{DateParser} dataentry w :
  (stdout (snd (_dw_to_item dataentry w)) = stdout w ↔
   is_Some (dict_get "Typ_devicetypes" dataentry)) ∧
  (dict_get "Typ_devicetypes" dataentry = Some (PStr "") →
   stdout (snd (_dw_to_item dataentry w)) = stdout w ∧
   ∀ item, fst (_dw_to_item dataentry w) = Ok item → typ item = None).
Proof.
  assert (stdout (snd (_dw_to_item dataentry w)) = stdout w ↔
          is_Some (dict_get "Typ_devicetypes" dataentry)) as Hiff.
  { pose proof (collect_fields_get dataentry "Typ_devicetypes" "typ" eq_refl)
      as Htyp.
    unfold _dw_to_item. run.
    destruct (dict_get "typ" (collect_fields dataentry)) as [v|] eqn:Hcf.
    - destruct (dict_get "Typ_devicetypes" dataentry); [| discriminate Htyp].
      split; [eauto | intros _]. by destruct v.
    - destruct (dict_get "Typ_devicetypes" dataentry); [discriminate Htyp |].
      split; [| by intros [? ?]].
      destruct (dict_get "uid" (collect_fields dataentry)); simpl; intros Hout.
      + by apply app_cons_neq in Hout.
      + rewrite <- app_assoc in Hout. by apply app_cons_neq in Hout. }
  split; [done |]. intros Hblank. split; [apply Hiff; eauto |].
  intros item Hitem.
  destruct (_dw_to_item dataentry w) as [r w'] eqn:Hrun. simpl in Hitem. subst r.
  pose proof (typ_validated _ _ _ _ Hrun) as Htyp.
  rewrite Hblank in Htyp. simpl in Htyp. congruence.
Qed.

Lemma dw_to_item_warns_without_typ_key_witness :
  stdout (snd (@_dw_to_item Sample.dates [("Typ_devicetypes", PStr "")] World_init))
    = stdout World_init ∧
  ∀ item,
    fst (@_dw_to_item Sample.dates [("Typ_devicetypes", PStr "")] World_init)
      = Ok item →
    typ item = None.
Proof.
  apply (proj2 (@dw_to_item_warns_without_typ_key Sample.dates
                  [("Typ_devicetypes", PStr "")] World_init)).
  reflexivity.
Defined.

(** ** Page names and uids *)

Lemma chars_app s1 s2 :
  list_ascii_of_string (s1 ++ s2)
    = (list_ascii_of_string s1 ++ list_ascii_of_string s2)%list.
Proof. induction s1 as [|c s1 IH]; simpl; [done | by rewrite IH]. Qed.

Lemma int_digits_uint acc d :
  Py.int_digits acc true (list_ascii_of_string (NilEmpty.string_of_uint d))
    = Some (uint_val acc d).
Proof.
  revert acc. induction d; intros acc; simpl; try done;
    rewrite IHd; do 2 f_equal; unfold Py.digit_value; simpl; lia.
Qed.

Lemma int_digits_uint_start acc d :
  d ≠ Decimal.Nil →
  Py.int_digits acc false (list_ascii_of_string (NilEmpty.string_of_uint d))
    = Some (uint_val acc d).
Proof.
  destruct d; intros Hd; simpl; try done;
    rewrite int_digits_uint; do 2 f_equal; unfold Py.digit_value; simpl; lia.
Qed.

Lemma of_uint_acc_val d acc :
  Z.pos (Pos.of_uint_acc d acc) = uint_val (Z.pos acc) d.
Proof.
  revert acc. induction d; intros acc; simpl; try done; rewrite IHd; f_equal; lia.
Qed.

Lemma of_uint_val d : Z.of_N (Pos.of_uint d) = uint_val 0 d.
Proof.
  induction d; simpl; try done; rewrite of_uint_acc_val; reflexivity.
Qed.

Lemma to_uint_val n : uint_val 0 (N.to_uint n) = Z.of_N n.
Proof.
  rewrite <- of_uint_val. change (Pos.of_uint (N.to_uint n)) with (N.of_uint (N.to_uint n)).
  by rewrite DecimalN.Unsigned.of_to.
Qed.

Lemma to_uint_nonnil n : N.to_uint n ≠ Decimal.Nil.
Proof.
  destruct n as [|p]; simpl; [done | apply DecimalPos.Unsigned.to_uint_nonnil].
Qed.

Lemma str_of_N_chars n :
  Py.str_of_N n = NilEmpty.string_of_uint (N.to_uint n).
Proof.
  unfold Py.str_of_N, NilZero.string_of_uint.
  pose proof (to_uint_nonnil n). by destruct (N.to_uint n).
Qed.

Lemma digits_plain d :
  Forall (fun c => Py.isdigit c = true)
         (list_ascii_of_string (NilEmpty.string_of_uint d)).
Proof. induction d; simpl; constructor; done. Qed.

Lemma zeros_digits n :
  Forall (fun c => Py.isdigit c = true) (list_ascii_of_string (Py.zeros n)).
Proof. induction n; simpl; constructor; done. Qed.

Lemma isdigit_plain c : Py.isdigit c = true → plain c.
Proof.
  unfold Py.isdigit, Py.isspace, plain. intros Hd.
  apply andb_true_iff in Hd as [Hlo Hhi].
  apply N.leb_le in Hlo, Hhi. split.
  - apply orb_false_iff. split.
    + apply andb_false_iff. right. apply N.leb_gt. lia.
    + apply N.eqb_neq. lia.
  - destruct (Ascii.eqb_spec c ":") as [->|]; [| done].
    vm_compute in Hhi. done.
Qed.

Lemma int_digits_zeros n b rest :
  Py.int_digits 0 b (list_ascii_of_string (Py.zeros n) ++ rest)
    = Py.int_digits 0 (b || negb (Nat.eqb n 0)) rest.
Proof.
  revert b. induction n as [|n IH]; intros b; simpl.
  - by rewrite orb_false_r.
  - rewrite IH. simpl. by rewrite orb_true_r.
Qed.

Lemma lstrip_plain s : Forall plain s → Py.lstrip s = s.
Proof. destruct 1 as [|c s [Hc _] _]; simpl; [done | by rewrite Hc]. Qed.

Lemma strip_plain s : Forall plain s → Py.strip s = s.
Proof.
  intros Hs. unfold Py.strip. rewrite (lstrip_plain s Hs).
  rewrite lstrip_plain by (by apply Forall_rev). apply rev_involutive.
Qed.

Lemma digits_are_plain s :
  Forall (fun c => Py.isdigit c = true) s → Forall plain s.
Proof. intros Hs. eapply Forall_impl; [exact Hs | apply isdigit_plain]. Qed.

Lemma int_of_digits s :
  Forall (fun c => Py.isdigit c = true) (list_ascii_of_string s) →
  Py.int s = Py.int_digits 0 false (list_ascii_of_string s).
Proof.
  intros Hs. unfold Py.int. rewrite strip_plain by by apply digits_are_plain.
  destruct Hs as [|c cs Hc _]; [done |].
  destruct (Ascii.eqb_spec c "-") as [->|]; [discriminate Hc |].
  destruct (Ascii.eqb_spec c "+") as [->|]; [discriminate Hc | done].
Qed.

Lemma int_of_neg_digits s :
  Forall (fun c => Py.isdigit c = true) (list_ascii_of_string s) →
  Py.int (String "-" s) = Z.opp <$> Py.int_digits 0 false (list_ascii_of_string s).
Proof.
  intros Hs. unfold Py.int. cbn [list_ascii_of_string].
  rewrite strip_plain; [done |].
  constructor; [done | by apply digits_are_plain].
Qed.

Lemma padded_digits k n :
  Forall (fun c => Py.isdigit c = true)
         (list_ascii_of_string (Py.zeros k ++ Py.str_of_N n)).
Proof.
  rewrite chars_app, str_of_N_chars. apply Forall_app.
  split; [apply zeros_digits | apply digits_plain].
Qed.

(** The numeral that [format_03d] writes for a number without sign. *)
Lemma int_digits_padded k n :
  Py.int_digits 0 false (list_ascii_of_string (Py.zeros k ++ Py.str_of_N n))
    = Some (Z.of_N n).
Proof.
  rewrite chars_app, str_of_N_chars, int_digits_zeros. simpl.
  destruct (Nat.eqb k 0); simpl.
  - rewrite int_digits_uint_start by apply to_uint_nonnil. by rewrite to_uint_val.
  - rewrite int_digits_uint. by rewrite to_uint_val.
Qed.

Lemma int_format_03d z : Py.int (Py.format_03d z) = Some z.
Proof.
  unfold Py.format_03d, Py.zfill. destruct (Z.ltb_spec z 0) as [Hneg|Hpos].
  - change ("-" ++ ?s) with (String "-" s).
    rewrite int_of_neg_digits by apply padded_digits.
    rewrite int_digits_padded. simpl. f_equal. rewrite N2Z.inj_abs_N. lia.
  - rewrite int_of_digits by apply padded_digits.
    rewrite int_digits_padded. f_equal. lia.
Qed.

Lemma format_03d_plain z :
  Forall plain (list_ascii_of_string (Py.format_03d z)).
Proof.
  unfold Py.format_03d, Py.zfill. destruct (z <? 0).
  - change ("-" ++ ?s) with (String "-" s). cbn [list_ascii_of_string].
    constructor; [done |]. apply digits_are_plain, padded_digits.
  - apply digits_are_plain, padded_digits.
Qed.

Lemma split_plain s :
  Forall plain (list_ascii_of_string s) → Py.split ":" s = [s].
Proof.
  induction s as [|c s IH]; [done |]. simpl. intros Hs.
  apply Forall_cons in Hs as [[_ Hc] Hs]. rewrite split_cons, Hc, IH; done.
Qed.

Lemma split_app_sep sep p s :
  Py.split sep (p ++ String sep s) = (Py.split sep p ++ Py.split sep s)%list.
Proof.
  induction p as [|c p IH].
  - change (Py.split sep "") with [""].
    change ("" ++ String sep s) with (String sep s).
    rewrite split_cons. by rewrite Ascii.eqb_refl.
  - change (String c p ++ String sep s) with (String c (p ++ String sep s)).
    rewrite !split_cons. rewrite IH.
    destruct (Ascii.eqb c sep); [done |].
    pose proof (split_nonempty sep p). by destruct (Py.split sep p).
Qed.

Lemma append_sep p sep s : (p ++ String sep "") ++ s = p ++ String sep s.
Proof.
  induction p as [|c p IH]; [reflexivity |].
  change (String c ?a ++ ?b) with (String c (a ++ b)).
  change (String c ?a ++ ?b) with (String c (a ++ b)). by rewrite IH.
Qed.

Lemma page_of_uid env item_id p :
  wiki_path (settings env) = p ++ ":" →
  page_uid [("id", page_of env item_id)] = Some item_id.
Proof.
  intros Hpath. unfold page_uid, page_of. simpl. rewrite Hpath.
  rewrite append_sep.
  rewrite split_app_sep.
  rewrite (split_plain (Py.format_03d item_id)) by apply format_03d_plain.
  rewrite last_snoc. simpl. apply int_format_03d.
Qed.

(** X8: the name under which [get_dataentry] asks for an item and the uid
    that the refresh loop reads off a page name undo each other: for a
    namespace that ends in a colon, the page asked for uid n is a page that
    the loop files under n again, for every integer n, negative ones
    included. *)
Theorem page_name_round_trip env item_id p :
  wiki_path (settings env) = p ++ ":" →
  Py.int (Py.format_03d item_id) = Some item_id ∧
  page_uid [("id", page_of env item_id)] = Some item_id ∧
  ∀ w, refresh_page env [("id", page_of env item_id)] w =
         (data ← get_dataentry env item_id;
          c ← get_cache;
          set_cache (dict_set item_id data c)) w.
Proof.
  intros Hpath. split; [apply int_format_03d |].
  split; [by eapply page_of_uid |].
  intros w. apply refresh_page_item. by eapply page_of_uid.
Qed.

Lemma page_name_round_trip_witness :
  Py.int (Py.format_03d (-7)) = Some (-7) ∧
  page_uid [("id", page_of Sample.env_lab (-7))] = Some (-7) ∧
  ∀ w, refresh_page Sample.env_lab [("id", page_of Sample.env_lab (-7))] w =
         (data ← get_dataentry Sample.env_lab (-7);
          c ← get_cache;
          set_cache (dict_set (-7) data c)) w.
Proof.
  apply (page_name_round_trip Sample.env_lab (-7) "lab:ausstattung").
  reflexivity.
Defined.

(** ** Inventory cache: which pages a refresh takes *)

Lemma namespace_items_cons env pg pgs :
  namespace_items env (pg :: pgs) =
    match dict_get "name" pg with
    | Some nm =>
        if Py.startswith nm (wiki_path (settings env))
        then dict_set "id" nm pg :: namespace_items env pgs
        else namespace_items env pgs
    | None => namespace_items env pgs
    end.
Proof.
  unfold namespace_items. cbn [omap list_omap].
  destruct (dict_get "name" pg) as [nm|]; simpl; [| done].
  by destruct (Py.startswith nm (wiki_path (settings env))).
Qed.

Lemma changed_items_named env pgs acc w :
  Forall (fun pg => is_Some (dict_get "name" pg)) pgs →
  changed_items env pgs acc w =
    (Ok (acc ++ namespace_items env pgs)%list,
     mkWorld (cache w) (last_checked_ts w) (stdout w ++ map PrintPage pgs)
             (requests w)).
Proof.
  intros Hnamed. revert acc w.
  induction Hnamed as [|pg pgs [nm Hnm] _ IH]; intros acc w.
  - simpl. run. rewrite !app_nil_r. by destruct w.
  - cbn [changed_items]. rewrite namespace_items_cons, Hnm.
    unfold mbind at 1, M_bind at 1, bind at 1, print at 1.
    unfold mbind at 1, M_bind at 1, bind at 1, subscript at 1.
    rewrite Hnm. unfold ret at 1.
    destruct (Py.startswith nm (wiki_path (settings env))); rewrite IH; simpl;
      rewrite <- ?app_assoc; reflexivity.
Qed.

Lemma changed_items_unnamed env pre pg rest acc w :
  Forall (fun pg => is_Some (dict_get "name" pg)) pre →
  dict_get "name" pg = None →
  fst (changed_items env (pre ++ pg :: rest) acc w) = Raise KeyError.
Proof.
  intros Hnamed Hpg. revert acc w.
  induction Hnamed as [|pg0 pgs [nm Hnm] _ IH]; intros acc w.
  - rewrite app_nil_l. cbn [changed_items]. run. by rewrite Hpg.
  - rewrite <- app_comm_cons. cbn [changed_items].
    unfold mbind at 1, M_bind at 1, bind at 1, print at 1.
    unfold mbind at 1, M_bind at 1, bind at 1, subscript at 1.
    rewrite Hnm. unfold ret at 1.
    destruct (Py.startswith nm (wiki_path (settings env))); apply IH.
Qed.

(** X9: with a watermark set, a refresh asks the wiki for the changes
    since the stored watermark, whatever the value of its own argument, and
    keeps of the changed pages those whose name starts with the configured
    namespace, in the order of the answer and each with its name as
    identifier; pages elsewhere in the wiki are never fetched.  A changed
    page without a name raises [KeyError]. *)
Theorem refresh_takes_changed_pages_of_namespace env since w pgs :
  unset since = false →
  pages_changes (dw env) (last_checked_ts w) = Ok pgs →
  (Forall (fun pg => is_Some (dict_get "name" pg)) pgs →
   pages_to_refresh env since w =
     (Ok (namespace_items env pgs),
      mkWorld (cache w) (last_checked_ts w)
              ((stdout w ++ map PrintPage pgs)
                 ++ [PrintChanged (length (namespace_items env pgs))])
              (requests w ++ [ReqChanges (last_checked_ts w)])))
  ∧
  (∀ pre pg rest,
     pgs = (pre ++ pg :: rest)%list →
     Forall (fun pg => is_Some (dict_get "name" pg)) pre →
     dict_get "name" pg = None →
     fst (update_cache env since w) = Raise KeyError).
Proof.
  intros Hset Hchanges.
  assert (pages_to_refresh env since w =
            (items ← changed_items env pgs [];
             print (PrintChanged (length items));; ret items)
              (mkWorld (cache w) (last_checked_ts w) (stdout w)
                       (requests w ++ [ReqChanges (last_checked_ts w)]))) as Hstart.
  { unfold pages_to_refresh, wiki_changes. rewrite Hset. run. by rewrite Hchanges. }
  split.
  - intros Hnamed. rewrite Hstart.
    unfold mbind at 1, M_bind at 1, bind at 1.
    rewrite (changed_items_named _ _ _ _ Hnamed). reflexivity.
  - intros pre pg rest -> Hnamed Hpg.
    pose proof (changed_items_unnamed env pre pg rest []
                  (mkWorld (cache w) (last_checked_ts w) (stdout w)
                     (requests w ++ [ReqChanges (last_checked_ts w)]))
                  Hnamed Hpg) as Hkey.
    unfold update_cache. unfold mbind at 1, M_bind at 1, bind at 1.
    rewrite Hstart. unfold mbind at 1, M_bind at 1, bind at 1.
    destruct (changed_items _ _ _ _) as [[items|e] w1]; simpl in Hkey;
      [discriminate Hkey | by inversion Hkey].
Qed.

Lemma refresh_takes_changed_pages_of_namespace_witness :
  pages_to_refresh Sample.env_lab (Some 7) Sample2.warm =
    (Ok (namespace_items Sample.env_lab
           [[("name", "lab:ausstattung:042")]; [("name", "lab:ausstattung:readme")]]),
     mkWorld (cache Sample2.warm) (last_checked_ts Sample2.warm)
             ((stdout Sample2.warm
                 ++ map PrintPage [[("name", "lab:ausstattung:042")];
                                   [("name", "lab:ausstattung:readme")]])
                ++ [PrintChanged
                      (length (namespace_items Sample.env_lab
                                 [[("name", "lab:ausstattung:042")];
                                  [("name", "lab:ausstattung:readme")]]))])
             (requests Sample2.warm ++ [ReqChanges (last_checked_ts Sample2.warm)])).
Proof.
  apply (proj1 (refresh_takes_changed_pages_of_namespace Sample.env_lab (Some 7)
                  Sample2.warm _ eq_refl eq_refl)).
  repeat constructor; eauto.
Defined.

(** ** Inventory cache: what a refresh does to the cache *)

Lemma dict_mem_set {K V} `{EqDecision K} (d : dict K V) k u v :
  dict_mem k (dict_set u v d) = true ↔ k = u ∨ dict_mem k d = true.
Proof.
  unfold dict_mem. destruct (decide (k = u)) as [->|Hne].
  - rewrite dict_get_set_eq. split; [by left | done].
  - rewrite dict_get_set_ne by done. split; [by right | by intros [?|?]].
Qed.

Lemma refresh_page_no_id env pg w :
  dict_get "id" pg = None → refresh_page env pg w = (Raise KeyError, w).
Proof. intros Hid. unfold refresh_page. run. by rewrite Hid. Qed.

Lemma refresh_page_ok env pg w w1 :
  refresh_page env pg w = (Ok tt, w1) →
  match page_uid pg with
  | Some u => ∃ data, fst (get_dataentry env u w) = Ok data ∧
                      cache w1 = dict_set u data (cache w)
  | None => cache w1 = cache w
  end.
Proof.
  intros Hrun. destruct (page_uid pg) as [u|] eqn:Hu.
  - pose proof (refresh_page_cache env pg u w Hu) as Hc. by rewrite Hrun in Hc.
  - destruct (dict_get "id" pg) as [id|] eqn:Hid.
    + destruct (refresh_page_not_item env pg id w Hid Hu) as (seg & _ & _ & Heq).
      rewrite Heq in Hrun. by inversion Hrun.
    + rewrite (refresh_page_no_id _ _ _ Hid) in Hrun. discriminate Hrun.
Qed.

Lemma refresh_page_raise env pg w e w1 :
  refresh_page env pg w = (Raise e, w1) → cache w1 = cache w.
Proof.
  intros Hrun. destruct (page_uid pg) as [u|] eqn:Hu.
  - pose proof (refresh_page_cache env pg u w Hu) as Hc.
    rewrite Hrun in Hc. by destruct Hc.
  - destruct (dict_get "id" pg) as [id|] eqn:Hid.
    + destruct (refresh_page_not_item env pg id w Hid Hu) as (seg & _ & _ & Heq).
      rewrite Heq in Hrun. discriminate Hrun.
    + rewrite (refresh_page_no_id _ _ _ Hid) in Hrun. by inversion Hrun.
Qed.

Lemma refresh_page_grows env pg : keeps cache_grows (refresh_page env pg).
Proof.
  intros w k Hk. destruct (refresh_page env pg w) as [[[]|e] w1] eqn:Hrun; simpl.
  - apply refresh_page_ok in Hrun. destruct (page_uid pg) as [u|].
    + destruct Hrun as (data & _ & ->). apply dict_mem_set. by right.
    + by rewrite Hrun.
  - apply refresh_page_raise in Hrun. by rewrite Hrun.
Qed.

Lemma refresh_page_other_key env pg w k :
  page_uid pg ≠ Some k →
  dict_get k (cache (snd (refresh_page env pg w))) = dict_get k (cache w).
Proof.
  intros Hk. destruct (refresh_page env pg w) as [[[]|e] w1] eqn:Hrun; simpl.
  - apply refresh_page_ok in Hrun. destruct (page_uid pg) as [u|].
    + destruct Hrun as (data & _ & ->). apply dict_get_set_ne. congruence.
    + by rewrite Hrun.
  - apply refresh_page_raise in Hrun. by rewrite Hrun.
Qed.

Lemma for_each_other_key env pgs w k :
  (∀ pg, pg ∈ pgs → page_uid pg ≠ Some k) →
  dict_get k (cache (snd (for_each pgs (refresh_page env) w))) = dict_get k (cache w).
Proof.
  revert w. induction pgs as [|pg pgs IH]; intros w Hpgs; [done |].
  rewrite for_each_cons.
  pose proof (refresh_page_other_key env pg w k) as Hpg.
  destruct (refresh_page env pg w) as [[[]|e] w1]; simpl in *.
  - rewrite IH by (intros; apply Hpgs; by apply list_elem_of_further).
    apply Hpg, Hpgs, list_elem_of_here.
  - apply Hpg, Hpgs, list_elem_of_here.
Qed.

Lemma for_each_keys env pgs w w' :
  for_each pgs (refresh_page env) w = (Ok tt, w') →
  ∀ k, dict_mem k (cache w') = true ↔
       dict_mem k (cache w) = true ∨ ∃ pg, pg ∈ pgs ∧ page_uid pg = Some k.
Proof.
  revert w. induction pgs as [|pg pgs IH]; intros w Hrun k.
  - inversion Hrun. subst. split; [by left |].
    intros [?|(pg & Hin & _)]; [done | by apply elem_of_nil in Hin].
  - rewrite for_each_cons in Hrun.
    destruct (refresh_page env pg w) as [[[]|e] w1] eqn:Hpg; [| discriminate Hrun].
    apply refresh_page_ok in Hpg. rewrite (IH _ Hrun k). clear IH Hrun.
    assert (dict_mem k (cache w1) = true ↔
            dict_mem k (cache w) = true ∨ page_uid pg = Some k) as ->.
    { destruct (page_uid pg) as [u|].
      - destruct Hpg as (data & _ & ->). rewrite dict_mem_set.
        split; [intros [->|?]; auto | intros [?|[= ->]]; auto].
      - rewrite Hpg. split; [auto | intros [?|?]; [done | discriminate]]. }
    split.
    + intros [[?|Hu]|(pg' & Hin & Hu)]; [by left | right | right].
      * exists pg. split; [apply list_elem_of_here | done].
      * exists pg'. split; [by apply list_elem_of_further | done].
    + intros [?|(pg' & Hin & Hu)]; [by left; left |].
      apply elem_of_cons in Hin as [->|Hin]; [by left; right | right; eauto].
Qed.

Lemma pages_to_refresh_set_same_cache env since :
  unset since = false → keeps same_cache (pages_to_refresh env since).
Proof.
  intros Hset. unfold pages_to_refresh, wiki_changes. rewrite Hset. keeps_auto.
Qed.

Lemma update_cache_cache env since w :
  cache (snd (update_cache env since w)) =
    match pages_to_refresh env since w with
    | (Ok pgs, w0) => cache (snd (for_each pgs (refresh_page env) w0))
    | (Raise e, w0) => cache w0
    end.
Proof.
  destruct (pages_to_refresh env since w) as [[pgs|e] w0] eqn:Hpages.
  - rewrite (update_cache_unfold _ _ _ _ _ Hpages).
    by destruct (for_each pgs (refresh_page env) w0) as [[[]|e] w1].
  - by rewrite (update_cache_raises _ _ _ _ _ Hpages).
Qed.

(** X10: with a watermark set, a refresh never drops an entry of the
    cache, whether it ends normally or with an error, and it leaves every
    entry as it was whose uid is not the uid of one of the changed pages:
    a page deleted in the wiki stays cached.  For the second part the
    identifiers of the changed pages are taken to be ASCII text of at most
    4300 characters, where reading an integer is the same in the model and
    in every interpreter. *)
Theorem incremental_refresh_never_evicts env since w :
  unset since = false →
  (∀ k, dict_mem k (cache w) = true →
        dict_mem k (cache (snd (update_cache env since w))) = true) ∧
  (∀ pgs w0 k,
     pages_to_refresh env since w = (Ok pgs, w0) →
     ids_exact pgs →
     (∀ pg, pg ∈ pgs → page_uid pg ≠ Some k) →
     dict_get k (cache (snd (update_cache env since w))) = dict_get k (cache w)).
Proof.
  intros Hset.
  pose proof (pages_to_refresh_set_same_cache env since Hset w) as Hsame.
  unfold same_cache in Hsame. split.
  - intros k Hk. rewrite update_cache_cache.
    destruct (pages_to_refresh env since w) as [[pgs|e] w0]; simpl in Hsame.
    + apply (keeps_for_each cache_grows pgs (refresh_page env)
               (refresh_page_grows env) w0). by rewrite Hsame.
    + by rewrite Hsame.
  - intros pgs w0 k Hpages _ Hk. rewrite update_cache_cache, Hpages.
    rewrite Hpages in Hsame. simpl in Hsame.
    rewrite for_each_other_key by done. by rewrite Hsame.
Qed.

Lemma incremental_refresh_never_evicts_witness :
  (∀ k, dict_mem k (cache Sample2.warm2) = true →
        dict_mem k (cache (snd (update_cache Sample.env_lab (Some 5)
                                  Sample2.warm2))) = true) ∧
  dict_get 99 (cache (snd (update_cache Sample.env_lab (Some 5) Sample2.warm2)))
    = dict_get 99 (cache Sample2.warm2).
Proof.
  pose proof (incremental_refresh_never_evicts Sample.env_lab (Some 5)
                Sample2.warm2 eq_refl) as [Hgrows Hother].
  split; [exact Hgrows |].
  assert (∀ pg,
            pg ∈ [[("name", "lab:ausstattung:042"); ("id", "lab:ausstattung:042")];
                  [("name", "lab:ausstattung:readme");
                   ("id", "lab:ausstattung:readme")]] →
            (∀ id, dict_get "id" pg = Some id → int_exact id) ∧
            page_uid pg ≠ Some 99) as Hpages.
  { intros pg Hin.
    apply elem_of_cons in Hin as [-> | Hin];
      [| apply elem_of_cons in Hin as [-> | Hin]; [| by apply elem_of_nil in Hin]];
      (split; [intros id [= <-]; (split; [reflexivity | simpl; lia])
              | vm_compute; discriminate]). }
  apply (Hother
           [[("name", "lab:ausstattung:042"); ("id", "lab:ausstattung:042")];
            [("name", "lab:ausstattung:readme"); ("id", "lab:ausstattung:readme")]]
           (mkWorld (cache Sample2.warm2) (Some 5)
              [PrintPage [("name", "lab:ausstattung:042")];
               PrintPage [("name", "lab:ausstattung:readme")]; PrintChanged 2]
              [ReqChanges (Some 5)])
           99).
  - reflexivity.
  - intros pg id Hin. by apply Hpages.
  - intros pg Hin. by apply Hpages.
Defined.

(** X11: after a full rebuild that ends normally, the keys of the cache
    are exactly the uids read off the listed pages: every listed page whose
    last segment is an integer has an entry, and there is no other
    entry.  The listed page identifiers are taken to be ASCII text of at
    most 4300 characters, where reading an integer is the same in the model
    and in every interpreter. *)
Theorem rebuild_caches_the_listed_uids env since w pgs t w' :
  unset since = true →
  pages_list (dw env) (wiki_path (settings env)) = Ok pgs →
  ids_exact pgs →
  update_cache env since w = (Ok t, w') →
  ∀ k, dict_mem k (cache w') = true ↔ ∃ pg, pg ∈ pgs ∧ page_uid pg = Some k.
Proof.
  intros Hunset Hlist _ Hrun k.
  pose proof (pages_to_refresh_unset env since w Hunset) as Hpages.
  rewrite Hlist in Hpages. unfold lift in Hpages.
  rewrite (update_cache_unfold _ _ _ _ _ Hpages) in Hrun.
  destruct (for_each pgs (refresh_page env) _) as [[[]|e] w1] eqn:Hloop;
    [| discriminate Hrun].
  inversion Hrun. subst. simpl.
  rewrite (for_each_keys _ _ _ _ Hloop k). simpl.
  split; [intros [?|?]; [done | done] | by right].
Qed.

Lemma rebuild_caches_the_listed_uids_witness :
  dict_mem 42 [(7, []); (42, Sample.beamer)] = true ↔
  ∃ pg, pg ∈ [[("id", "lab:ausstattung:007")]; [("id", "lab:ausstattung:042")]]
        ∧ page_uid pg = Some 42.
Proof.
  apply (rebuild_caches_the_listed_uids Sample.env_missing None Sample2.stale
           [[("id", "lab:ausstattung:007")]; [("id", "lab:ausstattung:042")]]
           1620000000
           (mkWorld [(7, []); (42, Sample.beamer)] None
              [PrintMissing "lab:ausstattung:007"; PrintCacheSize 2]
              [ReqList "lab:ausstattung:"; ReqInfo "lab:ausstattung:007";
               ReqInfo "lab:ausstattung:042"; ReqGet "lab:ausstattung:042"]));
    [reflexivity | reflexivity | | reflexivity].
  intros pg id Hin Hid.
  apply elem_of_cons in Hin as [-> | Hin];
    [| apply elem_of_cons in Hin as [-> | Hin]; [| by apply elem_of_nil in Hin]];
    injection Hid as <-; (split; [reflexivity | simpl; lia]).
Defined.

(** ** Inventory cache: the watermark *)

Lemma update_cache_now_unfold env w :
  update_cache_now env w =
    match update_cache env (last_checked_ts w) w with
    | (Ok t, w1) =>
        (Ok (mkReport (Some t) (length (cache w1))),
         mkWorld (cache w1) (Some t) (stdout w1) (requests w1))
    | (Raise e, w1) => (Raise e, w1)
    end.
Proof.
  unfold update_cache_now.
  unfold mbind at 1, M_bind at 1, bind at 1, get_ts at 1. simpl.
  unfold mbind at 1, M_bind at 1, bind at 1.
  by destruct (update_cache env (last_checked_ts w) w) as [[t|e] w1].
Qed.

Lemma purge_cache_unfold env w :
  purge_cache env w =
    match update_cache env None w with
    | (Ok t, w1) =>
        (Ok (mkReport (Some t) (length (cache w1))),
         mkWorld (cache w1) (Some t) (stdout w1) (requests w1))
    | (Raise e, w1) => (Raise e, w1)
    end.
Proof.
  unfold purge_cache. unfold mbind at 1, M_bind at 1, bind at 1.
  by destruct (update_cache env None w) as [[t|e] w1].
Qed.

Lemma list_items_raises `{DateParser} env w e w1 :
  update_cache env (last_checked_ts w) w = (Raise e, w1) →
  list_items env w = (Raise e, w1).
Proof.
  intros Hup. unfold list_items.
  unfold mbind at 1, M_bind at 1, bind at 1, get_ts at 1. simpl.
  unfold mbind at 1, M_bind at 1, bind at 1. by rewrite Hup.
Qed.

Lemma map_m_same_ts {A B} (f : A → M B) xs :
  (∀ x, keeps same_ts (f x)) → keeps same_ts (map_m f xs).
Proof. apply keeps_map_m; apply _. Qed.

(** X12: a refresh that fails leaves the watermark where it was, so that
    the next refresh asks for the same changes again; a refresh that ends
    normally sets it to the current time.  This holds for the two
    debugging endpoints, whose report then shows that time and the size of
    the cache, and for [list_items], which keeps the new watermark also
    when it fails after the refresh. *)
Theorem watermark_moves_with_successful_refresh `{DateParser} env w :
  match update_cache_now env w with
  | (Ok r, w') =>
      last_checked_ts w' = Some (now env) ∧
      r = mkReport (Some (now env)) (length (cache w'))
  | (Raise e, w') => last_checked_ts w' = last_checked_ts w
  end ∧
  match purge_cache env w with
  | (Ok r, w') =>
      last_checked_ts w' = Some (now env) ∧
      r = mkReport (Some (now env)) (length (cache w'))
  | (Raise e, w') => last_checked_ts w' = last_checked_ts w
  end ∧
  match update_cache env (last_checked_ts w) w with
  | (Ok _, _) => last_checked_ts (snd (list_items env w)) = Some (now env)
  | (Raise e, _) =>
      fst (list_items env w) = Raise e ∧
      last_checked_ts (snd (list_items env w)) = last_checked_ts w
  end.
Proof.
  split; [| split].
  - rewrite update_cache_now_unfold.
    pose proof (update_cache_same_ts env (last_checked_ts w) w) as Hts.
    destruct (update_cache env (last_checked_ts w) w) as [[t|e] w1] eqn:Hup;
      [| exact Hts].
    apply update_cache_watermark in Hup as ->. done.
  - rewrite purge_cache_unfold.
    pose proof (update_cache_same_ts env None w) as Hts.
    destruct (update_cache env None w) as [[t|e] w1] eqn:Hup; [| exact Hts].
    apply update_cache_watermark in Hup as ->. done.
  - pose proof (update_cache_same_ts env (last_checked_ts w) w) as Hts.
    destruct (update_cache env (last_checked_ts w) w) as [[t|e] w1] eqn:Hup.
    + rewrite (list_items_unfold _ _ _ _ Hup).
      apply update_cache_watermark in Hup as ->.
      destruct (cache w1) as [|kv c]; [done |].
      apply (map_m_same_ts
               (fun i => d ← subscript (kv :: c) i; _dw_to_item d)
               (dict_keys (kv :: c))).
      intros i. keeps_auto.
    + by rewrite (list_items_raises _ _ _ _ Hup).
Qed.

(** X13: when the wiki does not answer the listing of a full rebuild, the
    rebuild fails with the cache already emptied; when it does not answer
    the change query of a refresh with a watermark, the refresh fails with
    the cache as it was. *)
Theorem failed_listing_empties_the_cache env since w e :
  (unset since = true →
   pages_list (dw env) (wiki_path (settings env)) = Raise e →
   update_cache env since w =
     (Raise e,
      mkWorld [] (last_checked_ts w) (stdout w)
              (requests w ++ [ReqList (wiki_path (settings env))])))
  ∧
  (unset since = false →
   pages_changes (dw env) (last_checked_ts w) = Raise e →
   update_cache env since w =
     (Raise e,
      mkWorld (cache w) (last_checked_ts w) (stdout w)
              (requests w ++ [ReqChanges (last_checked_ts w)]))).
Proof.
  split; intros Hmode Hfail; apply update_cache_raises.
  - rewrite (pages_to_refresh_unset _ _ _ Hmode), Hfail. reflexivity.
  - unfold pages_to_refresh, wiki_changes. rewrite Hmode. run. by rewrite Hfail.
Qed.

Lemma failed_listing_empties_the_cache_witness :
  update_cache Sample2.env_down None Sample2.warm =
    (Raise DokuWikiError,
     mkWorld [] (Some 5) [] [ReqList "lab:ausstattung:"])
  ∧
  update_cache Sample2.env_down (Some 5) Sample2.warm =
    (Raise DokuWikiError,
     mkWorld [(42, Sample.beamer)] (Some 5) [] [ReqChanges (Some 5)]).
Proof.
  split.
  - apply (proj1 (failed_listing_empties_the_cache Sample2.env_down None
                    Sample2.warm DokuWikiError)); reflexivity.
  - apply (proj2 (failed_listing_empties_the_cache Sample2.env_down (Some 5)
                    Sample2.warm DokuWikiError)); reflexivity.
Defined.

(** ** Inventory cache: a rebuild starts from nothing *)

Lemma cache_only_ret {A} (a : A) : cache_only (ret a).
Proof. by intros w1 w2 Hc. Qed.
Lemma cache_only_raise {A} e : cache_only (raise e : M A).
Proof. by intros w1 w2 Hc. Qed.
Lemma cache_only_lift {A} (r : result A) : cache_only (lift r).
Proof. by intros w1 w2 Hc. Qed.
Lemma cache_only_print e : cache_only (print e).
Proof. by intros w1 w2 Hc. Qed.
Lemma cache_only_send r : cache_only (send r).
Proof. by intros w1 w2 Hc. Qed.
Lemma cache_only_get_cache : cache_only get_cache.
Proof. intros w1 w2 Hc. simpl. by rewrite Hc. Qed.
Lemma cache_only_set_cache c : cache_only (set_cache c).
Proof. by intros w1 w2 Hc. Qed.

Lemma cache_only_bind {A B} (m : M A) (k : A → M B) :
  cache_only m → (∀ a, cache_only (k a)) → cache_only (x ← m; k x).
Proof.
  intros Hm Hk w1 w2 Hc. unfold mbind, M_bind, bind.
  destruct (Hm w1 w2 Hc) as [Hres Hcache].
  destruct (m w1) as [[a|e] w1'], (m w2) as [[a2|e2] w2']; simpl in *;
    try discriminate Hres.
  - inversion Hres. subst a2. by apply Hk.
  - by inversion Hres.
Qed.

Lemma cache_only_subscript {K V} `{EqDecision K} (d : dict K V) k :
  cache_only (subscript d k).
Proof.
  unfold subscript.
  destruct (dict_get k d); [apply cache_only_ret | apply cache_only_raise].
Qed.

Lemma cache_only_for_each {A} (xs : list A) (body : A → M unit) :
  (∀ x, cache_only (body x)) → cache_only (for_each xs body).
Proof.
  intros Hbody. induction xs as [|x xs IH]; simpl.
  - apply cache_only_ret.
  - apply cache_only_bind; [apply Hbody | intros _; apply IH].
Qed.

Create HintDb cache_only discriminated.
#[global] Hint Resolve cache_only_ret cache_only_raise cache_only_lift
  cache_only_print cache_only_send cache_only_get_cache cache_only_set_cache
  cache_only_subscript : cache_only.

Ltac cache_only_step :=
  match goal with
  | |- cache_only (mbind _ _) => apply cache_only_bind; [| intros ?]
  | |- cache_only (for_each _ _) => apply cache_only_for_each; intros ?
  | |- cache_only (mret _) => apply cache_only_ret
  | |- cache_only (if ?b then _ else _) => destruct b
  | |- cache_only (match ?x with _ => _ end) => destruct x
  | |- cache_only _ => solve [eauto with cache_only]
  end.

Lemma refresh_page_cache_only env pg : cache_only (refresh_page env pg).
Proof.
  unfold refresh_page, id_suffix, get_dataentry, wiki_info, wiki_get.
  repeat cache_only_step.
Qed.

Lemma rebuild_any_world env since w1 w2 :
  unset since = true →
  fst (update_cache env since w1) = fst (update_cache env since w2) ∧
  cache (snd (update_cache env since w1)) = cache (snd (update_cache env since w2)).
Proof.
  intros Hunset.
  assert (∀ w, update_cache env since w =
               (pgs ← lift (pages_list (dw env) (wiki_path (settings env)));
                for_each pgs (refresh_page env);;
                c ← get_cache;
                print (PrintCacheSize (length c));;
                ret (now env))
                 (mkWorld [] (last_checked_ts w) (stdout w)
                    (requests w ++ [ReqList (wiki_path (settings env))]))) as Hshape.
  { intros w. unfold update_cache. apply bind_same_start.
    by apply pages_to_refresh_unset. }
  rewrite !Hshape.
  match goal with |- fst (?m _) = _ ∧ _ => assert (cache_only m) as Honly end.
  { repeat cache_only_step. apply refresh_page_cache_only. }
  by apply Honly.
Qed.

Lemma changed_items_same_wiki env env2 changed_pages :
  same_wiki env env2 →
  ∀ acc w, changed_items env2 changed_pages acc w
           = changed_items env changed_pages acc w.
Proof.
  intros [_ Hset].
  induction changed_pages as [|pg rest IH]; intros acc w; [reflexivity |].
  simpl. unfold mbind, M_bind, bind, print, subscript. simpl.
  rewrite Hset.
  destruct (dict_get "name" pg) as [nm|]; simpl; [| reflexivity].
  destruct (Py.startswith nm (wiki_path (settings env))); apply IH.
Qed.

Lemma pages_to_refresh_same_wiki env env2 since w :
  same_wiki env env2 →
  pages_to_refresh env2 since w = pages_to_refresh env since w.
Proof.
  intros Hwiki. pose proof Hwiki as [Hdw Hset].
  unfold pages_to_refresh, wiki_list, wiki_changes. rewrite Hdw, Hset.
  destruct (unset since); [reflexivity |].
  unfold mbind, M_bind, bind, get_ts, send, lift. simpl.
  destruct (pages_changes (dw env) (last_checked_ts w)) as [cps|e];
    [| reflexivity].
  by rewrite (changed_items_same_wiki env env2 cps Hwiki).
Qed.

Lemma update_cache_other_clock env env2 since w :
  same_wiki env env2 →
  update_cache env2 since w =
    match update_cache env since w with
    | (Ok _, w') => (Ok (now env2), w')
    | (Raise e, w') => (Raise e, w')
    end.
Proof.
  intros Hwiki. unfold update_cache. unfold mbind, M_bind, bind.
  rewrite (pages_to_refresh_same_wiki env env2 since w Hwiki).
  destruct (pages_to_refresh env since w) as [[pgs|e] w0]; [| reflexivity].
  assert (for_each pgs (refresh_page env2) w0
          = for_each pgs (refresh_page env) w0) as ->.
  { destruct Hwiki as [Hdw Hset].
    destruct env as [s d l1 n1], env2 as [s2 d2 l2 n2]. simpl in Hdw, Hset.
    by subst s2 d2. }
  by destruct (for_each pgs (refresh_page env) w0) as [[[]|e] w3].
Qed.

(** X14: a full rebuild owes nothing to the world it starts in: on the
    same wiki it gives the same result and the same cache from any two
    worlds.  Run at another time, that is in an environment with the same
    wiki and settings and a clock of its own, it ends the same way, with
    the same cache, and returns the time of that clock.  Hence a second
    [purge_cache] after a successful one, at whatever time, succeeds and
    leaves the cache as it is; its report gives the same cache size, and as
    time of the last check the time of the second call, where the first
    report gives the time of the first. *)
Theorem rebuild_is_idempotent env env2 since w1 w2 :
  unset since = true →
  same_wiki env env2 →
  (fst (update_cache env since w1) = fst (update_cache env since w2) ∧
   cache (snd (update_cache env since w1))
     = cache (snd (update_cache env since w2))) ∧
  (fst (update_cache env2 since w2)
     = match fst (update_cache env since w1) with
       | Ok _ => Ok (now env2)
       | Raise e => Raise e
       end ∧
   cache (snd (update_cache env2 since w2))
     = cache (snd (update_cache env since w1))) ∧
  (∀ r w', purge_cache env w1 = (Ok r, w') →
           report_last_checked r = Some (now env) ∧
           fst (purge_cache env2 w')
             = Ok (mkReport (Some (now env2)) (report_cache_size r)) ∧
           cache (snd (purge_cache env2 w')) = cache w' ∧
           last_checked_ts (snd (purge_cache env2 w')) = Some (now env2)).
Proof.
  intros Hunset Hwiki. split; [by apply rebuild_any_world |]. split.
  - rewrite (update_cache_other_clock env env2 since w2 Hwiki).
    destruct (rebuild_any_world env since w2 w1 Hunset) as [Hres Hcache].
    destruct (update_cache env since w2) as [[t2|e2] w2'],
             (update_cache env since w1) as [[t1|e1] w1'];
      simpl in *; try discriminate Hres; [done |].
    by inversion Hres.
  - intros r w' Hpurge. rewrite purge_cache_unfold in Hpurge.
    destruct (update_cache env None w1) as [[t|e] w1'] eqn:Hup;
      [| discriminate Hpurge].
    assert (t = now env) as ->.
    { revert Hup. unfold update_cache, mbind, M_bind, bind.
      destruct (pages_to_refresh env None w1) as [[pgs|e] w0];
        [| discriminate].
      destruct (for_each pgs (refresh_page env) w0) as [[[]|e] w3];
        [| discriminate].
      simpl. by intros [= <- _]. }
    inversion Hpurge. subst r w'. clear Hpurge.
    rewrite purge_cache_unfold.
    set (w3 := mkWorld (cache w1') (Some (now env)) (stdout w1') (requests w1')).
    rewrite (update_cache_other_clock env env2 None w3 Hwiki).
    destruct (rebuild_any_world env None w1 w3 eq_refl) as [Hres Hcache].
    rewrite Hup in Hres, Hcache. simpl in Hres, Hcache. clear Hup.
    destruct (update_cache env None w3) as [[t2|e2] w2'];
      simpl in *; [| discriminate Hres].
    by rewrite <- Hcache.
Qed.

Lemma rebuild_is_idempotent_witness :
  same_wiki Sample.env_lab Sample2.env_lab_later ∧
  now Sample2.env_lab_later = now Sample.env_lab + 1 ∧
  fst (purge_cache Sample.env_lab World_init)
    = Ok (mkReport (Some (now Sample.env_lab)) 1) ∧
  fst (purge_cache Sample2.env_lab_later
         (snd (purge_cache Sample.env_lab World_init)))
    = Ok (mkReport (Some (now Sample.env_lab + 1)) 1) ∧
  cache (snd (purge_cache Sample2.env_lab_later
                (snd (purge_cache Sample.env_lab World_init))))
    = [(42, Sample.beamer)].
Proof.
  pose proof (rebuild_is_idempotent Sample.env_lab Sample2.env_lab_later None
                World_init Sample2.warm eq_refl (conj eq_refl eq_refl))
    as (_ & _ & Hagain).
  destruct (Hagain (mkReport (Some (now Sample.env_lab)) 1)
              (snd (purge_cache Sample.env_lab World_init)) eq_refl)
    as (_ & Hreport & Hcache & _).
  split; [split; reflexivity |].
  split; [reflexivity |].
  split; [reflexivity |].
  split; [exact Hreport | exact Hcache].
Defined.

(** ** Item service: single items *)

Lemma read_item_hit `{DateParser} env item_id w d :
  dict_get item_id (cache w) = Some d →
  read_item env item_id false w =
    match _dw_to_item d w with
    | (Ok item, w1) =>
        (Ok item,
         mkWorld (cache w1) (last_checked_ts w1)
                 (stdout w1 ++ [PrintItemGenerated]) (requests w1))
    | (Raise e, w1) => (Raise e, w1)
    end.
Proof.
  intros Hd. unfold read_item.
  unfold mbind at 1, M_bind at 1, bind at 1, get_cache at 1. simpl.
  unfold dict_mem. rewrite Hd. simpl.
  unfold mbind at 1, M_bind at 1, bind at 1.
  unfold mbind at 1, M_bind at 1, bind at 1, subscript at 1. rewrite Hd.
  unfold ret at 1.
  by destruct (_dw_to_item d w) as [[item|e] w1].
Qed.

(** X15: a read of a cached uid without [purge_cache] is answered from
    the cache alone: it sends nothing to the wiki, gives the mapping of the
    cached record, changes neither cache nor watermark, and is the same
    whatever the wiki holds. *)
Theorem read_item_hit_needs_no_wiki `{DateParser} env env' item_id w d :
  dict_get item_id (cache w) = Some d →
  read_item env item_id false w = read_item env' item_id false w ∧
  fst (read_item env item_id false w) = fst (_dw_to_item d w) ∧
  requests (snd (read_item env item_id false w)) = requests w ∧
  cache (snd (read_item env item_id false w)) = cache w ∧
  last_checked_ts (snd (read_item env item_id false w)) = last_checked_ts w.
Proof.
  intros Hd. rewrite !(read_item_hit _ _ _ _ Hd).
  split; [done |].
  pose proof (dw_to_item_frame d w) as (Hc & Hts & Hreq).
  by destruct (_dw_to_item d w) as [[item|e] w1].
Qed.

Lemma read_item_hit_needs_no_wiki_witness :
  @read_item Sample.dates Sample.env_lab 42 false Sample2.warm
    = @read_item Sample.dates Sample2.env_down 42 false Sample2.warm ∧
  fst (@read_item Sample.dates Sample.env_lab 42 false Sample2.warm)
    = fst (@_dw_to_item Sample.dates Sample.beamer Sample2.warm) ∧
  requests (snd (@read_item Sample.dates Sample.env_lab 42 false Sample2.warm))
    = requests Sample2.warm ∧
  cache (snd (@read_item Sample.dates Sample.env_lab 42 false Sample2.warm))
    = cache Sample2.warm ∧
  last_checked_ts (snd (@read_item Sample.dates Sample.env_lab 42 false Sample2.warm))
    = last_checked_ts Sample2.warm.
Proof.
  apply (@read_item_hit_needs_no_wiki Sample.dates Sample.env_lab
           Sample2.env_down 42 Sample2.warm Sample.beamer).
  reflexivity.
Defined.

Lemma read_item_fetch `{DateParser} env item_id purge w :
  purge = true ∨ dict_mem item_id (cache w) = false →
  read_item env item_id purge w =
    match get_dataentry env item_id w with
    | (Ok data, w1) =>
        match _dw_to_item data
                (mkWorld (dict_set item_id data (cache w1)) (last_checked_ts w1)
                         (stdout w1) (requests w1)) with
        | (Ok item, w2) =>
            (Ok item,
             mkWorld (cache w2) (last_checked_ts w2)
                     (stdout w2 ++ [PrintItemGenerated]) (requests w2))
        | (Raise e, w2) => (Raise e, w2)
        end
    | (Raise e, w1) => (Raise e, w1)
    end.
Proof.
  intros Hfetch. unfold read_item.
  assert (purge || negb (dict_mem item_id (cache w)) = true) as Hcond.
  { destruct Hfetch as [-> | ->]; [done | by destruct purge]. }
  unfold mbind at 1, M_bind at 1, bind at 1, get_cache at 1. simpl.
  rewrite Hcond.
  unfold mbind at 1, M_bind at 1, bind at 1.
  unfold mbind at 1, M_bind at 1, bind at 1.
  destruct (get_dataentry env item_id w) as [[data|e] w1]; [| done].
  run. by destruct (_dw_to_item data _) as [[item|e] w2].
Qed.

(** X16: a read that goes to the wiki (forced, or because the uid is not
    cached) stores the record it fetched under the uid before it maps it:
    the record is cached also when the mapping then fails with
    [ValidationError], and the other entries stay as they were.  When the
    fetch itself fails, the error is returned and the cache is
    unchanged. *)
Theorem read_item_caches_before_mapping `{DateParser} env item_id purge w :
  purge = true ∨ dict_mem item_id (cache w) = false →
  match fst (get_dataentry env item_id w) with
  | Ok data =>
      cache (snd (read_item env item_id purge w)) = dict_set item_id data (cache w) ∧
      fst (read_item env item_id purge w) = fst (_dw_to_item data w)
  | Raise e =>
      fst (read_item env item_id purge w) = Raise e ∧
      cache (snd (read_item env item_id purge w)) = cache w
  end.
Proof.
  intros Hfetch. rewrite (read_item_fetch _ _ _ _ Hfetch).
  pose proof (get_dataentry_frame env item_id w) as [Hc _].
  destruct (get_dataentry env item_id w) as [[data|e] w1]; simpl in *; [| done].
  set (w1' := mkWorld _ _ _ _).
  pose proof (dw_to_item_frame data w1') as (Hc' & _ & _).
  pose proof (dw_to_item_result data w1') as Hres.
  rewrite <- (dw_to_item_result data w) in Hres.
  destruct (_dw_to_item data w1') as [[item|e] w2]; simpl in *;
    rewrite Hc', Hc; done.
Qed.

Lemma read_item_caches_before_mapping_witness :
  cache (snd (@read_item Sample.dates Sample2.env_mislabelled 43 false World_init))
    = dict_set 43 Sample2.mislabelled (cache World_init) ∧
  fst (@read_item Sample.dates Sample2.env_mislabelled 43 false World_init)
    = fst (@_dw_to_item Sample.dates Sample2.mislabelled World_init).
Proof.
  apply (@read_item_caches_before_mapping Sample.dates Sample2.env_mislabelled
           43 false World_init).
  right. reflexivity.
Defined.

(** ** Item service: the list *)

Lemma map_m_ok {A B} (f : A → M B) xs w ys w' :
  map_m f xs w = (Ok ys, w') →
  Forall2 (fun x y => ∃ w0, fst (f x w0) = Ok y) xs ys.
Proof.
  revert w ys. induction xs as [|x xs IH]; intros w ys Hrun.
  - run. inversion Hrun. constructor.
  - cbn [map_m] in Hrun. unfold mbind at 1, M_bind at 1, bind at 1 in Hrun.
    destruct (f x w) as [[y|e] w1] eqn:Hx; [| discriminate Hrun].
    unfold mbind at 1, M_bind at 1, bind at 1 in Hrun.
    destruct (map_m f xs w1) as [[ys'|e] w2] eqn:Hxs; [| discriminate Hrun].
    run. inversion Hrun. subst. constructor; [| by eapply IH].
    exists w. by rewrite Hx.
Qed.

Lemma map_m_raise {A B} (f : A → M B) xs w e w' :
  map_m f xs w = (Raise e, w') →
  ∃ x w0, x ∈ xs ∧ fst (f x w0) = Raise e.
Proof.
  revert w. induction xs as [|x xs IH]; intros w Hrun.
  - run. discriminate Hrun.
  - cbn [map_m] in Hrun. unfold mbind at 1, M_bind at 1, bind at 1 in Hrun.
    destruct (f x w) as [[y|e'] w1] eqn:Hx.
    + unfold mbind at 1, M_bind at 1, bind at 1 in Hrun.
      destruct (map_m f xs w1) as [[ys'|e'] w2] eqn:Hxs.
      * run. discriminate Hrun.
      * inversion Hrun. subst.
        destruct (IH _ Hxs) as (x' & w0 & Hin & Hraise).
        exists x', w0. split; [by apply list_elem_of_further | done].
    + inversion Hrun. subst. exists x, w.
      split; [apply list_elem_of_here | by rewrite Hx].
Qed.

Lemma dict_keys_get {K V} `{EqDecision K} (d : dict K V) k :
  k ∈ dict_keys d → is_Some (dict_get k d).
Proof.
  induction d as [|[k' v'] d IH]; simpl; [by intros ?%elem_of_nil |].
  intros Hin. case_decide; [eauto |].
  apply elem_of_cons in Hin as [?|Hin]; [done | by apply IH].
Qed.

Lemma lookup_then_map `{DateParser} (c : dict Z raw) i d w0 :
  dict_get i c = Some d →
  fst ((d ← subscript c i; _dw_to_item d) w0) = fst (_dw_to_item d w0).
Proof. intros Hd. unfold mbind, M_bind, bind, subscript. by rewrite Hd. Qed.

Lemma list_items_ok `{DateParser} env w items w' :
  list_items env w = (Ok items, w') →
  ∃ t w1,
    update_cache env (last_checked_ts w) w = (Ok t, w1) ∧ cache w' = cache w1 ∧
    map_m (fun i => d ← subscript (cache w1) i; _dw_to_item d)
          (dict_keys (cache w1))
          (mkWorld (cache w1) (Some t) (stdout w1) (requests w1)) = (Ok items, w').
Proof.
  intros Hlist.
  destruct (update_cache env (last_checked_ts w) w) as [[t|e] w1] eqn:Hup.
  - exists t, w1. split; [done |].
    rewrite (list_items_unfold _ _ _ _ Hup) in Hlist.
    destruct (cache w1) as [|kv c] eqn:Hc; [discriminate Hlist |].
    split; [| done].
    pose proof (map_m_cache
                  (fun i => d ← subscript (kv :: c) i; _dw_to_item d)
                  (dict_keys (kv :: c))
                  (mkWorld (kv :: c) (Some t) (stdout w1) (requests w1))) as Hm.
    rewrite Hlist in Hm. simpl in Hm. apply Hm.
    intros i w0. unfold mbind, M_bind, bind, subscript, ret, raise.
    destruct (dict_get i (kv :: c)); [| done]. apply dw_to_item_frame.
  - rewrite (list_items_raises _ _ _ _ Hup) in Hlist. discriminate Hlist.
Qed.

(** X17: the list that [list_items] returns has one item for each entry
    of the refreshed cache, in the order of the cache: the i-th item is the
    mapping of the record of the i-th key. *)
Theorem list_items_follows_the_cache `{DateParser} env w items w' :
  list_items env w = (Ok items, w') →
  length items = length (cache w') ∧
  Forall2 (fun k item =>
             ∃ d, dict_get k (cache w') = Some d ∧
                  ∀ w0, fst (_dw_to_item d w0) = Ok item)
          (dict_keys (cache w')) items.
Proof.
  intros Hlist. apply list_items_ok in Hlist as (t & w1 & _ & Hc & Hmap).
  rewrite Hc. apply map_m_ok in Hmap.
  assert (Forall2 (fun k item =>
                     ∃ d, dict_get k (cache w1) = Some d ∧
                          ∀ w0, fst (_dw_to_item d w0) = Ok item)
                  (dict_keys (cache w1)) items) as Hall.
  { apply Forall2_same_length_lookup. apply Forall2_same_length_lookup in Hmap
      as [Hlen Hmap].
    split; [done |]. intros i k item Hk Hitem.
    destruct (Hmap i k item Hk Hitem) as [w0 Hw0].
    destruct (dict_keys_get (cache w1) k) as [d Hd].
    { by eapply list_elem_of_lookup_2. }
    exists d. split; [done |]. intros w2.
    rewrite (lookup_then_map _ _ _ _ Hd) in Hw0.
    rewrite dw_to_item_result in *. done. }
  split; [| done].
  apply Forall2_length in Hall. unfold dict_keys in Hall.
  by rewrite length_map in Hall.
Qed.

Lemma list_items_follows_the_cache_witness :
  let items :=
    match fst (@list_items Sample.dates Sample.env_missing World_init) with
    | Ok items => items
    | Raise _ => []
    end in
  let w' := snd (@list_items Sample.dates Sample.env_missing World_init) in
  length items = length (cache w') ∧
  Forall2 (fun k item =>
             ∃ d, dict_get k (cache w') = Some d ∧
                  ∀ w0, fst (@_dw_to_item Sample.dates d w0) = Ok item)
          (dict_keys (cache w')) items.
Proof.
  apply (@list_items_follows_the_cache Sample.dates Sample.env_missing World_init).
  vm_compute. reflexivity.
Defined.

Lemma dw_to_item_bad_id `{DateParser} d s w0 :
  dict_get "ID" d = Some (PStr s) → s ≠ "" → Py.int s = None →
  fst (_dw_to_item d w0) = Raise ValidationError.
Proof.
  intros Hid Hs Hint. rewrite dw_to_item_result. unfold Item_init.
  rewrite (item_fields_of_other d "uid") by done.
  rewrite (collect_fields_get d "ID" "uid") by reflexivity.
  rewrite Hid. simpl. unfold blank_to_none.
  rewrite decide_False by congruence. simpl. by rewrite Hint.
Qed.

(** X18: one cached record whose [ID] is not an integer numeral makes
    [list_items] fail as a whole with [ValidationError]: no item of the
    other records is returned.  The [ID] is taken to be ASCII text of at
    most 4300 characters, where reading an integer is the same in the model
    and in every interpreter. *)
Theorem list_items_fails_on_one_bad_record `{DateParser} env w t w1 k d s :
  update_cache env (last_checked_ts w) w = (Ok t, w1) →
  dict_get k (cache w1) = Some d →
  dict_get "ID" d = Some (PStr s) → int_exact s → s ≠ "" → Py.int s = None →
  fst (list_items env w) = Raise ValidationError.
Proof.
  intros Hup Hk Hid _ Hs Hint. rewrite (list_items_unfold _ _ _ _ Hup).
  destruct (cache w1) as [|kv c] eqn:Hc; [discriminate Hk |].
  rewrite <- Hc in *. clear Hc kv c.
  set (w2 := mkWorld _ _ _ _).
  destruct (map_m _ (dict_keys (cache w1)) w2) as [[items|e] w3] eqn:Hmap; simpl.
  - exfalso. apply map_m_ok in Hmap.
    pose proof (dict_get_in_keys _ _ _ Hk) as Hin.
    apply list_elem_of_lookup in Hin as [i Hi].
    destruct (Forall2_lookup_l _ _ _ _ _ Hmap Hi) as (item & _ & w0 & Hw0).
    rewrite (lookup_then_map _ _ _ _ Hk) in Hw0.
    rewrite (dw_to_item_bad_id d s w0 Hid Hs Hint) in Hw0. discriminate Hw0.
  - f_equal. apply map_m_raise in Hmap as (k' & w0 & Hin & Hraise).
    destruct (dict_keys_get _ _ Hin) as [d' Hd'].
    rewrite (lookup_then_map _ _ _ _ Hd') in Hraise.
    rewrite dw_to_item_result in Hraise. by apply Item_init_raises in Hraise.
Qed.

Lemma list_items_fails_on_one_bad_record_witness :
  fst (@list_items Sample.dates Sample2.env_mislabelled World_init)
    = Raise ValidationError.
Proof.
  apply (@list_items_fails_on_one_bad_record Sample.dates
           Sample2.env_mislabelled World_init 1620000000
           (mkWorld [(42, Sample.beamer); (43, Sample2.mislabelled)] None
              [PrintCacheSize 2]
              [ReqList "lab:ausstattung:"; ReqInfo "lab:ausstattung:042";
               ReqGet "lab:ausstattung:042"; ReqInfo "lab:ausstattung:043";
               ReqGet "lab:ausstattung:043"])
           43 Sample2.mislabelled "IV"); try reflexivity.
  - split; [reflexivity | simpl; lia].
  - discriminate.
Defined.

(** ** Authorization lookup: failures and the full answer *)

Lemma read_user_data_keeps env uid :
  keeps same_cache (read_user_data env uid) ∧
  keeps same_ts (read_user_data env uid) ∧
  keeps same_requests (read_user_data env uid).
Proof.
  unfold read_user_data, first_decoded, decode.
  repeat split; keeps_auto.
Qed.

Lemma read_user_data_none env uid w w' :
  read_user_data env uid w = (Ok None, w') →
  search_ext_s (l env) (ldap_base_dn (settings env))
               (ldap_scope (settings env)) (user_query uid) 5 = LdapTimeout.
Proof.
  unfold read_user_data.
  destruct (search_ext_s _ _ _ _ _) as [results| |]; [| done | discriminate].
  destruct results as [|[dn attrs] [|]]; try discriminate.
  intros Hrun. exfalso.
  unfold mbind at 1, M_bind at 1, bind at 1, print at 1 in Hrun.
  unfold mbind at 1, M_bind at 1, bind at 1 in Hrun.
  destruct (subscript attrs "groupMembership" _) as [[members|e] w1];
    [| discriminate Hrun].
  unfold mbind at 1, M_bind at 1, bind at 1 in Hrun.
  destruct (map_m _ members w1) as [[groups|e] w2]; [| discriminate Hrun].
  unfold mbind at 1, M_bind at 1, bind at 1 in Hrun.
  destruct (first_decoded attrs "fullName" w2) as [[nm|e] w3];
    [| discriminate Hrun].
  unfold mbind at 1, M_bind at 1, bind at 1 in Hrun.
  destruct (first_decoded attrs "mail" w3) as [[mail|e] w4];
    discriminate Hrun.
Qed.

(** X19: [read_user_data] answers a directory timeout with "no user" and
    nothing else does: it returns [None] exactly when the search timed out.
    Any other failure of the directory is raised, and an answer with no
    entry or with more than one raises [AssertionError].  Whatever the
    outcome, the cache, the watermark and the requests to the wiki stay as
    they were. *)
Theorem read_user_data_failures env uid w :
  (fst (read_user_data env uid w) = Ok None ↔
   search_ext_s (l env) (ldap_base_dn (settings env))
                (ldap_scope (settings env)) (user_query uid) 5 = LdapTimeout) ∧
  (search_ext_s (l env) (ldap_base_dn (settings env))
                (ldap_scope (settings env)) (user_query uid) 5 = LdapFailure →
   read_user_data env uid w = (Raise LdapError, w)) ∧
  (∀ results,
     search_ext_s (l env) (ldap_base_dn (settings env))
                  (ldap_scope (settings env)) (user_query uid) 5
       = LdapEntries results →
     length results ≠ 1%nat →
     read_user_data env uid w = (Raise AssertionError, w)) ∧
  cache (snd (read_user_data env uid w)) = cache w ∧
  last_checked_ts (snd (read_user_data env uid w)) = last_checked_ts w ∧
  requests (snd (read_user_data env uid w)) = requests w.
Proof.
  split; [| split; [| split]].
  - split.
    + destruct (read_user_data env uid w) as [r w'] eqn:Hrun. simpl.
      intros ->. by eapply read_user_data_none.
    + intros Htimeout. unfold read_user_data. by rewrite Htimeout.
  - intros Hfail. unfold read_user_data. by rewrite Hfail.
  - intros results Hsearch Hlen. unfold read_user_data. rewrite Hsearch.
    by destruct results as [|[dn attrs] [|]].
  - destruct (read_user_data_keeps env uid) as (Hc & Hts & Hreq).
    split; [apply Hc | split; [apply Hts | apply Hreq]].
Qed.

Lemma read_user_data_failures_witness :
  read_user_data Sample.env_lab "nobody" Sample2.warm
    = (Raise AssertionError, Sample2.warm).
Proof.
  apply (proj1 (proj2 (proj2 (read_user_data_failures Sample.env_lab "nobody"
                                Sample2.warm))) []);
    [reflexivity | discriminate].
Defined.

Lemma decode_valid b w :
  is_Some (Py.decode_utf8 b) → decode b w = (Ok b, w).
Proof.
  unfold decode, Py.decode_utf8.
  destruct (Py.utf8_ok _); [done | by intros [? ?]].
Qed.

Lemma normalize_groups_valid members w :
  Forall (fun g => is_Some (Py.decode_utf8 g)) members →
  map_m (fun g => s ← decode g; ret (normalize_group s)) members w
    = (Ok (map normalize_group members), w).
Proof.
  induction 1 as [|g members Hg _ IH]; [done |].
  cbn [map_m]. unfold mbind at 1, M_bind at 1, bind at 1.
  unfold mbind at 1, M_bind at 1, bind at 1.
  rewrite (decode_valid _ _ Hg). unfold ret at 1.
  unfold mbind at 1, M_bind at 1, bind at 1. by rewrite IH.
Qed.

(** X20: when the directory returns exactly one entry that has group
    memberships, a full name and a mail address, all of them well-formed
    UTF-8, [read_user_data] returns the user: the id asked for, the first
    full name and the first mail address, the normalized groups in the
    order of the entry, and the allowed operations; it prints the entry and
    does nothing else. *)
Theorem read_user_data_answer env uid w dn attrs members nm nms mail mails :
  search_ext_s (l env) (ldap_base_dn (settings env))
               (ldap_scope (settings env)) (user_query uid) 5
    = LdapEntries [(dn, attrs)] →
  dict_get "groupMembership" attrs = Some members →
  dict_get "fullName" attrs = Some (nm :: nms) →
  dict_get "mail" attrs = Some (mail :: mails) →
  Forall (fun g => is_Some (Py.decode_utf8 g)) (nm :: mail :: members) →
  read_user_data env uid w =
    (Ok (Some (mkUserData uid nm mail (map normalize_group members)
                 (["read_item"; "list_items"] ++
                  (if groups_intersect (groups_with_edit_rights (settings env))
                        (map normalize_group members)
                   then ["update_item"] else []))%list)),
     mkWorld (cache w) (last_checked_ts w) (stdout w ++ [PrintLdapResult attrs])
             (requests w)).
Proof.
  intros Hsearch Hmembers Hname Hmail Hvalid.
  apply Forall_cons in Hvalid as [Hnm Hvalid].
  apply Forall_cons in Hvalid as [Hml Hvalid].
  unfold read_user_data. rewrite Hsearch.
  unfold mbind at 1, M_bind at 1, bind at 1, print at 1.
  unfold mbind at 1, M_bind at 1, bind at 1, subscript at 1. rewrite Hmembers.
  unfold ret at 1.
  unfold mbind at 1, M_bind at 1, bind at 1.
  rewrite (normalize_groups_valid _ _ Hvalid).
  unfold first_decoded, subscript. rewrite Hname, Hmail. run.
  rewrite (decode_valid _ _ Hnm), (decode_valid _ _ Hml). reflexivity.
Qed.

Lemma read_user_data_answer_witness :
  read_user_data Sample.env_lab "stu00001" World_init =
    (Ok (Some (mkUserData "stu00001" "S T" "s.t@ur.de"
                 (map normalize_group [Sample.student_dn])
                 (["read_item"; "list_items"] ++
                  (if groups_intersect
                        (groups_with_edit_rights (settings Sample.env_lab))
                        (map normalize_group [Sample.student_dn])
                   then ["update_item"] else []))%list)),
     mkWorld (cache World_init) (last_checked_ts World_init)
             (stdout World_init
                ++ [PrintLdapResult
                      [("groupMembership", [Sample.student_dn]);
                       ("fullName", ["S T"]); ("mail", ["s.t@ur.de"])]])
             (requests World_init)).
Proof.
  apply (read_user_data_answer Sample.env_lab "stu00001" World_init
           "cn=stu00001,o=uni-regensburg,c=de" _ [Sample.student_dn]
           "S T" [] "s.t@ur.de" []); try reflexivity.
  repeat constructor; vm_compute; eauto.
Defined.

(** ** The placeholder endpoints *)

(** X22: the search endpoint always answers with one entry, numbered 123,
    whose name is the query, or [TEST] when the query is missing or empty;
    the name is never empty and the world is untouched. *)
Theorem search_never_returns_an_empty_name q w :
  ∃ nm,
    search_read_item q w = (Ok [(123, nm)], w) ∧
    nm ≠ "" ∧
    (q = Some nm ∨ (nm = "TEST" ∧ (q = None ∨ q = Some ""))).
Proof.
  destruct q as [[|c s]|].
  - exists "TEST". repeat split; [done | right; eauto].
  - exists (String c s). repeat split; [done | by left].
  - exists "TEST". repeat split; [done | right; eauto].
Qed.

(** ** Item service: listing again *)

Lemma map_m_cons {A B} (f : A → M B) x xs w :
  map_m f (x :: xs) w =
    match f x w with
    | (Ok y, w1) =>
        match map_m f xs w1 with
        | (Ok ys, w2) => (Ok (y :: ys), w2)
        | (Raise e, w2) => (Raise e, w2)
        end
    | (Raise e, w1) => (Raise e, w1)
    end.
Proof.
  cbn [map_m]. unfold mbind, M_bind, bind, ret.
  destruct (f x w) as [[y|e] w1]; [| done].
  by destruct (map_m f xs w1) as [[ys|e] w2].
Qed.

Lemma map_m_any_world {A B} (f : A → M B) xs w1 w2 :
  (∀ x w w', fst (f x w) = fst (f x w')) →
  fst (map_m f xs w1) = fst (map_m f xs w2).
Proof.
  intros Hf. revert w1 w2. induction xs as [|x xs IH]; intros w1 w2; [done |].
  rewrite !map_m_cons. specialize (Hf x w1 w2).
  destruct (f x w1) as [[y|e] w1'], (f x w2) as [[y2|e2] w2']; simpl in Hf;
    try discriminate Hf; [| by inversion Hf].
  inversion Hf. subst y2. specialize (IH w1' w2').
  destruct (map_m f xs w1') as [[ys|e] w1''], (map_m f xs w2') as [[ys2|e2] w2''];
    simpl in IH; try discriminate IH; simpl; congruence.
Qed.

Lemma nonempty_match {A B} (c : list A) (X Y : B) :
  c ≠ [] → match c with _ :: _ => X | [] => Y end = X.
Proof. by destruct c. Qed.

Lemma update_cache_no_changes env since w :
  unset since = false →
  pages_changes (dw env) (last_checked_ts w) = Ok [] →
  update_cache env since w =
    (Ok (now env),
     mkWorld (cache w) (last_checked_ts w)
             ((stdout w ++ [PrintChanged 0]) ++ [PrintCacheSize (length (cache w))])
             (requests w ++ [ReqChanges (last_checked_ts w)])).
Proof.
  intros Hset Hnone.
  assert (pages_to_refresh env since w =
            (Ok [],
             mkWorld (cache w) (last_checked_ts w) (stdout w ++ [PrintChanged 0])
                     (requests w ++ [ReqChanges (last_checked_ts w)]))) as Hpages.
  { unfold pages_to_refresh, wiki_changes. rewrite Hset. run. by rewrite Hnone. }
  by rewrite (update_cache_unfold _ _ _ _ _ Hpages).
Qed.

(** X21: listing again when nothing changed gives the same list: after a
    [list_items] that returned a list at a time other than 0, a second
    [list_items] to which the wiki reports no change since then returns
    the same items and leaves the cache as it is, whatever has happened to
    the pages in the meantime. *)
Theorem list_items_again_without_changes `{DateParser} env env2 w items w1 :
  list_items env w = (Ok items, w1) →
  now env ≠ 0 →
  pages_changes (dw env2) (Some (now env)) = Ok [] →
  fst (list_items env2 w1) = Ok items ∧
  cache (snd (list_items env2 w1)) = cache w1 ∧
  last_checked_ts (snd (list_items env2 w1)) = Some (now env2).
Proof.
  intros Hlist Hnow Hnone.
  destruct (list_items_ok _ _ _ _ Hlist) as (t & w0 & Hup & Hc & Hmap).
  assert (last_checked_ts w1 = Some (now env)) as Hts.
  { pose proof (map_m_same_ts
                  (fun i => d ← subscript (cache w0) i; _dw_to_item d)
                  (dict_keys (cache w0))) as Hkeep.
    specialize (Hkeep (ltac:(intros i; cbv beta; keeps_auto))
                  (mkWorld (cache w0) (Some t) (stdout w0) (requests w0))).
    rewrite Hmap in Hkeep. unfold same_ts in Hkeep. simpl in Hkeep.
    apply update_cache_watermark in Hup. by subst t. }
  assert (unset (last_checked_ts w1) = false) as Hset.
  { rewrite Hts. simpl. by apply Z.eqb_neq. }
  rewrite <- Hts in Hnone.
  pose proof (update_cache_no_changes env2 _ w1 Hset Hnone) as Hup2.
  rewrite (list_items_unfold _ _ _ _ Hup2). simpl.
  assert (cache w1 ≠ []) as Hne.
  { rewrite Hc. intros Hempty. rewrite (list_items_unfold _ _ _ _ Hup) in Hlist.
    rewrite Hempty in Hlist. discriminate Hlist. }
  rewrite nonempty_match by done.
  set (f := fun i => d ← subscript (cache w1) i; _dw_to_item d).
  set (w2 := mkWorld _ _ _ _).
  assert (∀ i, keeps same_cache (f i) ∧ keeps same_ts (f i)) as Hkeeps.
  { intros i. unfold f. split; keeps_auto. }
  split; [| split].
  - rewrite <- Hc in Hmap. fold f in Hmap.
    rewrite (map_m_any_world f _ w2
               (mkWorld (cache w1) (Some t) (stdout w0) (requests w0))).
    + by rewrite Hmap.
    + intros i wa wb. unfold f, mbind, M_bind, bind, subscript.
      destruct (dict_get i (cache w1)); [| done].
      unfold ret. by rewrite !dw_to_item_result.
  - apply (keeps_map_m same_cache f _ (fun i => proj1 (Hkeeps i)) w2).
  - apply (keeps_map_m same_ts f _ (fun i => proj2 (Hkeeps i)) w2).
Qed.

Lemma list_items_again_without_changes_witness :
  let items :=
    match fst (@list_items Sample.dates Sample.env_lab World_init) with
    | Ok items => items
    | Raise _ => []
    end in
  let w1 := snd (@list_items Sample.dates Sample.env_lab World_init) in
  fst (@list_items Sample.dates Sample.env_empty w1) = Ok items ∧
  cache (snd (@list_items Sample.dates Sample.env_empty w1)) = cache w1 ∧
  last_checked_ts (snd (@list_items Sample.dates Sample.env_empty w1))
    = Some (now Sample.env_empty).
Proof.
  apply (@list_items_again_without_changes Sample.dates Sample.env_lab
           Sample.env_empty World_init).
  - vm_compute. reflexivity.
  - discriminate.
  - reflexivity.
Defined.

(** ** Rebuild, then read *)

Lemma rebuild_loop env since w pgs t w' :
  unset since = true →
  pages_list (dw env) (wiki_path (settings env)) = Ok pgs →
  update_cache env since w = (Ok t, w') →
  ∃ wl,
    for_each pgs (refresh_page env)
      (mkWorld [] (last_checked_ts w) (stdout w)
               (requests w ++ [ReqList (wiki_path (settings env))])) = (Ok tt, wl) ∧
    cache w' = cache wl.
Proof.
  intros Hunset Hlist Hrun.
  pose proof (pages_to_refresh_unset env since w Hunset) as Hpages.
  rewrite Hlist in Hpages. unfold lift in Hpages.
  rewrite (update_cache_unfold _ _ _ _ _ Hpages) in Hrun.
  destruct (for_each pgs (refresh_page env) _) as [[[]|e] wl] eqn:Hloop;
    [| discriminate Hrun].
  exists wl. split; [done |]. by inversion Hrun.
Qed.

(** X23: after a [purge_cache] that ended normally, every listed item
    page can be read without the wiki: [read_item] of the uid of a listed
    page, without [purge_cache], finds the record in the cache, sends no
    request and returns the mapping of the cached record. *)
Theorem read_after_purge_hits_the_cache `{DateParser} env env' w r w' pgs pg k :
  purge_cache env w = (Ok r, w') →
  pages_list (dw env) (wiki_path (settings env)) = Ok pgs →
  pg ∈ pgs →
  page_uid pg = Some k →
  ∃ d,
    dict_get k (cache w') = Some d ∧
    fst (read_item env' k false w') = fst (_dw_to_item d w') ∧
    requests (snd (read_item env' k false w')) = requests w' ∧
    cache (snd (read_item env' k false w')) = cache w'.
Proof.
  intros Hpurge Hlist Hin Hk. rewrite purge_cache_unfold in Hpurge.
  destruct (update_cache env None w) as [[t|e] w1] eqn:Hup;
    [| discriminate Hpurge].
  inversion Hpurge. subst r w'. clear Hpurge. simpl.
  destruct (rebuild_loop env None w pgs t w1 eq_refl Hlist Hup) as (wl & Hloop & Hc).
  assert (dict_mem k (cache w1) = true) as Hmem.
  { rewrite Hc. apply (for_each_keys _ _ _ _ Hloop k). right. eauto. }
  unfold dict_mem in Hmem.
  destruct (dict_get k (cache w1)) as [d|] eqn:Hd; [| discriminate Hmem].
  exists d. split; [done |].
  set (w2 := mkWorld _ _ _ _).
  rewrite (read_item_hit env' k w2 d) by done.
  pose proof (dw_to_item_frame d w2) as (Hcache & _ & Hreq).
  by destruct (_dw_to_item d w2) as [[item|e] w3].
Qed.

Lemma read_after_purge_hits_the_cache_witness :
  ∃ d,
    dict_get 42 (cache (snd (purge_cache Sample.env_lab World_init))) = Some d ∧
    fst (@read_item Sample.dates Sample2.env_down 42 false
           (snd (purge_cache Sample.env_lab World_init)))
      = fst (@_dw_to_item Sample.dates d
               (snd (purge_cache Sample.env_lab World_init))) ∧
    requests (snd (@read_item Sample.dates Sample2.env_down 42 false
                     (snd (purge_cache Sample.env_lab World_init))))
      = requests (snd (purge_cache Sample.env_lab World_init)) ∧
    cache (snd (@read_item Sample.dates Sample2.env_down 42 false
                  (snd (purge_cache Sample.env_lab World_init))))
      = cache (snd (purge_cache Sample.env_lab World_init)).
Proof.
  apply (@read_after_purge_hits_the_cache Sample.dates Sample.env_lab
           Sample2.env_down World_init
           (mkReport (Some 1620000000) 1) _
           [[("id", "lab:ausstattung:042")]; [("id", "lab:ausstattung:readme")]]
           [("id", "lab:ausstattung:042")] 42).
  - vm_compute. reflexivity.
  - reflexivity.
  - apply list_elem_of_here.
  - reflexivity.
Defined.

(** ** Refresh without a watermark *)

Lemma ids_exact_nil : ids_exact [].
Proof. intros pg id Hin. by apply elem_of_nil in Hin. Qed.

Lemma ids_exact_cons pg pgs :
  (∀ id, dict_get "id" pg = Some id → int_exact id) →
  ids_exact pgs → ids_exact (pg :: pgs).
Proof.
  intros Hpg Hpgs pg' id [->|Hin]%elem_of_cons; [apply Hpg | by apply Hpgs].
Qed.

Lemma get_dataentry_any_world env item_id w1 w2 :
  fst (get_dataentry env item_id w1) = fst (get_dataentry env item_id w2).
Proof.
  unfold get_dataentry, wiki_info, wiki_get. run.
  destruct (pages_info (dw env) (page_of env item_id)) as [[|i info]|]; simpl;
    try done.
  by destruct (pages_get (dw env) (page_of env item_id)).
Qed.

Lemma for_each_entries env pgs w w' :
  for_each pgs (refresh_page env) w = (Ok tt, w') →
  (∀ k data, dict_get k (cache w) = Some data → fetched env k data) →
  ∀ k data, dict_get k (cache w') = Some data → fetched env k data.
Proof.
  revert w. induction pgs as [|pg pgs IH]; intros w Hrun Hold.
  - by inversion Hrun; subst.
  - rewrite for_each_cons in Hrun.
    destruct (refresh_page env pg w) as [[[]|e] w1] eqn:Hpg; [| discriminate Hrun].
    apply (IH _ Hrun). clear IH Hrun.
    apply refresh_page_ok in Hpg. destruct (page_uid pg) as [u|].
    + destruct Hpg as (data & Hdata & ->). intros k d.
      destruct (decide (u = k)) as [->|Hne].
      * rewrite dict_get_set_eq. intros [= <-] w0.
        by rewrite (get_dataentry_any_world env k w0 w).
      * rewrite dict_get_set_ne by done. apply Hold.
    + by rewrite Hpg.
Qed.

(** C8: a refresh whose watermark is unset is the full rebuild.  On the
    same world and wiki, [update_cache] with an unset watermark and
    [update_cache()] give the same result and the same world, and so do the
    two endpoints while no refresh has set the watermark.  The old cache
    contents play no part: when the refresh ends normally, the cache has
    an entry exactly for the uids of the pages that the listing of the
    configured namespace names, each entry is the record that the wiki
    gives for that uid, and the watermark returned is the current time.
    The listed page identifiers are taken to be ASCII text of at most 4300
    characters, where reading an integer is the same in the model and in
    every interpreter. *)
Theorem refresh_unset_is_rebuild env since w :
  unset since = true →
  update_cache env since w = update_cache env None w ∧
  (last_checked_ts w = since → update_cache_now env w = purge_cache env w) ∧
  update_cache env since w = update_cache env None (with_cache [] w) ∧
  update_cache env since w =
    (pgs ← wiki_list env (wiki_path (settings env));
     for_each pgs (refresh_page env);;
     c ← get_cache;
     print (PrintCacheSize (length c));;
     ret (now env)) (with_cache [] w) ∧
  (∀ t w', update_cache env since w = (Ok t, w') → t = now env) ∧
  (∀ pgs t w',
     pages_list (dw env) (wiki_path (settings env)) = Ok pgs →
     ids_exact pgs →
     update_cache env since w = (Ok t, w') →
     (∀ k, dict_mem k (cache w') = true ↔
           ∃ pg, pg ∈ pgs ∧ page_uid pg = Some k) ∧
     (∀ k data, dict_get k (cache w') = Some data → fetched env k data)).
Proof.
  intros Hu.
  assert (update_cache env since w = update_cache env None w) as Hsame.
  { unfold update_cache. apply bind_same_start.
    by rewrite !pages_to_refresh_unset. }
  split; [done |]. split; [| split; [| split; [| split]]].
  - intros Hts.
    transitivity ((t ← update_cache env (last_checked_ts w);
                   set_ts (Some t);; report) w); [reflexivity |].
    unfold purge_cache. apply bind_same_start. by rewrite Hts.
  - rewrite Hsame. unfold update_cache. apply bind_same_start.
    by rewrite !pages_to_refresh_unset.
  - rewrite Hsame. unfold update_cache. by apply bind_same_start.
  - intros t w'. apply update_cache_watermark.
  - intros pgs t w' Hlist _ Hrun.
    destruct (rebuild_loop env since w pgs t w' Hu Hlist Hrun)
      as (wl & Hloop & ->).
    split.
    + intros k. rewrite (for_each_keys _ _ _ _ Hloop k). simpl.
      split; [intros [?|?]; done | by right].
    + apply (for_each_entries _ _ _ _ Hloop). intros k data Hk. discriminate Hk.
Qed.

Lemma refresh_unset_is_rebuild_witness :
  update_cache_now Sample.env_missing Sample2.stale
    = purge_cache Sample.env_missing Sample2.stale ∧
  (∀ k, dict_mem k [(7, []); (42, Sample.beamer)] = true ↔
        ∃ pg, pg ∈ [[("id", "lab:ausstattung:007")];
                    [("id", "lab:ausstattung:042")]]
              ∧ page_uid pg = Some k) ∧
  (∀ k data, dict_get k [(7, []); (42, Sample.beamer)] = Some data →
             fetched Sample.env_missing k data).
Proof.
  pose proof (refresh_unset_is_rebuild Sample.env_missing None Sample2.stale
                eq_refl) as (_ & Hendpoints & _ & _ & _ & Hcache).
  split; [by apply Hendpoints |].
  assert (ids_exact [[("id", "lab:ausstattung:007")];
                     [("id", "lab:ausstattung:042")]]) as Hids.
  { repeat apply ids_exact_cons; try apply ids_exact_nil;
      intros id [= <-]; (split; [reflexivity | simpl; lia]). }
  exact (Hcache [[("id", "lab:ausstattung:007")]; [("id", "lab:ausstattung:042")]]
                1620000000
                (mkWorld [(7, []); (42, Sample.beamer)] None
                   [PrintMissing "lab:ausstattung:007"; PrintCacheSize 2]
                   [ReqList "lab:ausstattung:"; ReqInfo "lab:ausstattung:007";
                    ReqInfo "lab:ausstattung:042"; ReqGet "lab:ausstattung:042"])
                eq_refl Hids eq_refl).
Defined.
